(** * yamldirs: the tree-to-filesystem materialiser of [yamldirs/filemaker.py]

    A shallow embedding of [FilemakerBase], [Filemaker], [FilemakerExplicit]
    and [create_files], over a model of the Python values the YAML loader
    hands to them and of the part of the operating system they call. *)

From stdpp Require Import base decidable option list strings pretty gmap.
From Stdlib Require Import ZArith Lia Ascii String.

Local Open Scope string_scope.
Local Open Scope Z_scope.

(** ** Python values *)

(** [datetime.date]: the three fields, as Python stores them. *)
Record date := Date { year : Z; month : Z; day : Z }.

(** The time-of-day part of a [datetime.datetime]. *)
Record time := Time { hour : Z; minute : Z; second : Z; microsecond : Z }.

(** The values [YAML(typ='safe').load] builds for the core YAML types: null,
    booleans, integers, floats, strings, timestamps (a [datetime.date] when
    the scalar has no time part, a [datetime.datetime] otherwise), sequences
    and mappings; the tagged extras ([!!binary], [!!set], [!!omap]) are left
    out.  A [dict] is kept as the list of its entries in insertion order, in
    which every key occurs once.  A float is carried as the text [str] gives
    for it: binary floating point and its printing are outside the model. *)
#[local] Unset Elimination Schemes.
Inductive pyval :=
| VNone
| VBool (b : bool)
| VInt (z : Z)
| VFloat (repr : string)
| VStr (s : string)
| VDate (d : date)
| VDateTime (d : date) (t : time)
| VList (lst : list pyval)
| VDict (dct : list (pyval * pyval)).
#[local] Set Elimination Schemes.

(** [type(val)] for the values above. *)
Inductive pytype :=
| TNoneType | Tbool | Tint | Tfloat | Tstr | Tdate | Tdatetime | Tlist | Tdict.

Definition type (val : pyval) : pytype :=
  match val with
  | VNone => TNoneType
  | VBool _ => Tbool
  | VInt _ => Tint
  | VFloat _ => Tfloat
  | VStr _ => Tstr
  | VDate _ => Tdate
  | VDateTime _ _ => Tdatetime
  | VList _ => Tlist
  | VDict _ => Tdict
  end.

(** The classes and abstract base classes [filemaker.py] tests against. *)
Inductive pyclass :=
| Cls (t : pytype)
| Cbasestring      (* [(str, bytes)], bound at line 19; no [bytes] here *)
| CNumber.         (* [numbers.Number] *)

Definition pytype_eqb (a b : pytype) : bool :=
  match a, b with
  | TNoneType, TNoneType | Tbool, Tbool | Tint, Tint | Tfloat, Tfloat
  | Tstr, Tstr | Tdate, Tdate | Tdatetime, Tdatetime | Tlist, Tlist
  | Tdict, Tdict => true
  | _, _ => false
  end.

(** Python's class hierarchy on these types: [bool] derives from [int],
    [datetime] from [date]; [int], [float] (and so [bool]) are registered
    with [numbers.Number]. *)
Definition issubclass (t : pytype) (c : pyclass) : bool :=
  match c with
  | Cls u =>
      pytype_eqb t u
      || match t, u with
         | Tbool, Tint | Tdatetime, Tdate => true
         | _, _ => false
         end
  | Cbasestring => pytype_eqb t Tstr
  | CNumber =>
      match t with
      | Tint | Tfloat | Tbool => true
      | _ => false
      end
  end.

Definition isinstance (val : pyval) (c : pyclass) : bool :=
  issubclass (type val) c.

(** ** Exceptions and the result of a call *)

(** What an [UnknownType] is raised with.  [value2str] formats
    ["Don't know what to do with %r of type %s" % (val, type(val))]: the
    message is kept as its two arguments.  [FilemakerExplicit] raises it with
    a fixed text about the structure. *)
Inductive unknown_type_msg :=
| DontKnowValue (val : pyval) (ty : pytype)
| DontKnowStructure.

Inductive exn :=
| UnknownType (msg : unknown_type_msg)
| TypeError
| ValueError
| IndexError
| LookupError
| OverflowError
| OSError                (* an [OSError] of no more specific class *)
| FileExistsError
| FileNotFoundError
| NotADirectoryError
| IsADirectoryError
| PermissionError.

Definition is_PermissionError (e : exn) : bool :=
  match e with PermissionError => true | _ => false end.

(** A call either returns a value or raises; the state it leaves behind is
    kept in both cases, the side effects made before a [raise] stay. *)
Inductive result (St A : Type) :=
| Ok (a : A) (s : St)
| Raise (e : exn) (s : St).
Arguments Ok {St A} a s.
Arguments Raise {St A} e s.

Definition M (St A : Type) : Type := St -> result St A.

Definition ret {St A} (a : A) : M St A := fun s => Ok a s.
Definition raise {St A} (e : exn) : M St A := fun s => Raise e s.
Definition bind {St A B} (m : M St A) (k : A -> M St B) : M St B :=
  fun s => match m s with
           | Ok a s' => k a s'
           | Raise e s' => Raise e s'
           end.

Declare Scope py_scope.
Delimit Scope py_scope with py.
Notation "'let*' x ':=' m 'in' k" := (bind m (fun x => k))
  (at level 10, x pattern, m at level 100, k at level 200) : py_scope.
Notation "m ';;' k" := (bind m (fun _ => k))
  (at level 100, k at level 200, right associativity) : py_scope.
Local Open Scope py_scope.

(** [try: m  except PermissionError: h]. *)
Definition try_except_PermissionError {St A} (m h : M St A) : M St A :=
  fun s => match m s with
           | Ok a s' => Ok a s'
           | Raise e s' => if is_PermissionError e then h s' else Raise e s'
           end.

(** [try: m  finally: f]: [f] runs on every exit of [m]; an exception of
    [m] is raised again after [f], unless [f] raises itself. *)
Definition try_finally {St A} (m : M St A) (f : M St unit) : M St A :=
  fun s => match m s with
           | Ok a s' => match f s' with
                        | Ok _ s'' => Ok a s''
                        | Raise e s'' => Raise e s''
                        end
           | Raise e s' => match f s' with
                           | Ok _ s'' => Raise e s''
                           | Raise e' s'' => Raise e' s''
                           end
           end.

(** [for x in l: body x]. *)
Definition for_ {St A} (body : A -> M St unit) : list A -> M St unit :=
  fix loop (l : list A) : M St unit :=
    match l with
    | [] => ret tt
    | x :: l' => body x ;; loop l'
    end.

(** The state a call leaves, however it ends. *)
Definition state_of {St A} (r : result St A) : St :=
  match r with Ok _ s => s | Raise _ s => s end.

(** ** Text forms *)

(** [str(z)] for an [int]. *)
Definition str_int (z : Z) : string := pretty z.

(** [str(b)] for a [bool]. *)
Definition str_bool (b : bool) : string := if b then "True" else "False".

(** ["%0<width>d" % z] for [0 <= z]: zeros on the left up to [width]. *)
Fixpoint zeros (n : nat) : string :=
  match n with O => "" | S n' => String "0"%char (zeros n') end.

Definition zfill (width : nat) (s : string) : string :=
  zeros (width - String.length s) +:+ s.

(** [date.isoformat]: ["%04d-%02d-%02d" % (year, month, day)]. *)
Definition isoformat (d : date) : string :=
  zfill 4 (str_int (year d)) +:+ "-" +:+ zfill 2 (str_int (month d))
    +:+ "-" +:+ zfill 2 (str_int (day d)).

(** The dates [datetime.date] can hold. *)
Definition is_leap (y : Z) : bool :=
  (y mod 4 =? 0) && (negb (y mod 100 =? 0) || (y mod 400 =? 0)).

Definition days_in_month (y m : Z) : Z :=
  if m =? 2 then (if is_leap y then 29 else 28)
  else if (m =? 4) || (m =? 6) || (m =? 9) || (m =? 11) then 30
  else 31.

Definition valid_date (d : date) : Prop :=
  1 <= year d <= 9999 /\ 1 <= month d <= 12
  /\ 1 <= day d <= days_in_month (year d) (month d).

(** ** FilemakerBase.value2str

    The tests are those of the source, in its order.  The inner [match]
    takes the payload out of a value whose class is known by then; its
    last branch is never reached ([value2str_cases]). *)

Definition value2str {St} (val : pyval) : M St string :=
  if isinstance val Cbasestring then
    match val with VStr s => ret s | _ => raise TypeError end
  else if isinstance val CNumber then
    match val with
    | VInt z => ret (str_int z)
    | VBool b => ret (str_bool b)
    | VFloat r => ret r
    | _ => raise TypeError
    end
  else if pytype_eqb (type val) Tdate then
    match val with VDate d => ret (isoformat d) | _ => raise TypeError end
  else raise (UnknownType (DontKnowValue val (type val))).

(** ** The operating system

    The file system is a table from absolute paths to entries; a path is the
    list of its components below [/].  There are no symbolic links and no
    access control on creating or removing entries; changes of mode and
    ownership are subject to the kernel's decision, which depends on
    credentials the table does not hold and is therefore a field of the
    state ([allowed]). *)

Abbreviation path := (list string).

Inductive kind :=
| Dir
| File (content : string).

(** An entry with the metadata [FilemakerExplicit] sets; [None] stands for
    what the entry got when it was created (umask, process credentials). *)
Record node := Node {
  nd_kind : kind;
  nd_mode : option Z;
  nd_uid : option Z;
  nd_gid : option Z
}.

Definition new_dir : node := Node Dir None None None.
Definition new_file (content : string) : node :=
  Node (File content) None None None.

Inductive attr_change :=
| Chmod (mode : Z)
| Chown (uid : Z)
| Chgrp (gid : Z).

(** A line on standard output.  The three warnings of [FilemakerExplicit]
    are [f"Unable to set the {what} {value} to {filename}."], kept as their
    arguments. *)
Inductive line :=
| Unable (what : string) (value filename : pyval).

Record os_state := OS {
  cwd : path;                               (* [os.getcwd()] *)
  fs : gmap path node;
  stdout : list line;
  passwd : string -> option Z;              (* [pwd.getpwnam(name).pw_uid] *)
  groups : string -> option Z;              (* [grp.getgrnam(name).gr_gid] *)
  allowed : path -> attr_change -> bool     (* may this process do that? *)
}.

Definition set_cwd (p : path) (w : os_state) : os_state :=
  OS p (fs w) (stdout w) (passwd w) (groups w) (allowed w).
Definition set_fs (f : gmap path node) (w : os_state) : os_state :=
  OS (cwd w) f (stdout w) (passwd w) (groups w) (allowed w).
Definition print (l : line) : M os_state unit :=
  fun w => Ok tt (OS (cwd w) (fs w) (stdout w ++ [l])%list (passwd w) (groups w)
                     (allowed w)).

Definition is_dir (f : gmap path node) (p : path) : bool :=
  match f !! p with
  | Some (Node Dir _ _ _) => true
  | _ => false
  end.

Definition parent (p : path) : path := removelast p.

(** [name.split("/")]. *)
Fixpoint split_slash (name : string) : list string :=
  match name with
  | EmptyString => [""]
  | String c rest =>
      if Ascii.eqb c "/"%char then "" :: split_slash rest
      else match split_slash rest with
           | [] => [String c ""]
           | w :: ws => String c w :: ws
           end
  end.

Definition nonempty (c : string) : bool := negb (String.eqb c "").

(** The components of a path name: repeated slashes count once. *)
Definition components (name : string) : list string :=
  filter (fun c => nonempty c = true) (split_slash name).

Definition isabs (name : string) : bool :=
  match name with
  | String c _ => Ascii.eqb c "/"%char
  | EmptyString => false
  end.

Fixpoint has_nul (name : string) : bool :=
  match name with
  | EmptyString => false
  | String c rest => Ascii.eqb c Ascii.zero || has_nul rest
  end.

Definition trailing_slash (name : string) : bool :=
  match last (split_slash name) with
  | Some c => negb (nonempty c) && negb (String.eqb name "")
  | None => false
  end.

(** One component further from [p]. *)
Definition step (p : path) (c : string) : path :=
  if String.eqb c "." then p
  else if String.eqb c ".." then parent p
  else (p ++ [c])%list.

(** [os.path.abspath(name)]: join with the working directory unless
    absolute, then normalise textually. *)
Definition abspath (w : os_state) (name : string) : path :=
  fold_left step (components name) (if isabs name then [] else cwd w).

(** The kernel's walk along the components of a name: every component is
    looked up in a directory.  The entry reached need not exist. *)
Fixpoint namei (f : gmap path node) (p : path) (comps : list string)
  : exn + path :=
  match comps with
  | [] => inr p
  | c :: rest =>
      match f !! p with
      | Some (Node Dir _ _ _) => namei f (step p c) rest
      | Some _ => inl NotADirectoryError
      | None => inl FileNotFoundError
      end
  end.

(** The entry a path name designates for a system call. *)
Definition resolve (w : os_state) (name : string) : exn + path :=
  if has_nul name then inl ValueError
  else if String.eqb name "" then inl FileNotFoundError
  else namei (fs w) (if isabs name then [] else cwd w) (components name).

(** The same for a call on an entry that has to exist. *)
Definition resolve_existing (w : os_state) (name : string) : exn + path :=
  match resolve w name with
  | inl e => inl e
  | inr p =>
      match fs w !! p with
      | None => inl FileNotFoundError
      | Some (Node Dir _ _ _) => inr p
      | Some _ => if trailing_slash name then inl NotADirectoryError else inr p
      end
  end.

(** [os.getcwd()].  The working directory is taken to exist: in one that
    has been removed the call raises [FileNotFoundError]. *)
Definition os_getcwd : M os_state path := fun w => Ok (cwd w) w.

(** [os.path.abspath(dirname)], for the values of [pyval]: the library
    takes [bytes] and [os.PathLike] names as well, which are no such
    values. *)
Definition os_path_abspath (dirname : pyval) : M os_state path :=
  match dirname with
  | VStr name => fun w => Ok (abspath w name) w
  | _ => raise TypeError
  end.

(** [os.chdir(p)] for an absolute, normalised [p], which is what every call
    of the module passes.  A name with a NUL in it is refused with
    [ValueError], as by [resolve]; no entry of a file system has such a
    name, so the test is made where no entry is found. *)
Definition os_chdir (p : path) : M os_state unit :=
  fun w => match fs w !! p with
           | Some (Node Dir _ _ _) => Ok tt (set_cwd p w)
           | Some _ => Raise NotADirectoryError w
           | None => if existsb has_nul p then Raise ValueError w
                     else Raise FileNotFoundError w
           end.

(** [os.mkdir(dirname)].  The limits a file system puts on the length of a
    name and of a path ([ENAMETOOLONG]) are not modelled. *)
Definition os_mkdir (dirname : pyval) : M os_state unit :=
  match dirname with
  | VStr name =>
      fun w => match resolve w name with
               | inl e => Raise e w
               | inr p =>
                   match fs w !! p with
                   | Some _ => Raise FileExistsError w
                   | None =>
                       match fs w !! parent p with
                       | Some (Node Dir _ _ _) =>
                           Ok tt (set_fs (<[p := new_dir]> (fs w)) w)
                       | Some _ => Raise NotADirectoryError w
                       | None => Raise FileNotFoundError w
                       end
                   end
               end
  | _ => raise TypeError
  end.

(** [open(filename, 'w')]: the file is created, or emptied when it exists.
    An [int] names a file descriptor; the model has no table of open
    descriptors and answers as the kernel does for one that is not open. *)
Definition open_w (filename : pyval) : M os_state path :=
  match filename with
  | VStr name =>
      fun w => match resolve w name with
               | inl e => Raise e w
               | inr p =>
                   match fs w !! p with
                   | Some (Node Dir _ _ _) => Raise IsADirectoryError w
                   | Some (Node (File _) m u g) =>
                       if trailing_slash name then Raise NotADirectoryError w
                       else Ok p (set_fs (<[p := Node (File "") m u g]> (fs w)) w)
                   | None =>
                       if trailing_slash name then Raise IsADirectoryError w
                       else match fs w !! parent p with
                            | Some (Node Dir _ _ _) =>
                                Ok p (set_fs (<[p := new_file ""]> (fs w)) w)
                            | Some _ => Raise NotADirectoryError w
                            | None => Raise FileNotFoundError w
                            end
                   end
               end
  | VInt z => if z <? 0 then raise ValueError else raise OSError
  | VBool _ => raise OSError
  | _ => raise TypeError
  end.

(** [fp.write(content)] on a file just opened with ['w']. *)
Definition fp_write (fp : path) (content : pyval) : M os_state unit :=
  match content with
  | VStr text =>
      fun w => match fs w !! fp with
               | Some (Node _ m u g) =>
                   Ok tt (set_fs (<[fp := Node (File text) m u g]> (fs w)) w)
               | None => Raise OSError w
               end
  | _ => raise TypeError
  end.

(** An argument that has to be an [int] ([bool] is one). *)
Definition as_int (val : pyval) : option Z :=
  match val with
  | VInt z => Some z
  | VBool b => Some (if b then 1 else 0)
  | _ => None
  end.

(** The path argument of [os.chmod] and [os.chown]: a name, or a file
    descriptor (see [open_w]). *)
Definition path_arg (filename : pyval) (w : os_state) : exn + path :=
  match filename with
  | VStr name => resolve_existing w name
  | VInt _ | VBool _ => inl OSError
  | _ => inl TypeError
  end.

Definition path_arg_typed (filename : pyval) : bool :=
  match filename with
  | VStr _ | VInt _ | VBool _ => true
  | _ => false
  end.

Definition set_attr (c : attr_change) (n : node) : node :=
  match c with
  | Chmod m => Node (nd_kind n) (Some (Z.land m 4095)) (nd_uid n) (nd_gid n)
  | Chown u => Node (nd_kind n) (nd_mode n) (Some u) (nd_gid n)
  | Chgrp g => Node (nd_kind n) (nd_mode n) (nd_uid n) (Some g)
  end.

(** The system call behind [os.chmod] and [os.chown]. *)
Definition change_attr (filename : pyval) (c : attr_change)
  : M os_state unit :=
  fun w => match path_arg filename w with
           | inl e => Raise e w
           | inr p =>
               if allowed w p c then
                 Ok tt (set_fs (alter (set_attr c) p (fs w)) w)
               else Raise PermissionError w
           end.

(** [os.chmod(filename, mode)]. *)
Definition os_chmod (filename mode : pyval) : M os_state unit :=
  if path_arg_typed filename then
    match as_int mode with
    | Some m =>
        if (m <? - 2 ^ 31) || (2 ^ 31 <=? m) then raise OverflowError
        else change_attr filename (Chmod m)
    | None => raise TypeError
    end
  else raise TypeError.

(** [os.chown(filename, uid, gid)] with one of the two ids given and [-1]
    (leave as it is) for the other. *)
Definition os_chown (filename : pyval) (id : pyval) (mk : Z -> attr_change)
  : M os_state unit :=
  if path_arg_typed filename then
    match as_int id with
    | Some i =>
        if (i <? -1) || (2 ^ 32 <=? i) then raise OverflowError
        else if i =? -1 then
          (fun w => match path_arg filename w with
                    | inl e => Raise e w
                    | inr _ => Ok tt w
                    end)
        else change_attr filename (mk i)
    | None => raise TypeError
    end
  else raise TypeError.

(** [shutil.chown(filename, user=user)]. *)
Definition shutil_chown_user (filename user : pyval) : M os_state unit :=
  match user with
  | VNone => raise ValueError
  | VStr name =>
      fun w => match passwd w name with
               | None => Raise LookupError w
               | Some uid => os_chown filename (VInt uid) Chown w
               end
  | _ => os_chown filename user Chown
  end.

(** [shutil.chown(filename, group=group)]. *)
Definition shutil_chown_group (filename group : pyval) : M os_state unit :=
  match group with
  | VNone => raise ValueError
  | VInt _ | VBool _ => os_chown filename group Chgrp
  | VStr name =>
      fun w => match groups w name with
               | None => Raise LookupError w
               | Some gid => os_chown filename (VInt gid) Chgrp w
               end
  | _ => raise TypeError
  end.

(** [tempfile.mkdtemp()]: a new directory under the directory for temporary
    files.  The name the library draws is an argument; when it is taken the
    library gives up (after drawing again, in the real one). *)
Definition tempfile_mkdtemp (fresh : path) : M os_state path :=
  fun w => match fs w !! fresh with
           | Some _ => Raise FileExistsError w
           | None =>
               match fs w !! parent fresh with
               | Some (Node Dir _ _ _) =>
                   Ok fresh (set_fs (<[fresh := new_dir]> (fs w)) w)
               | Some _ => Raise NotADirectoryError w
               | None => Raise FileNotFoundError w
               end
           end.

(** The text of an absolute path, as [os.getcwd] and [tempfile.mkdtemp]
    return it. *)
Definition path_str (p : path) : string :=
  match p with
  | [] => "/"
  | _ => fold_right (fun c acc => "/" +:+ c +:+ acc) "" p
  end.

(** [os.path.realpath(p)]: nothing to resolve without symbolic links. *)
Definition os_path_realpath (p : path) : path := p.

Definition below (root p : path) : Prop := root `prefix_of` p.

(** [shutil.rmtree(p, ignore_errors=True)]: the directory and all below it
    go; when [p] is no directory the error is swallowed and nothing goes. *)
Definition shutil_rmtree (p : path) : M os_state unit :=
  fun w => if is_dir (fs w) p
           then Ok tt (set_fs (filter (fun e => ~ below p e.1) (fs w)) w)
           else Ok tt w.

(** ** FilemakerBase

    The methods a subclass overrides, as a record over the state of the
    object (and of the world it acts on); the bodies the base class gives
    them only print the call.  The YAML text is decoded by [ruamel.yaml];
    the constructor is given the decoded value [fdef]. *)

Record backend (St : Type) := Backend {
  mkdir : pyval -> M St unit;
  pushd : pyval -> M St unit;
  popd : M St unit;
  make_file : pyval -> pyval -> M St unit
}.
Arguments mkdir {St} _ _.
Arguments pushd {St} _ _.
Arguments popd {St} _.
Arguments make_file {St} _ _ _.

(** [isinstance(v, (list, dict, NoneType))]. *)
Definition is_list_dict_None (v : pyval) : bool :=
  isinstance v (Cls Tlist) || isinstance v (Cls Tdict)
  || isinstance v (Cls TNoneType).

Module FilemakerBase.
Section methods.
Context {St : Type} (self : backend St).

(** [make_list_item], with [self._make_item] as [_make_item]. *)
Definition make_list_item_ (_make_item : pyval -> M St unit)
    (lst : list pyval) : M St unit :=
  for_ (fun item => _make_item item) lst.

(** [make_dict_item], with [self._make_item] as [_make_item]. *)
Definition make_dict_item_ (_make_item : pyval -> M St unit)
    (dct : list (pyval * pyval)) : M St unit :=
  for_ (fun '(k, v) =>
          let* k := value2str k in
          if is_list_dict_None v then
            mkdir self (VStr k) ;;
            pushd self (VStr k) ;;
            match v with
            | VNone => ret tt
            | _ => _make_item v
            end ;;
            popd self
          else
            let* content := value2str v in
            make_file self (VStr k) (VStr content)) dct.

Fixpoint _make_item (item : pyval) : M St unit :=
  match item with
  | VDict dct => make_dict_item_ _make_item dct
  | VList lst => make_list_item_ _make_item lst
  | _ => let* name := value2str item in
         make_file self (VStr name) (VStr "")
  end.

Definition make_list_item := make_list_item_ _make_item.
Definition make_dict_item := make_dict_item_ _make_item.

(** [__init__(self, root, fdef)]. *)
Definition __init__ (root fdef : pyval) : M St unit :=
  pushd self root ;;
  _make_item fdef.
End methods.
End FilemakerBase.

(** ** Filemaker *)

(** An instance ([self._curdir]) together with the world it acts on. *)
Record filemaker := Self {
  world : os_state;
  _curdir : list path
}.

(** A call into the operating system from a method. *)
Definition sys {A} (m : M os_state A) : M filemaker A :=
  fun self => match m (world self) with
              | Ok a w => Ok a (Self w (_curdir self))
              | Raise e w => Raise e (Self w (_curdir self))
              end.

(** [self._curdir.append(p)]. *)
Definition _curdir_append (p : path) : M filemaker unit :=
  fun self => Ok tt (Self (world self) (_curdir self ++ [p])%list).

(** [self._curdir.pop()]. *)
Definition _curdir_pop : M filemaker path :=
  fun self => match last (_curdir self) with
              | Some p => Ok p (Self (world self) (removelast (_curdir self)))
              | None => Raise IndexError self
              end.

Module Filemaker.
Definition mkdir (dirname : pyval) : M filemaker unit :=
  sys (os_mkdir dirname).

Definition pushd (dirname : pyval) : M filemaker unit :=
  let* dirname := sys (os_path_abspath dirname) in
  let* here := sys os_getcwd in
  _curdir_append here ;;
  sys (os_chdir dirname).

Definition popd : M filemaker unit :=
  let* back := _curdir_pop in
  sys (os_chdir back).

Definition make_file (filename content : pyval) : M filemaker unit :=
  let* fp := sys (open_w filename) in
  sys (fp_write fp content).

Definition methods : backend filemaker :=
  Backend filemaker mkdir pushd popd make_file.

Definition _make_item : pyval -> M filemaker unit :=
  FilemakerBase._make_item methods.

(** [Filemaker(root, fdef)], from the state of the world to the new
    object. *)
Definition __init__ (root fdef : pyval) : M filemaker unit :=
  FilemakerBase.__init__ methods root fdef.

Definition new (root fdef : pyval) (w : os_state) : result filemaker unit :=
  __init__ root fdef (Self w []).
End Filemaker.

(** ** FilemakerExplicit *)

(** [key == name] for a key of a mapping and a text constant. *)
Definition is_key (name : string) (key : pyval) : bool :=
  match key with
  | VStr s => String.eqb s name
  | _ => false
  end.

(** [dct[name]] when [name in dct]. *)
Fixpoint dict_get (name : string) (dct : list (pyval * pyval))
  : option pyval :=
  match dct with
  | [] => None
  | (k, v) :: rest => if is_key name k then Some v else dict_get name rest
  end.

(** [name in dct]. *)
Definition dict_has (name : string) (dct : list (pyval * pyval)) : bool :=
  match dict_get name dct with Some _ => true | None => false end.

(** The methods of [FilemakerExplicit]: those of the base class and the
    three handlers of [self.keywords]. *)
Record backend_explicit (St : Type) := BackendExplicit {
  base : backend St;
  make_item_mode : pyval -> pyval -> M St unit;
  make_item_user : pyval -> pyval -> M St unit;
  make_item_group : pyval -> pyval -> M St unit
}.
Arguments base {St} _.
Arguments make_item_mode {St} _ _ _.
Arguments make_item_user {St} _ _ _.
Arguments make_item_group {St} _ _ _.

Module FilemakerExplicit.
Section methods.
Context {St : Type} (self : backend_explicit St).

(** [self.keywords[key]] when [key in self.keywords]. *)
Definition keywords (key : pyval) : option (pyval -> pyval -> M St unit) :=
  if is_key "mode" key then Some (make_item_mode self)
  else if is_key "user" key then Some (make_item_user self)
  else if is_key "group" key then Some (make_item_group self)
  else None.

(** The body of the loop [for key in dct] of [make_dict_item].  It reads
    [dct[key]]: in a [dict] that is the value of the entry the loop is
    at. *)
Definition for_key_ (_make_item : pyval -> M St unit) (current : pyval)
    (entry : pyval * pyval) : M St unit :=
  let '(key, v) := entry in
  if is_key "children" key then
    pushd (base self) current ;;
    _make_item v ;;
    popd (base self)
  else
    match keywords key with
    | Some handler => handler current v
    | None => ret tt
    end.

(** [make_dict_item], with [self._make_item] as [_make_item]. *)
Definition make_dict_item_ (_make_item : pyval -> M St unit)
    (dct : list (pyval * pyval)) : M St unit :=
  if dict_has "directory" dct || dict_has "file" dct then
    let* current :=
      match dict_get "directory" dct with
      | Some dirname =>
          mkdir (base self) dirname ;;
          ret dirname
      | None =>
          match dict_get "file" dct with
          | Some filename =>
              let content :=
                match dict_get "content" dct with
                | Some c => c
                | None => VStr ""
                end in
              make_file (base self) filename content ;;
              ret filename
          | None => ret VNone
          end
      end in
    for_ (for_key_ _make_item current) dct
  else raise (UnknownType DontKnowStructure).

(** Inherited from [FilemakerBase], calling the method above. *)
Fixpoint _make_item (item : pyval) : M St unit :=
  match item with
  | VDict dct => make_dict_item_ _make_item dct
  | VList lst => FilemakerBase.make_list_item_ _make_item lst
  | _ => let* name := value2str item in
         make_file (base self) (VStr name) (VStr "")
  end.

Definition make_dict_item := make_dict_item_ _make_item.
Definition for_key := for_key_ _make_item.

Definition __init__ (root fdef : pyval) : M St unit :=
  pushd (base self) root ;;
  _make_item fdef.
End methods.

(** The same four bodies as in [Filemaker]. *)
Definition pushd (dirname : pyval) : M filemaker unit :=
  let* dirname := sys (os_path_abspath dirname) in
  let* here := sys os_getcwd in
  _curdir_append here ;;
  sys (os_chdir dirname).

Definition popd : M filemaker unit :=
  let* back := _curdir_pop in
  sys (os_chdir back).

Definition mkdir (dirname : pyval) : M filemaker unit :=
  sys (os_mkdir dirname).

Definition make_file (filename content : pyval) : M filemaker unit :=
  let* fp := sys (open_w filename) in
  sys (fp_write fp content).

Definition make_item_mode (filename mode : pyval) : M filemaker unit :=
  try_except_PermissionError
    (sys (os_chmod filename mode))
    (sys (print (Unable "mode" mode filename))).

Definition make_item_user (filename user : pyval) : M filemaker unit :=
  try_except_PermissionError
    (sys (shutil_chown_user filename user))
    (sys (print (Unable "user" user filename))).

Definition make_item_group (filename group : pyval) : M filemaker unit :=
  try_except_PermissionError
    (sys (shutil_chown_group filename group))
    (sys (print (Unable "group" group filename))).

Definition methods : backend_explicit filemaker :=
  BackendExplicit filemaker
    (Backend filemaker mkdir pushd popd make_file)
    make_item_mode make_item_user make_item_group.

Definition new (root fdef : pyval) (w : os_state) : result filemaker unit :=
  __init__ methods root fdef (Self w []).
End FilemakerExplicit.

(** [Filemaker(tmpdir, filedef)] as [create_files] calls it: the object is
    dropped, what it did to the world stays. *)
Definition materialize (tmpdir : path) (filedef : pyval) : M os_state unit :=
  fun w => match Filemaker.new (VStr (path_str tmpdir)) filedef w with
           | Ok _ self => Ok tt (world self)
           | Raise e self => Raise e (world self)
           end.

(** ** create_files

    The generator behind the context manager, with the body of the [with]
    statement run at the [yield]: [with create_files(filedef, cleanup) as d:
    body(d)].  [fresh] is the name [tempfile.mkdtemp] draws. *)
Definition create_files (fresh : path) (filedef : pyval) (cleanup : bool)
    (body : path -> M os_state unit) : M os_state unit :=
  let* cwd := os_getcwd in
  let* tmpdir := tempfile_mkdtemp fresh in
  let tmpdir := os_path_realpath tmpdir in
  try_finally
    (materialize tmpdir filedef ;;
     os_chdir tmpdir ;;
     body tmpdir)
    (os_chdir cwd ;;
     if cleanup then shutil_rmtree tmpdir else ret tt).

(** ** Counting the calls of the back end

    A subclass that notes every call before passing it on to the method it
    overrides.  The note is made when the call is made, whether it returns
    or raises. *)

Inductive call :=
| Call_mkdir (dirname : pyval)
| Call_pushd (dirname : pyval)
| Call_popd
| Call_make_file (filename content : pyval).

Definition noting {St A} (c : call) (m : M St A) : M (St * list call) A :=
  fun '(s, log) => match m s with
                   | Ok a s' => Ok a (s', (log ++ [c])%list)
                   | Raise e s' => Raise e (s', (log ++ [c])%list)
                   end.

Definition passing {St A} (m : M St A) : M (St * list call) A :=
  fun '(s, log) => match m s with
                   | Ok a s' => Ok a (s', log)
                   | Raise e s' => Raise e (s', log)
                   end.

Definition traced {St} (self : backend St) : backend (St * list call) :=
  Backend (St * list call)
    (fun dirname => noting (Call_mkdir dirname) (mkdir self dirname))
    (fun dirname => noting (Call_pushd dirname) (pushd self dirname))
    (noting Call_popd (popd self))
    (fun filename content =>
       noting (Call_make_file filename content)
              (make_file self filename content)).

Definition traced_explicit {St} (self : backend_explicit St)
  : backend_explicit (St * list call) :=
  BackendExplicit (St * list call)
    (traced (base self))
    (fun filename mode => passing (make_item_mode self filename mode))
    (fun filename user => passing (make_item_user self filename user))
    (fun filename group => passing (make_item_group self filename group)).

Definition is_pushd (c : call) : bool :=
  match c with Call_pushd _ => true | _ => false end.
Definition is_popd (c : call) : bool :=
  match c with Call_popd => true | _ => false end.

Definition count_pushd (log : list call) : nat :=
  List.length (List.filter is_pushd log).
Definition count_popd (log : list call) : nat :=
  List.length (List.filter is_popd log).

(** A traced run with the notes dropped. *)
Definition erase {St A} (r : result (St * list call) A) : result St A :=
  match r with
  | Ok a (s, _) => Ok a s
  | Raise e (s, _) => Raise e s
  end.

(** ** Words of the specification *)

(** The calendar form of ISO 8601, [YYYY-MM-DD], digit by digit. *)
Definition digit (n : Z) : ascii :=
  ascii_of_nat (48 + Z.to_nat (n mod 10)).

Definition iso8601_calendar (y m d : Z) : string :=
  String (digit (y / 1000)) (String (digit (y / 100)) (String (digit (y / 10))
    (String (digit y) (String "-"%char
    (String (digit (m / 10)) (String (digit m) (String "-"%char
    (String (digit (d / 10)) (String (digit d) ""))))))))).

(** A mapping without the entries under the given text keys. *)
Definition without (names : list string) (dct : list (pyval * pyval))
  : list (pyval * pyval) :=
  List.filter (fun '(k, _) => negb (existsb (fun n => is_key n k) names)) dct.

(** The kind of entry at a path, if any. *)
Definition kind_at (w : os_state) (p : path) : option kind :=
  nd_kind <$> fs w !! p.

(** ** Induction on values, through sequences and mappings *)

Definition pyval_ind (P : pyval -> Prop)
    (HNone : P VNone) (HBool : forall b, P (VBool b))
    (HInt : forall z, P (VInt z)) (HFloat : forall r, P (VFloat r))
    (HStr : forall s, P (VStr s)) (HDate : forall d, P (VDate d))
    (HDateTime : forall d t, P (VDateTime d t))
    (HList : forall lst, Forall P lst -> P (VList lst))
    (HDict : forall dct, Forall (fun kv => P kv.2) dct -> P (VDict dct))
  : forall v, P v :=
  fix go (v : pyval) : P v :=
    match v with
    | VNone => HNone
    | VBool b => HBool b
    | VInt z => HInt z
    | VFloat r => HFloat r
    | VStr s => HStr s
    | VDate d => HDate d
    | VDateTime d t => HDateTime d t
    | VList lst =>
        HList lst
          ((fix all (l : list pyval) : Forall P l :=
              match l with
              | [] => List.Forall_nil P
              | x :: l' => @List.Forall_cons _ P x l' (go x) (all l')
              end) lst)
    | VDict dct =>
        HDict dct
          ((fix all (l : list (pyval * pyval)) : Forall (fun kv => P kv.2) l :=
              match l with
              | [] => List.Forall_nil _
              | kv :: l' => @List.Forall_cons _ _ kv l' (go kv.2) (all l')
              end) dct)
    end.

(** ** A small world to run examples in *)

(** A process that may change no mode and no owner. *)
Definition unprivileged : path -> attr_change -> bool := fun _ _ => false.

(** [/home], the working directory, and an empty [/tmp/t]; no user or group
    is known by name. *)
Definition demo_world : os_state :=
  OS ["home"]
     {[ [] := new_dir; ["home"] := new_dir; ["tmp"] := new_dir;
        ["tmp"; "t"] := new_dir ]}
     [] (fun _ => None) (fun _ => None) unprivileged.

Definition demo_self : filemaker := Self demo_world [].

(** ** Predicates used in the statements *)

(** A value [value2str] has no rule for: no text, no number, and its type
    is not [date] itself. *)
Definition unsupported (val : pyval) : Prop :=
  isinstance val Cbasestring = false
  /\ isinstance val CNumber = false
  /\ type val <> Tdate.

(** Between two points of a traced run: the working directory and the
    stack of directories are the same, and as many [pushd] as [popd] have
    been called in between. *)
Definition balanced (a b : filemaker * list call) : Prop :=
  cwd (world b.1) = cwd (world a.1)
  /\ _curdir b.1 = _curdir a.1
  /\ (count_pushd b.2 + count_popd a.2 = count_pushd a.2 + count_popd b.2)%nat.

(** Between two states of the world: every directory is still one. *)
Definition keeps_dirs (a b : os_state) : Prop :=
  forall p, is_dir (fs a) p = true -> is_dir (fs b) p = true.

(** What a call into the system about modes and owners leaves alone,
    however it ends: the working directory and the kind of every entry. *)
Definition frame_os (w : os_state) (r : result os_state unit) : Prop :=
  cwd (state_of r) = cwd w
  /\ forall p, kind_at (state_of r) p = kind_at w p.


(** The same for a handler of [FilemakerExplicit], with the stack. *)
Definition frame_self (self : filemaker) (r : result filemaker unit) : Prop :=
  cwd (world (state_of r)) = cwd (world self)
  /\ _curdir (state_of r) = _curdir self
  /\ forall p, kind_at (world (state_of r)) p = kind_at (world self) p.


(** A traced call does what the call it traces does. *)
Definition simulates {St A} (mt : M (St * list call) A) (m : M St A) : Prop :=
  forall s log, erase (mt (s, log)) = m s.

(** ** The two dialects, run from a new object *)

Inductive dialect := Implicit | Explicit.

(** [Filemaker(root, fdef)] or [FilemakerExplicit(root, fdef)]. *)
Definition construct (d : dialect) (root fdef : pyval) (w : os_state)
  : result filemaker unit :=
  match d with
  | Implicit => Filemaker.new root fdef w
  | Explicit => FilemakerExplicit.new root fdef w
  end.

(** The same with the calls of the back end noted. *)
Definition construct_traced (d : dialect) (root fdef : pyval) (w : os_state)
  : result (filemaker * list call) unit :=
  match d with
  | Implicit =>
      FilemakerBase.__init__ (traced Filemaker.methods) root fdef
        (Self w [], [])
  | Explicit =>
      FilemakerExplicit.__init__ (traced_explicit FilemakerExplicit.methods)
        root fdef (Self w [], [])
  end.

(** The walk alone, [self._make_item(item)], with the calls noted. *)
Definition walk_traced (d : dialect) (item : pyval)
  : M (filemaker * list call) unit :=
  match d with
  | Implicit => FilemakerBase._make_item (traced Filemaker.methods) item
  | Explicit =>
      FilemakerExplicit._make_item (traced_explicit FilemakerExplicit.methods)
        item
  end.

(** The mapping [{"a": {"b": "hello", "c": [1, 2]}}]. *)
Definition example_tree : pyval :=
  VDict [(VStr "a",
          VDict [(VStr "b", VStr "hello");
                 (VStr "c", VList [VInt 1; VInt 2])])].

(** A name that is one plain component: no slash, no NUL, not empty, not
    [.] or [..]. *)
Definition plain_name (c : string) : bool :=
  negb (has_nul c) && nonempty c && negb (String.eqb c ".")
  && negb (String.eqb c "..")
  && match split_slash c with [c'] => String.eqb c' c | _ => false end.

(** What the loop of [FilemakerExplicit.make_dict_item] does at an entry
    whose key is not [children]. *)
Definition apply_keyword {St} (self : backend_explicit St) (current : pyval)
    (entry : pyval * pyval) : M St unit :=
  match FilemakerExplicit.keywords self entry.1 with
  | Some handler => handler current entry.2
  | None => ret tt
  end.

(** The state after a warning has been printed. *)
Definition warned (what : string) (value filename : pyval)
    (self : filemaker) : filemaker :=
  Self (state_of (print (Unable what value filename) (world self)))
       (_curdir self).

(** A call keeps a property of the state, however it ends. *)
Definition preserves {St A} (P : St -> Prop) (m : M St A) : Prop :=
  forall s, P s -> P (state_of (m s)).

(** ** The dry run: the methods of [FilemakerBase] itself

    The base class prints each step instead of doing it.  The state is what
    has been printed; a line is kept as the call it tells of (["mkdir " +
    dirname] as [Call_mkdir], ["create file: %s %r" % (filename, content)]
    as [Call_make_file]).  Joining ["mkdir "] with a value that is no text
    raises [TypeError]; the [%] format takes any value. *)

Module DryRun.
Definition mkdir (dirname : pyval) : M (list call) unit :=
  match dirname with
  | VStr _ => fun out => Ok tt (out ++ [Call_mkdir dirname])%list
  | _ => raise TypeError
  end.

Definition pushd (dirname : pyval) : M (list call) unit :=
  match dirname with
  | VStr _ => fun out => Ok tt (out ++ [Call_pushd dirname])%list
  | _ => raise TypeError
  end.

Definition popd : M (list call) unit :=
  fun out => Ok tt (out ++ [Call_popd])%list.

Definition make_file (filename content : pyval) : M (list call) unit :=
  fun out => Ok tt (out ++ [Call_make_file filename content])%list.

Definition methods : backend (list call) :=
  Backend (list call) mkdir pushd popd make_file.

(** [FilemakerBase(root, fdef)], from an empty output. *)
Definition new (root fdef : pyval) : result (list call) unit :=
  FilemakerBase.__init__ methods root fdef [].
End DryRun.

(** ** More predicates used in the statements *)

(** A value [value2str] has a rule for. *)
Definition coercible (val : pyval) : bool :=
  isinstance val Cbasestring || isinstance val CNumber
  || pytype_eqb (type val) Tdate.

(** Every key, every leaf under a key and every bare leaf of a tree is
    coercible; [None] under a key is no leaf. *)
Fixpoint all_coercible (item : pyval) : bool :=
  match item with
  | VDict dct =>
      forallb (fun '(k, v) =>
                 coercible k
                 && match v with
                    | VNone => true
                    | VList _ | VDict _ => all_coercible v
                    | _ => coercible v
                    end) dct
  | VList lst => forallb all_coercible lst
  | _ => coercible item
  end.

(** A call whose arguments are all instances of [basestring]. *)
Definition basestring_call (c : call) : Prop :=
  match c with
  | Call_mkdir name | Call_pushd name => isinstance name Cbasestring = true
  | Call_popd => True
  | Call_make_file name content =>
      isinstance name Cbasestring = true
      /\ isinstance content Cbasestring = true
  end.

(** How a call ended: [None] when it returned. *)
Definition raised {St A} (r : result St A) : option exn :=
  match r with Ok _ _ => None | Raise e _ => Some e end.

(** The walk with the calls noted does what the dry run prints: [made] by
    the one, [printed] by the other. *)
Definition foretold {St A} (mt : M (St * list call) A) (md : M (list call) A)
  : Prop :=
  forall s log out,
  exists made printed,
    (state_of (mt (s, log))).2 = (log ++ made)%list
    /\ state_of (md out) = (out ++ printed)%list
    /\ made `prefix_of` printed
    /\ forall a st, mt (s, log) = Ok a st ->
                    made = printed /\ md out = Ok a (out ++ printed)%list.

(** What a run of the dry walk is, by [all_coercible]. *)
Definition dry_outcome (ok : bool) (r : result (list call) unit) : Prop :=
  if ok then exists out', r = Ok tt out'
  else exists msg out', r = Raise (UnknownType msg) out'.

(** Between two states of an object: same working directory, same stack,
    and every directory is still one. *)
Definition settled (a b : filemaker) : Prop :=
  cwd (world b) = cwd (world a)
  /\ _curdir b = _curdir a
  /\ keeps_dirs (world a) (world b).

(** The keys [FilemakerExplicit.make_dict_item] looks at. *)
Definition recognized (key : pyval) : bool :=
  existsb (fun name => is_key name key)
    ["directory"; "file"; "content"; "children"; "mode"; "user"; "group"].

(** A mapping with the entries under recognized keys only. *)
Definition recognized_only (dct : list (pyval * pyval))
  : list (pyval * pyval) :=
  List.filter (fun '(k, _) => recognized k) dct.

(** The name [value2str] makes of a value is one plain component (values it
    has no rule for make no name). *)
Definition plain_value (val : pyval) : bool :=
  match @value2str unit val tt with
  | Ok name _ => plain_name name
  | Raise _ _ => true
  end.

(** A tree of the implicit dialect in which every name is plain: the keys of
    mappings and the leaves of sequences.  The content of a file is free. *)
Fixpoint all_plain (item : pyval) : bool :=
  match item with
  | VDict dct =>
      forallb (fun '(k, v) =>
                 plain_value k
                 && match v with
                    | VList _ | VDict _ => all_plain v
                    | _ => true
                    end) dct
  | VList lst => forallb all_plain lst
  | _ => plain_value item
  end.

(** Between two states of the world, no entry outside [root] has changed. *)
Definition untouched_outside (root : path) (a b : os_state) : Prop :=
  forall p, ~ below root p -> fs b !! p = fs a !! p.

(** A tree without a mapping: names, and sequences of such trees. *)
Fixpoint no_mapping (item : pyval) : bool :=
  match item with
  | VDict _ => false
  | VList lst => forallb no_mapping lst
  | _ => true
  end.
(** * Properties *)

(** ** Scalar coercion *)

Section coercion.
Context {St : Type}.
Implicit Types (s : St) (val : pyval).

(** [value2str] by the type of its argument. *)
Lemma value2str_cases val s :
  @value2str St val s =
    match val with
    | VStr text => Ok text s
    | VInt z => Ok (str_int z) s
    | VBool b => Ok (str_bool b) s
    | VFloat r => Ok r s
    | VDate d => Ok (isoformat d) s
    | _ => Raise (UnknownType (DontKnowValue val (type val))) s
    end.
Proof. destruct val; reflexivity. Qed.

(** Coercion is a pure function: the state is left as it is. *)
Lemma value2str_pure val s : state_of (@value2str St val s) = s.
Proof. rewrite value2str_cases. destruct val; reflexivity. Qed.
End coercion.

(** The four digits of a year, and the two of a month or a day, as
    [isoformat] pads them. *)
Lemma zfill_year y :
  1 <= y <= 9999 ->
  zfill 4 (str_int y) =
    String (digit (y / 1000)) (String (digit (y / 100))
      (String (digit (y / 10)) (String (digit y) ""))).
Proof.
  intros Hy.
  assert (Hall : forallb (fun y =>
            String.eqb (zfill 4 (str_int y))
              (String (digit (y / 1000)) (String (digit (y / 100))
                 (String (digit (y / 10)) (String (digit y) "")))))
            (seqZ 1 9999) = true) by (vm_compute; reflexivity).
  rewrite forallb_forall in Hall.
  apply String.eqb_eq, Hall, list_elem_of_In, elem_of_seqZ. lia.
Qed.

Lemma zfill_two n :
  1 <= n <= 31 ->
  zfill 2 (str_int n) = String (digit (n / 10)) (String (digit n) "").
Proof.
  intros Hn.
  assert (Hall : forallb (fun n =>
            String.eqb (zfill 2 (str_int n))
              (String (digit (n / 10)) (String (digit n) "")))
            (seqZ 1 31) = true) by (vm_compute; reflexivity).
  rewrite forallb_forall in Hall.
  apply String.eqb_eq, Hall, list_elem_of_In, elem_of_seqZ. lia.
Qed.

Lemma days_in_month_le y m : days_in_month y m <= 31.
Proof.
  unfold days_in_month.
  repeat match goal with |- context [if ?b then _ else _] => destruct b end;
    lia.
Qed.

Lemma isoformat_iso8601 d :
  valid_date d ->
  isoformat d = iso8601_calendar (year d) (month d) (day d).
Proof.
  intros (Hy & Hm & Hd).
  pose proof (days_in_month_le (year d) (month d)).
  unfold isoformat, iso8601_calendar.
  rewrite (zfill_year _ Hy), (zfill_two (month d)), (zfill_two (day d)) by lia.
  reflexivity.
Qed.

(** C5, as the code has it: a value whose type is exactly [date] is coerced
    to the ISO 8601 calendar form [YYYY-MM-DD]; a date-time value is not
    reduced to its date, the test [type(val) == datetime.date] turns it
    away and [UnknownType] is raised with the value and its type. *)
Theorem value2str_date_exact (St : Type) (s : St) (d : date) (t : time) :
  valid_date d ->
  value2str (VDate d) s
    = Ok (iso8601_calendar (year d) (month d) (day d)) s
  /\ String.length (iso8601_calendar (year d) (month d) (day d)) = 10%nat
  /\ value2str (VDateTime d t) s
    = Raise (UnknownType (DontKnowValue (VDateTime d t) Tdatetime)) s.
Proof.
  intros Hd. split; [|split]; [| reflexivity | reflexivity].
  rewrite value2str_cases. f_equal. apply isoformat_iso8601, Hd.
Qed.

Lemma value2str_date_exact_witness :
  value2str (VDate (Date 2016 1 2)) tt = Ok "2016-01-02" tt
  /\ value2str (VDateTime (Date 2016 1 2) (Time 13 30 0 0)) tt
     = Raise (UnknownType (DontKnowValue
                (VDateTime (Date 2016 1 2) (Time 13 30 0 0)) Tdatetime)) tt.
Proof.
  assert (Hv : valid_date (Date 2016 1 2)) by (vm_compute; intuition discriminate).
  destruct (value2str_date_exact unit tt (Date 2016 1 2) (Time 13 30 0 0) Hv)
    as (H1 & _ & H2).
  split; [exact H1 | exact H2].
Defined.

(** C5 as stated fails: a date-time is a [date] by [isinstance], yet its
    coercion does not give the calendar form of its date, it raises. *)
Lemma value2str_datetime_not_reduced :
  let val := VDateTime (Date 2016 1 2) (Time 13 30 0 0) in
  isinstance val (Cls Tdate) = true
  /\ value2str val tt <> Ok "2016-01-02" tt
  /\ value2str val tt = Raise (UnknownType (DontKnowValue val Tdatetime)) tt.
Proof. repeat split; [discriminate]. Qed.

Lemma unsupported_raises {St} (s : St) val :
  unsupported val ->
  value2str val s = Raise (UnknownType (DontKnowValue val (type val))) s.
Proof.
  intros (Hs & Hn & Hd). rewrite value2str_cases.
  destruct val; try reflexivity; try discriminate. now destruct Hd.
Qed.

Section coercion_contexts.
Context {St : Type} (self : backend St).
Implicit Types (s : St) (k v val : pyval).

(** Name context: a key of a mapping. *)
Lemma key_unsupported_raises k v rest s :
  unsupported k ->
  FilemakerBase.make_dict_item self ((k, v) :: rest) s
    = Raise (UnknownType (DontKnowValue k (type k))) s.
Proof.
  intros Hk. unfold FilemakerBase.make_dict_item,
    FilemakerBase.make_dict_item_. cbn [for_]. unfold bind at 1 2.
  now rewrite (unsupported_raises s k Hk).
Qed.

(** Name context: a bare scalar, at the top or in a sequence. *)
Lemma item_unsupported_raises val s :
  unsupported val -> is_list_dict_None val = false ->
  FilemakerBase._make_item self val s
    = Raise (UnknownType (DontKnowValue val (type val))) s.
Proof.
  intros Hval Hleaf.
  destruct val; try discriminate; cbn [FilemakerBase._make_item];
    unfold bind; now rewrite (unsupported_raises s _ Hval).
Qed.

(** Content context: the value under a key that is fine. *)
Lemma content_unsupported_raises k v rest s name :
  value2str k s = Ok name s ->
  unsupported v -> is_list_dict_None v = false ->
  FilemakerBase.make_dict_item self ((k, v) :: rest) s
    = Raise (UnknownType (DontKnowValue v (type v))) s.
Proof.
  intros Hk Hv Hleaf. unfold FilemakerBase.make_dict_item,
    FilemakerBase.make_dict_item_. cbn [for_]. unfold bind at 1 2.
  rewrite Hk, Hleaf. unfold bind. now rewrite (unsupported_raises s v Hv).
Qed.
End coercion_contexts.

(** C6, as the code has it: a leaf that is no text, no number and not of
    type [date] makes coercion raise [UnknownType] with the value and its
    type, for a name and for a content alike; a boolean is a number
    ([bool] derives from [int]) and is coerced to [True] or [False]. *)
Theorem value2str_unknown_type (St : Type) (self : backend St) (s : St)
    (val : pyval) :
  unsupported val ->
  value2str val s = Raise (UnknownType (DontKnowValue val (type val))) s
  /\ (forall v rest,
        FilemakerBase.make_dict_item self ((val, v) :: rest) s
          = Raise (UnknownType (DontKnowValue val (type val))) s)
  /\ (is_list_dict_None val = false ->
      FilemakerBase._make_item self val s
        = Raise (UnknownType (DontKnowValue val (type val))) s
      /\ forall k name rest,
           value2str k s = Ok name s ->
           FilemakerBase.make_dict_item self ((k, val) :: rest) s
             = Raise (UnknownType (DontKnowValue val (type val))) s)
  /\ (forall b : bool,
        isinstance (VBool b) CNumber = true
        /\ value2str (VBool b) s = Ok (str_bool b) s).
Proof.
  intros Hval. split; [|split; [|split]].
  - now apply unsupported_raises.
  - intros. now apply key_unsupported_raises.
  - intros Hleaf. split.
    + now apply item_unsupported_raises.
    + intros. eapply content_unsupported_raises; eauto.
  - intros b. split; reflexivity.
Qed.

Lemma value2str_unknown_type_witness :
  let val := VDateTime (Date 2016 1 2) (Time 13 30 0 0) in
  unsupported val
  /\ value2str val demo_self
     = Raise (UnknownType (DontKnowValue val Tdatetime)) demo_self.
Proof.
  assert (Hu : unsupported (VDateTime (Date 2016 1 2) (Time 13 30 0 0)))
    by (repeat split; discriminate).
  split; [exact Hu|].
  exact (proj1 (value2str_unknown_type filemaker Filemaker.methods
                  demo_self _ Hu)).
Defined.

(** C6 as stated fails at a boolean: its type is none of text, [int],
    [float] or [date], and coercion returns its text instead of raising. *)
Lemma value2str_bool_is_coerced :
  type (VBool true) = Tbool
  /\ value2str (VBool true) tt = Ok "True" tt
  /\ ~ (exists msg s', value2str (VBool true) tt = Raise (UnknownType msg) s').
Proof.
  repeat split. intros (msg & s' & H). discriminate H.
Qed.

(** ** The explicit dialect: nodes without a discriminator *)

Lemma explicit_no_discriminator {St} (self : backend_explicit St) dct s :
  dict_has "directory" dct = false -> dict_has "file" dct = false ->
  FilemakerExplicit.make_dict_item self dct s
    = Raise (UnknownType DontKnowStructure) s.
Proof.
  intros Hd Hf. unfold FilemakerExplicit.make_dict_item,
    FilemakerExplicit.make_dict_item_. now rewrite Hd, Hf.
Qed.

(** ** Reasoning about calls *)

Lemma value2str_Ok {St} val (s s' : St) name :
  value2str val s = Ok name s' -> s' = s.
Proof.
  intros H. pose proof (value2str_pure val s) as Hp. rewrite H in Hp.
  exact Hp.
Qed.

(** [H : (m ;; k) s = Ok b s'] becomes [H1 : m s = Ok _ s1] and
    [H : k _ s1 = Ok b s']. *)
Tactic Notation "inv_bind" hyp(H) "as" ident(s1) ident(H1) :=
  lazymatch type of H with
  | bind ?m ?k ?s = Ok _ _ =>
      let a := fresh "a" in
      change (bind m k s)
        with (match m s with Ok a s' => k a s' | Raise e s' => Raise e s' end)
        in H;
      destruct (m s) as [a s1|? ?] eqn:H1; [|discriminate H];
      try (match type of a with unit => destruct a end)
  end.

(** A loop that returns went through a body that returned each time. *)
Lemma for_Ok {St A} (R : St -> St -> Prop) (body : A -> M St unit) l :
  (forall s, R s s) ->
  (forall s1 s2 s3, R s1 s2 -> R s2 s3 -> R s1 s3) ->
  Forall (fun x => forall s s', body x s = Ok tt s' -> R s s') l ->
  forall s s', for_ body l s = Ok tt s' -> R s s'.
Proof.
  intros Hrefl Htrans Hall. induction Hall as [|x l Hx _ IH]; intros s s' H.
  - injection H as ->. apply Hrefl.
  - cbn [for_] in H. inv_bind H as s1 H1. eauto.
Qed.

(** ** What a walk that returns has done, from what the methods do *)

Section base_rule.
Context {St : Type} (self : backend St) (R : St -> St -> Prop).
Hypothesis R_refl : forall s, R s s.
Hypothesis R_trans : forall s1 s2 s3, R s1 s2 -> R s2 s3 -> R s1 s3.
Hypothesis R_mkdir :
  forall d s s', mkdir self d s = Ok tt s' -> R s s'.
Hypothesis R_make_file :
  forall f c s s', make_file self f c s = Ok tt s' -> R s s'.
Hypothesis R_enter_leave :
  forall d s s1 s2 s3,
    pushd self d s = Ok tt s1 -> R s1 s2 -> popd self s2 = Ok tt s3 ->
    R s s3.

Lemma base_leaf_Ok val s s' :
  (let* name := value2str val in
   make_file self (VStr name) (VStr "")) s = Ok tt s' -> R s s'.
Proof.
  intros H. inv_bind H as s1 H1. apply value2str_Ok in H1 as ->. eauto.
Qed.

Lemma base_walk_Ok item :
  forall s s', FilemakerBase._make_item self item s = Ok tt s' -> R s s'.
Proof.
  induction item as [| | | | | | |lst IH|dct IH] using pyval_ind;
    try (intros st st' H; now apply base_leaf_Ok in H).
  - cbn [FilemakerBase._make_item]. unfold FilemakerBase.make_list_item_.
    apply for_Ok; auto.
  - cbn [FilemakerBase._make_item]. unfold FilemakerBase.make_dict_item_.
    apply for_Ok; auto.
    eapply Forall_impl; [exact IH|]. intros [k v] IHv s s' H. cbn in IHv.
    inv_bind H as s1 Hk. apply value2str_Ok in Hk as ->.
    destruct (is_list_dict_None v) eqn:Hv.
    + inv_bind H as s1 Hmk. inv_bind H as s2 Hpush. inv_bind H as s3 Hrec.
      eapply R_trans; [eapply R_mkdir; eassumption|].
      eapply R_enter_leave; [eassumption| |eassumption].
      destruct v; try discriminate; eauto.
      injection Hrec as ->. apply R_refl.
    + inv_bind H as s1 Hc. apply value2str_Ok in Hc as ->. eauto.
Qed.

End base_rule.

Section explicit_rule.
Context {St : Type} (self : backend_explicit St) (R : St -> St -> Prop).
Hypothesis R_refl : forall s, R s s.
Hypothesis R_trans : forall s1 s2 s3, R s1 s2 -> R s2 s3 -> R s1 s3.
Hypothesis R_mkdir :
  forall d s s', mkdir (base self) d s = Ok tt s' -> R s s'.
Hypothesis R_make_file :
  forall f c s s', make_file (base self) f c s = Ok tt s' -> R s s'.
Hypothesis R_enter_leave :
  forall d s s1 s2 s3,
    pushd (base self) d s = Ok tt s1 -> R s1 s2 ->
    popd (base self) s2 = Ok tt s3 -> R s s3.
Hypothesis R_keyword :
  forall key handler current v s s',
    FilemakerExplicit.keywords self key = Some handler ->
    handler current v s = Ok tt s' -> R s s'.

Lemma explicit_walk_Ok item :
  forall s s', FilemakerExplicit._make_item self item s = Ok tt s' -> R s s'.
Proof.
  induction item as [| | | | | | |lst IH|dct IH] using pyval_ind;
    try (intros st st' H; now apply (base_leaf_Ok (base self) R) in H).
  - cbn [FilemakerExplicit._make_item].
    unfold FilemakerBase.make_list_item_. apply for_Ok; auto.
  - cbn [FilemakerExplicit._make_item].
    unfold FilemakerExplicit.make_dict_item_. intros s s' H.
    destruct (dict_has "directory" dct || dict_has "file" dct);
      [|discriminate].
    inv_bind H as s0 Hcreate.
    assert (Hcur : R s s0).
    { destruct (dict_get "directory" dct) as [d|].
      - inv_bind Hcreate as s1 Hmk. injection Hcreate as <- <-. eauto.
      - destruct (dict_get "file" dct) as [f|].
        + inv_bind Hcreate as s1 Hmk. injection Hcreate as <- <-. eauto.
        + injection Hcreate as <- <-. auto. }
    eapply R_trans; [exact Hcur|]. revert H. apply for_Ok; auto.
    eapply Forall_impl; [exact IH|]. intros [k v] IHv s1 s2 H. cbn in IHv.
    unfold FilemakerExplicit.for_key_ in H.
    destruct (is_key "children" k).
    + inv_bind H as s3 Hpush. inv_bind H as s4 Hrec. eauto.
    + destruct (FilemakerExplicit.keywords self k) as [handler|] eqn:Hk.
      * eauto.
      * injection H as ->. auto.
Qed.

End explicit_rule.

(** ** What the methods of [Filemaker] do when they return *)

Lemma sys_Ok {A} (m : M os_state A) self a self' :
  sys m self = Ok a self' <->
  exists w', m (world self) = Ok a w' /\ self' = Self w' (_curdir self).
Proof.
  unfold sys. split.
  - destruct (m (world self)); [|discriminate].
    intros [= <- <-]. eauto.
  - intros (w' & -> & ->). reflexivity.
Qed.

Lemma os_chdir_Ok p w w' :
  os_chdir p w = Ok tt w' -> is_dir (fs w) p = true /\ w' = set_cwd p w.
Proof.
  unfold os_chdir, is_dir. destruct (fs w !! p) as [[[] ? ? ?]|];
    try discriminate; [|now destruct (existsb has_nul p)].
  intros [= <-]. auto.
Qed.

Lemma os_mkdir_Ok d w w' :
  os_mkdir d w = Ok tt w' ->
  exists p, fs w !! p = None /\ w' = set_fs (<[p := new_dir]> (fs w)) w.
Proof.
  destruct d; try discriminate. cbn.
  destruct (resolve w s) as [e|p]; [discriminate|].
  destruct (fs w !! p) eqn:Hp; [discriminate|].
  destruct (fs w !! parent p) as [[[] ? ? ?]|]; try discriminate.
  intros [= <-]. eauto.
Qed.

Lemma open_w_Ok f p w w' :
  open_w f w = Ok p w' ->
  is_dir (fs w) p = false
  /\ exists n, nd_kind n = File "" /\ w' = set_fs (<[p := n]> (fs w)) w.
Proof.
  destruct f; try discriminate; cbn.
  - destruct (z <? 0); discriminate.
  - destruct (resolve w s) as [e|q]; [discriminate|]. unfold is_dir.
    destruct (fs w !! q) as [[[] m u g]|] eqn:Hq; try discriminate.
    + destruct (trailing_slash s); [discriminate|].
      intros [= <- <-]. rewrite Hq. split; [reflexivity|].
      eexists. split; [|reflexivity]. reflexivity.
    + destruct (trailing_slash s); [discriminate|].
      destruct (fs w !! parent q) as [[[] ? ? ?]|]; try discriminate.
      intros [= <- <-]. rewrite Hq. split; [reflexivity|].
      eexists. split; [|reflexivity]. reflexivity.
Qed.

Lemma fp_write_Ok p c w w' :
  fp_write p c w = Ok tt w' ->
  exists text n n',
    c = VStr text /\ fs w !! p = Some n /\ nd_kind n' = File text
    /\ w' = set_fs (<[p := n']> (fs w)) w.
Proof.
  destruct c; try discriminate. cbn.
  destruct (fs w !! p) as [[k m u g]|] eqn:Hp; [|discriminate].
  intros [= <-]. do 3 eexists. repeat split; reflexivity.
Qed.

(** Inserting something that is no file over a directory keeps every
    directory. *)
Lemma is_dir_insert f p q n :
  is_dir f p = false \/ nd_kind n = Dir ->
  is_dir f q = true -> is_dir (<[p := n]> f) q = true.
Proof.
  intros Hp Hq. unfold is_dir in *. destruct (decide (p = q)) as [->|Hne].
  - rewrite lookup_insert_eq. destruct Hp as [Hp|Hp].
    + rewrite Hq in Hp. discriminate.
    + destruct n as [k ? ? ?]. cbn in Hp. now subst k.
  - now rewrite lookup_insert_ne.
Qed.

Section filemaker_methods.
Implicit Types (self : filemaker) (d f c : pyval).

Lemma mkdir_Ok d self self' :
  Filemaker.mkdir d self = Ok tt self' ->
  _curdir self' = _curdir self
  /\ cwd (world self') = cwd (world self)
  /\ keeps_dirs (world self) (world self').
Proof.
  unfold Filemaker.mkdir. intros H. apply sys_Ok in H as (w' & H & ->).
  apply os_mkdir_Ok in H as (p & Hp & ->). cbn. repeat split.
  intros q Hq. apply is_dir_insert; auto.
Qed.

Lemma make_file_Ok f c self self' :
  Filemaker.make_file f c self = Ok tt self' ->
  _curdir self' = _curdir self
  /\ cwd (world self') = cwd (world self)
  /\ keeps_dirs (world self) (world self').
Proof.
  unfold Filemaker.make_file. intros H. inv_bind H as s1 Hopen.
  apply sys_Ok in Hopen as (w1 & Hopen & ->).
  apply sys_Ok in H as (w2 & H & ->). cbn in *.
  apply open_w_Ok in Hopen as (Hnd & n & Hn & ->).
  apply fp_write_Ok in H as (text & n1 & n2 & -> & Hl & Hn2 & ->).
  cbn in *. repeat split. intros q Hq.
  apply is_dir_insert.
  - left. unfold is_dir. rewrite lookup_insert_eq.
    destruct n as [k ? ? ?]. cbn in Hn. now subst k.
  - apply is_dir_insert; auto.
Qed.

Lemma pushd_Ok d self self' :
  Filemaker.pushd d self = Ok tt self' ->
  _curdir self' = (_curdir self ++ [cwd (world self)])%list
  /\ fs (world self') = fs (world self)
  /\ is_dir (fs (world self)) (cwd (world self')) = true.
Proof.
  unfold Filemaker.pushd. intros H. inv_bind H as s1 Habs.
  inv_bind H as s2 Hcwd. inv_bind H as s3 Happ.
  apply sys_Ok in Habs as (w1 & Habs & ->).
  apply sys_Ok in Hcwd as (w2 & Hcwd & ->).
  apply sys_Ok in H as (w3 & H & ->).
  destruct d; try discriminate. injection Habs as <- <-.
  injection Hcwd as <- <-. injection Happ as <-. cbn in *.
  apply os_chdir_Ok in H as (Hd & ->). auto.
Qed.

Lemma popd_Ok self self' :
  Filemaker.popd self = Ok tt self' ->
  last (_curdir self) = Some (cwd (world self'))
  /\ _curdir self' = removelast (_curdir self)
  /\ fs (world self') = fs (world self).
Proof.
  unfold Filemaker.popd. intros H. inv_bind H as s1 Hpop.
  unfold _curdir_pop in Hpop.
  destruct (last (_curdir self)) as [p|] eqn:Hlast; [|discriminate].
  injection Hpop as <- <-.
  apply sys_Ok in H as (w3 & H & ->). cbn in *.
  apply os_chdir_Ok in H as (Hd & ->). auto.
Qed.

(** Entering a directory and leaving it, with the stack as it was in
    between, brings back the working directory. *)
Lemma pushd_popd d self s1 s2 s3 :
  Filemaker.pushd d self = Ok tt s1 ->
  _curdir s2 = _curdir s1 ->
  Filemaker.popd s2 = Ok tt s3 ->
  cwd (world s3) = cwd (world self) /\ _curdir s3 = _curdir self.
Proof.
  intros Hpush Hst Hpop.
  apply pushd_Ok in Hpush as (Hpush & _ & _).
  apply popd_Ok in Hpop as (Hlast & Hrem & _).
  rewrite Hst, Hpush in Hlast, Hrem.
  rewrite last_snoc in Hlast. rewrite removelast_last in Hrem.
  split; congruence.
Qed.
End filemaker_methods.

(** The handlers of [FilemakerExplicit] touch neither the working directory
    nor the stack, and change no entry into another kind. *)
Lemma change_attr_frame filename c w r :
  change_attr filename c w = r ->
  cwd (state_of r) = cwd w
  /\ stdout (state_of r) = stdout w
  /\ forall p, kind_at (state_of r) p = kind_at w p.
Proof.
  intros <-. unfold change_attr.
  destruct (path_arg filename w) as [e|p]; [cbn; auto|].
  destruct (allowed w p c); cbn; [|auto]. repeat split.
  intros q. unfold kind_at. cbn. destruct (decide (p = q)) as [->|Hne].
  - rewrite lookup_alter_eq. destruct (fs w !! q) as [n|]; [|reflexivity].
    cbn. now destruct c.
  - now rewrite lookup_alter_ne.
Qed.

Lemma frame_os_refl w (r : result os_state unit) :
  state_of r = w -> frame_os w r.
Proof. intros <-. split; auto. Qed.

Lemma os_chown_frame filename id mk w :
  frame_os w (os_chown filename id mk w).
Proof.
  unfold os_chown. destruct (path_arg_typed filename);
    [|now apply frame_os_refl].
  destruct (as_int id) as [i|]; [|now apply frame_os_refl].
  destruct ((i <? -1) || (2 ^ 32 <=? i)); [now apply frame_os_refl|].
  destruct (i =? -1).
  - apply frame_os_refl. now destruct (path_arg filename w).
  - destruct (change_attr_frame filename (mk i) w _ eq_refl) as (? & _ & ?).
    now split.
Qed.

Lemma os_chmod_frame filename mode w : frame_os w (os_chmod filename mode w).
Proof.
  unfold os_chmod. destruct (path_arg_typed filename);
    [|now apply frame_os_refl].
  destruct (as_int mode) as [m|]; [|now apply frame_os_refl].
  destruct ((m <? - 2 ^ 31) || (2 ^ 31 <=? m)); [now apply frame_os_refl|].
  destruct (change_attr_frame filename (Chmod m) w _ eq_refl) as (? & _ & ?).
  now split.
Qed.

Lemma shutil_chown_user_frame filename user w :
  frame_os w (shutil_chown_user filename user w).
Proof.
  destruct user; cbn; try apply os_chown_frame; try now apply frame_os_refl.
  destruct (passwd w s); [apply os_chown_frame | now apply frame_os_refl].
Qed.

Lemma shutil_chown_group_frame filename group w :
  frame_os w (shutil_chown_group filename group w).
Proof.
  destruct group; cbn; try apply os_chown_frame; try now apply frame_os_refl.
  destruct (groups w s); [apply os_chown_frame | now apply frame_os_refl].
Qed.

Lemma try_print_frame (m : M os_state unit) what v filename self :
  frame_os (world self) (m (world self)) ->
  frame_self self
    (try_except_PermissionError (sys m)
       (sys (print (Unable what v filename))) self).
Proof.
  intros (Hcwd & Hkind). unfold try_except_PermissionError, sys.
  destruct (m (world self)) as [[] w'|e w']; cbn in *; [now split|].
  destruct (is_PermissionError e); cbn; now split.
Qed.

Lemma make_item_mode_frame filename mode self :
  frame_self self (FilemakerExplicit.make_item_mode filename mode self).
Proof. apply try_print_frame, os_chmod_frame. Qed.

Lemma make_item_user_frame filename user self :
  frame_self self (FilemakerExplicit.make_item_user filename user self).
Proof. apply try_print_frame, shutil_chown_user_frame. Qed.

Lemma make_item_group_frame filename group self :
  frame_self self (FilemakerExplicit.make_item_group filename group self).
Proof. apply try_print_frame, shutil_chown_group_frame. Qed.

Lemma keywords_frame key handler current v self :
  FilemakerExplicit.keywords FilemakerExplicit.methods key = Some handler ->
  frame_self self (handler current v self).
Proof.
  unfold FilemakerExplicit.keywords.
  repeat match goal with
         | |- context [if ?b then _ else _] => destruct b
         end; intros [= <-]; cbn;
    auto using make_item_mode_frame, make_item_user_frame,
      make_item_group_frame.
Qed.

(** ** Traced runs *)

Lemma noting_Ok {St A} c (m : M St A) s log a s' log' :
  noting c m (s, log) = Ok a (s', log') <->
  m s = Ok a s' /\ log' = (log ++ [c])%list.
Proof.
  cbn. destruct (m s); split.
  - intros [= <- <- <-]. auto.
  - intros [[= <- <-] ->]. reflexivity.
  - discriminate.
  - intros [[=] _].
Qed.

Lemma passing_Ok {St A} (m : M St A) s log a s' log' :
  passing m (s, log) = Ok a (s', log') <-> m s = Ok a s' /\ log' = log.
Proof.
  cbn. destruct (m s); split.
  - intros [= <- <- <-]. auto.
  - intros [[= <- <-] ->]. reflexivity.
  - discriminate.
  - intros [[=] _].
Qed.

Lemma count_pushd_snoc log c :
  count_pushd (log ++ [c]) = (count_pushd log + if is_pushd c then 1 else 0)%nat.
Proof.
  unfold count_pushd. rewrite List.filter_app, List.length_app. cbn.
  now destruct (is_pushd c).
Qed.

Lemma count_popd_snoc log c :
  count_popd (log ++ [c]) = (count_popd log + if is_popd c then 1 else 0)%nat.
Proof.
  unfold count_popd. rewrite List.filter_app, List.length_app. cbn.
  now destruct (is_popd c).
Qed.

Lemma balanced_refl a : balanced a a.
Proof. repeat split. Qed.

Lemma balanced_trans a b c : balanced a b -> balanced b c -> balanced a c.
Proof.
  intros (H1 & H2 & H3) (H4 & H5 & H6). repeat split; try congruence. lia.
Qed.

Section traced_filemaker.
Let T := traced Filemaker.methods.

Lemma traced_mkdir_balanced d a b : mkdir T d a = Ok tt b -> balanced a b.
Proof.
  destruct a as [s log], b as [s' log']. intros H.
  apply noting_Ok in H as (H & ->). apply mkdir_Ok in H as (? & ? & _).
  unfold balanced. cbn [fst snd].
  rewrite count_pushd_snoc, count_popd_snoc. cbn [is_pushd is_popd].
  repeat split; auto; lia.
Qed.

Lemma traced_make_file_balanced f c a b :
  make_file T f c a = Ok tt b -> balanced a b.
Proof.
  destruct a as [s log], b as [s' log']. intros H.
  apply noting_Ok in H as (H & ->). apply make_file_Ok in H as (? & ? & _).
  unfold balanced. cbn [fst snd].
  rewrite count_pushd_snoc, count_popd_snoc. cbn [is_pushd is_popd].
  repeat split; auto; lia.
Qed.

Lemma traced_enter_leave_balanced d a a1 a2 a3 :
  pushd T d a = Ok tt a1 -> balanced a1 a2 -> popd T a2 = Ok tt a3 ->
  balanced a a3.
Proof.
  destruct a as [s log], a1 as [s1 log1], a2 as [s2 log2],
    a3 as [s3 log3]. intros Hpush (Hcwd & Hst & Hcount) Hpop.
  apply noting_Ok in Hpush as (Hpush & ->).
  apply noting_Ok in Hpop as (Hpop & ->). cbn [fst snd] in *.
  destruct (pushd_popd _ _ _ _ _ Hpush Hst Hpop) as (? & ?).
  unfold balanced. cbn [fst snd].
  rewrite count_pushd_snoc, count_popd_snoc in *.
  cbn [is_pushd is_popd] in *. repeat split; auto; lia.
Qed.

(** In a walk that returns, every [pushd] has its [popd]: the calls are
    as many, the stack and the working directory are back. *)
Lemma traced_walk_balanced item a b :
  FilemakerBase._make_item T item a = Ok tt b -> balanced a b.
Proof.
  apply base_walk_Ok;
    eauto using balanced_refl, balanced_trans, traced_mkdir_balanced,
      traced_make_file_balanced, traced_enter_leave_balanced.
Qed.
End traced_filemaker.

Section traced_explicit.
Let T := traced_explicit FilemakerExplicit.methods.

Lemma traced_keyword_balanced key handler current v a b :
  FilemakerExplicit.keywords T key = Some handler ->
  handler current v a = Ok tt b -> balanced a b.
Proof.
  destruct a as [s log], b as [s' log'].
  unfold FilemakerExplicit.keywords.
  repeat match goal with
         | |- context [if ?c then _ else _] => destruct c
         end; intros [= <-] H; cbn [T traced_explicit make_item_mode
           make_item_user make_item_group] in H;
    apply passing_Ok in H as (H & ->).
  - pose proof (make_item_mode_frame current v s) as (? & ? & _).
    cbn in H. rewrite H in *. repeat split; cbn; auto.
  - pose proof (make_item_user_frame current v s) as (? & ? & _).
    cbn in H. rewrite H in *. repeat split; cbn; auto.
  - pose proof (make_item_group_frame current v s) as (? & ? & _).
    cbn in H. rewrite H in *. repeat split; cbn; auto.
Qed.

Lemma traced_explicit_walk_balanced item a b :
  FilemakerExplicit._make_item T item a = Ok tt b -> balanced a b.
Proof.
  apply explicit_walk_Ok;
    eauto using balanced_refl, balanced_trans, traced_keyword_balanced.
  - apply traced_mkdir_balanced.
  - apply traced_make_file_balanced.
  - apply traced_enter_leave_balanced.
Qed.
End traced_explicit.

(** ** Tracing changes nothing *)

Section simulation.
Context {St : Type}.

Lemma simulates_ret {A} (a : A) : simulates (ret a) (@ret St A a).
Proof. intros s log. reflexivity. Qed.

Lemma simulates_raise {A} e : simulates (raise e) (@raise St A e).
Proof. intros s log. reflexivity. Qed.

Lemma simulates_bind {A B} mt (m : M St A) kt (k : A -> M St B) :
  simulates mt m -> (forall a, simulates (kt a) (k a)) ->
  simulates (bind mt kt) (bind m k).
Proof.
  intros Hm Hk s log. unfold bind. specialize (Hm s log).
  destruct (mt (s, log)) as [a [s1 log1]|e [s1 log1]]; cbn in Hm;
    rewrite <- Hm; [apply Hk | reflexivity].
Qed.

Lemma simulates_noting {A} c (m : M St A) : simulates (noting c m) m.
Proof. intros s log. cbn. now destruct (m s). Qed.

Lemma simulates_passing {A} (m : M St A) : simulates (passing m) m.
Proof. intros s log. cbn. now destruct (m s). Qed.

Lemma simulates_value2str val : simulates (value2str val) (@value2str St val).
Proof. intros s log. rewrite !value2str_cases. now destruct val. Qed.

Lemma simulates_for {A} bt (body : A -> M St unit) l :
  Forall (fun x => simulates (bt x) (body x)) l ->
  simulates (for_ bt l) (for_ body l).
Proof.
  induction 1 as [|x l Hx _ IH]; cbn [for_].
  - apply simulates_ret.
  - apply simulates_bind; auto.
Qed.

Lemma simulates_leaf (make : pyval -> pyval -> M St unit) val :
  simulates
    (let* name := value2str val in
     noting (Call_make_file (VStr name) (VStr "")) (make (VStr name) (VStr "")))
    (let* name := value2str val in make (VStr name) (VStr "")).
Proof.
  apply simulates_bind; [apply simulates_value2str|].
  intros name. apply simulates_noting.
Qed.

Lemma simulates_base_walk (self : backend St) item :
  simulates (FilemakerBase._make_item (traced self) item)
            (FilemakerBase._make_item self item).
Proof.
  induction item as [| | | | | | |lst IH|dct IH] using pyval_ind;
    try apply (simulates_leaf (make_file self)).
  - cbn [FilemakerBase._make_item]. now apply simulates_for.
  - cbn [FilemakerBase._make_item]. apply simulates_for.
    eapply Forall_impl; [exact IH|]. intros [k v] IHv. cbn in IHv.
    apply simulates_bind; [apply simulates_value2str|]. intros name.
    destruct (is_list_dict_None v).
    + apply simulates_bind; [apply simulates_noting|]. intros _.
      apply simulates_bind; [apply simulates_noting|]. intros _.
      apply simulates_bind; [|intros _; apply simulates_noting].
      destruct v; first [exact IHv | apply simulates_ret].
    + apply simulates_bind; [apply simulates_value2str|]. intros content.
      apply simulates_noting.
Qed.

Lemma simulates_explicit_walk (self : backend_explicit St) item :
  simulates (FilemakerExplicit._make_item (traced_explicit self) item)
            (FilemakerExplicit._make_item self item).
Proof.
  induction item as [| | | | | | |lst IH|dct IH] using pyval_ind;
    try apply (simulates_leaf (make_file (base self))).
  - cbn [FilemakerExplicit._make_item]. now apply simulates_for.
  - cbn [FilemakerExplicit._make_item].
    unfold FilemakerExplicit.make_dict_item_.
    destruct (dict_has "directory" dct || dict_has "file" dct);
      [|apply simulates_raise].
    apply simulates_bind.
    + destruct (dict_get "directory" dct).
      * apply simulates_bind; [apply simulates_noting|].
        intros _. apply simulates_ret.
      * destruct (dict_get "file" dct); [|apply simulates_ret].
        apply simulates_bind; [apply simulates_noting|].
        intros _. apply simulates_ret.
    + intros current. apply simulates_for.
      eapply Forall_impl; [exact IH|]. intros [k v] IHv. cbn in IHv.
      unfold FilemakerExplicit.for_key_.
      destruct (is_key "children" k).
      * apply simulates_bind; [apply simulates_noting|]. intros _.
        apply simulates_bind; [exact IHv|]. intros _.
        apply simulates_noting.
      * unfold FilemakerExplicit.keywords. cbn.
        repeat match goal with
               | |- context [if ?c then _ else _] => destruct c
               end; first [apply simulates_passing | apply simulates_ret].
Qed.
End simulation.

(** ** The stack of directories *)

Lemma construct_traced_erase d root fdef w :
  erase (construct_traced d root fdef w) = construct d root fdef w.
Proof.
  destruct d; cbn [construct_traced construct].
  - unfold Filemaker.new, Filemaker.__init__, FilemakerBase.__init__.
    apply simulates_bind; [apply simulates_noting|].
    intros _. apply simulates_base_walk.
  - unfold FilemakerExplicit.new, FilemakerExplicit.__init__.
    apply simulates_bind; [apply simulates_noting|].
    intros _. apply simulates_explicit_walk.
Qed.

Lemma walk_traced_balanced d item a b :
  walk_traced d item a = Ok tt b -> balanced a b.
Proof.
  destruct d; [apply traced_walk_balanced|apply traced_explicit_walk_balanced].
Qed.

(** C2, as the code has it: the constructor enters [root] and never leaves
    it.  In a construction that returns, the walk itself calls [popd] as
    often as [pushd] and brings the stack and the working directory back,
    so that over the whole construction there is one [pushd] more than
    there are [popd], and the stack ends with one entry, the working
    directory from before the construction. *)
Theorem construct_one_pushd_more (d : dialect) (root fdef : pyval)
    (w : os_state) (self' : filemaker) (log : list call) :
  construct_traced d root fdef w = Ok tt (self', log) ->
  construct d root fdef w = Ok tt self'
  /\ count_pushd log = S (count_popd log)
  /\ _curdir self' = [cwd w]
  /\ (forall item a b, walk_traced d item a = Ok tt b -> balanced a b).
Proof.
  intros Hrun. split; [|split; [|split]].
  - rewrite <- construct_traced_erase, Hrun. reflexivity.
  - destruct d; cbn [construct_traced] in Hrun.
    + unfold FilemakerBase.__init__ in Hrun. inv_bind Hrun as a1 Hpush.
      destruct a1 as [s1 log1]. apply noting_Ok in Hpush as (Hpush & ->).
      apply traced_walk_balanced in Hrun as (_ & _ & Hcount).
      cbn [fst snd] in Hcount. rewrite count_pushd_snoc, count_popd_snoc in Hcount.
      cbn in Hcount. lia.
    + unfold FilemakerExplicit.__init__ in Hrun. inv_bind Hrun as a1 Hpush.
      destruct a1 as [s1 log1]. apply noting_Ok in Hpush as (Hpush & ->).
      apply traced_explicit_walk_balanced in Hrun as (_ & _ & Hcount).
      cbn [fst snd] in Hcount. rewrite count_pushd_snoc, count_popd_snoc in Hcount.
      cbn in Hcount. lia.
  - destruct d; cbn [construct_traced] in Hrun.
    + unfold FilemakerBase.__init__ in Hrun. inv_bind Hrun as a1 Hpush.
      destruct a1 as [s1 log1]. apply noting_Ok in Hpush as (Hpush & ->).
      apply traced_walk_balanced in Hrun as (_ & Hst & _).
      apply pushd_Ok in Hpush as (Hpush & _). cbn in *. congruence.
    + unfold FilemakerExplicit.__init__ in Hrun. inv_bind Hrun as a1 Hpush.
      destruct a1 as [s1 log1]. apply noting_Ok in Hpush as (Hpush & ->).
      apply traced_explicit_walk_balanced in Hrun as (_ & Hst & _).
      apply pushd_Ok in Hpush as (Hpush & _). cbn in *. congruence.
  - intros item a b. apply walk_traced_balanced.
Qed.

Lemma construct_one_pushd_more_witness :
  exists self' log,
    construct_traced Implicit (VStr "/tmp/t") example_tree demo_world
      = Ok tt (self', log)
    /\ count_pushd log = 3%nat /\ count_popd log = 2%nat
    /\ _curdir self' = [["home"]].
Proof.
  destruct (construct_traced Implicit (VStr "/tmp/t") example_tree demo_world)
    as [[] [self' log]|e a] eqn:Hrun; [|vm_compute in Hrun; discriminate].
  exists self', log. split; [reflexivity|].
  destruct (construct_one_pushd_more Implicit _ _ _ _ _ Hrun)
    as (_ & Hcount & Hst & _).
  assert (Hpop : count_popd log = 2%nat)
    by (vm_compute in Hrun; injection Hrun as <- <-; reflexivity).
  rewrite Hcount, Hpop. split; [reflexivity|]. split; [reflexivity|].
  exact Hst.
Defined.

(** C2 as stated fails already at the empty sequence: one [pushd], no
    [popd], and the stack is not empty at the end. *)
Lemma construct_stack_not_empty :
  exists self' log,
    construct_traced Implicit (VStr "/tmp/t") (VList []) demo_world
      = Ok tt (self', log)
    /\ count_pushd log = 1%nat /\ count_popd log = 0%nat
    /\ count_pushd log <> count_popd log
    /\ _curdir self' = [["home"]] /\ _curdir self' <> [].
Proof.
  eexists _, _. split; [vm_compute; reflexivity|].
  repeat split; discriminate.
Qed.


(** ** The methods on plain names *)

Lemma bind_step {St A B} (m : M St A) (k : A -> M St B) s a s1 :
  m s = Ok a s1 -> bind m k s = k a s1.
Proof. unfold bind. now intros ->. Qed.

Lemma bind_raise {St A B} (m : M St A) (k : A -> M St B) s e s1 :
  m s = Raise e s1 -> bind m k s = Raise e s1.
Proof. unfold bind. now intros ->. Qed.

Lemma bind_ext {St A B} (m : M St A) (k k' : A -> M St B) s :
  (forall a s1, k a s1 = k' a s1) -> bind m k s = bind m k' s.
Proof. intros H. unfold bind. destruct (m s); auto. Qed.

Lemma bind_ret_l {St A B} (a : A) (k : A -> M St B) s :
  bind (ret a) k s = k a s.
Proof. reflexivity. Qed.

Lemma bind_assoc {St A B C} (m : M St A) (k : A -> M St B)
    (h : B -> M St C) s :
  bind (bind m k) h s = bind m (fun a => bind (k a) h) s.
Proof. unfold bind. now destruct (m s). Qed.

Lemma is_dir_Some f p :
  is_dir f p = true <-> exists m u g, f !! p = Some (Node Dir m u g).
Proof.
  unfold is_dir. destruct (f !! p) as [[[] m u g]|]; split;
    try discriminate; try (intros (? & ? & ? & [=])); eauto.
Qed.

Section plain_names.
Context (c : string) (Hc : plain_name c = true).

Lemma plain_name_facts :
  has_nul c = false /\ String.eqb c "" = false /\ isabs c = false
  /\ components c = [c] /\ trailing_slash c = false
  /\ forall p, step p c = (p ++ [c])%list.
Proof using Hc.
  unfold plain_name in Hc.
  repeat (apply andb_prop in Hc as [Hc ?]).
  destruct (split_slash c) as [|c' [|? ?]] eqn:Hsplit; try discriminate.
  apply String.eqb_eq in H as ->.
  apply negb_true_iff in Hc, H0, H1. unfold nonempty in H2.
  apply negb_true_iff in H2.
  repeat split; auto.
  - destruct c as [|a c']; [reflexivity|]. cbn in Hsplit |- *.
    destruct (Ascii.eqb a "/"); [discriminate|reflexivity].
  - unfold components. rewrite Hsplit. cbn. unfold nonempty.
    rewrite H2. cbn. reflexivity.
  - unfold trailing_slash. rewrite Hsplit. cbn. unfold nonempty.
    now rewrite H2.
  - intros p. unfold step. now rewrite H1, H0.
Qed.

Lemma resolve_plain w :
  is_dir (fs w) (cwd w) = true -> resolve w c = inr (cwd w ++ [c])%list.
Proof using Hc.
  destruct plain_name_facts as (Hnul & Hne & Habs & Hcomp & _ & Hstep).
  intros Hd. apply is_dir_Some in Hd as (m & u & g & Hd).
  unfold resolve. rewrite Hnul, Hne, Habs, Hcomp. cbn.
  now rewrite Hd, Hstep.
Qed.

Lemma abspath_plain w : abspath w c = (cwd w ++ [c])%list.
Proof using Hc.
  destruct plain_name_facts as (_ & _ & Habs & Hcomp & _ & Hstep).
  unfold abspath. rewrite Habs, Hcomp. cbn. apply Hstep.
Qed.

Lemma parent_snoc (p : path) : parent (p ++ [c])%list = p.
Proof. apply removelast_last. Qed.

Lemma mkdir_plain self :
  let w := world self in
  is_dir (fs w) (cwd w) = true ->
  fs w !! (cwd w ++ [c])%list = None ->
  Filemaker.mkdir (VStr c) self
    = Ok tt (Self (set_fs (<[(cwd w ++ [c])%list := new_dir]> (fs w)) w)
                  (_curdir self)).
Proof using Hc.
  intros w Hd Hnew. unfold Filemaker.mkdir, sys, os_mkdir. fold w.
  rewrite (resolve_plain w Hd), Hnew, parent_snoc.
  apply is_dir_Some in Hd as (m & u & g & ->). reflexivity.
Qed.

Lemma make_file_plain text self :
  let w := world self in
  is_dir (fs w) (cwd w) = true ->
  fs w !! (cwd w ++ [c])%list = None ->
  Filemaker.make_file (VStr c) (VStr text) self
    = Ok tt (Self (set_fs (<[(cwd w ++ [c])%list := new_file text]> (fs w)) w)
                  (_curdir self)).
Proof using Hc.
  intros w Hd Hnew. destruct plain_name_facts as (_ & _ & _ & _ & Hts & _).
  unfold Filemaker.make_file, bind, sys, open_w. fold w.
  rewrite (resolve_plain w Hd), Hnew, Hts, parent_snoc.
  apply is_dir_Some in Hd as (m & u & g & ->).
  cbn [world fs set_fs fp_write]. rewrite lookup_insert_eq.
  cbn [new_file]. unfold set_fs. cbn [fs cwd stdout passwd groups allowed].
  now rewrite insert_insert_eq.
Qed.

Lemma pushd_plain self :
  let w := world self in
  is_dir (fs w) (cwd w ++ [c])%list = true ->
  Filemaker.pushd (VStr c) self
    = Ok tt (Self (set_cwd (cwd w ++ [c])%list w)
                  (_curdir self ++ [cwd w])%list).
Proof using Hc.
  intros w Hd.
  unfold Filemaker.pushd, bind, sys, _curdir_append, os_path_abspath,
    os_getcwd, os_chdir.
  cbn [world _curdir]. fold w. rewrite abspath_plain.
  apply is_dir_Some in Hd as (m & u & g & ->). reflexivity.
Qed.
End plain_names.

Lemma popd_back self st p :
  _curdir self = (st ++ [p])%list ->
  is_dir (fs (world self)) p = true ->
  Filemaker.popd self = Ok tt (Self (set_cwd p (world self)) st).
Proof.
  intros Hst Hd. unfold Filemaker.popd, bind, _curdir_pop, sys.
  rewrite Hst, last_snoc, removelast_last. unfold os_chdir.
  cbn [world]. apply is_dir_Some in Hd as (m & u & g & ->). reflexivity.
Qed.

Lemma pushd_name name self :
  let w := world self in
  is_dir (fs w) (abspath w name) = true ->
  Filemaker.pushd (VStr name) self
    = Ok tt (Self (set_cwd (abspath w name) w) (_curdir self ++ [cwd w])%list).
Proof.
  intros w Hd.
  unfold Filemaker.pushd, bind, sys, _curdir_append, os_path_abspath,
    os_getcwd, os_chdir.
  cbn [world _curdir]. fold w.
  apply is_dir_Some in Hd as (m & u & g & ->). reflexivity.
Qed.

Lemma path_snoc_ne (r p q : path) : p <> q -> (r ++ p)%list <> (r ++ q)%list.
Proof. intros Hne H. now apply app_inv_head in H. Qed.

Lemma path_snoc_nil_ne (r p : path) : p <> [] -> (r ++ p)%list <> r.
Proof.
  intros Hne H. rewrite <- (app_nil_r r) in H at 2.
  now apply app_inv_head in H.
Qed.

Lemma is_dir_insert_ne f (p q : path) n :
  p <> q -> is_dir (<[p := n]> f) q = is_dir f q.
Proof. intros Hne. unfold is_dir. now rewrite lookup_insert_ne. Qed.

Lemma is_dir_insert_new_dir f (p : path) : is_dir (<[p := new_dir]> f) p = true.
Proof. unfold is_dir. now rewrite lookup_insert_eq. Qed.

(** Running a sequence of calls one call at a time.  The lemmas a step
    rewrites with are arguments: [assoc] and [unit_l] are the two laws of
    [bind], [step] turns the equation of the first call into one of the
    whole. *)
Ltac norm_bind assoc unit_l := repeat (rewrite assoc || rewrite unit_l).

Ltac step_by assoc unit_l step tac :=
  norm_bind assoc unit_l;
  lazymatch goal with
  | |- bind ?m ?k ?s = _ =>
      let H := fresh "Hstep" in
      eassert (H : m s = Ok _ _) by tac;
      rewrite (step _ _ _ m k s _ _ H); clear H;
      cbn [world cwd fs set_cwd set_fs _curdir]
  end.

(** Two paths under the same root differ; [ne] and [ne_nil] say so. *)
Ltac path_ne ne ne_nil :=
  first [ apply ne; discriminate
        | apply ne_nil; discriminate
        | apply not_eq_sym, ne_nil; discriminate ].

(** Lookups in a file table built by insertions at distinct paths. *)
Ltac solve_fs at_new at_other ne ne_nil :=
  cbn [world cwd fs set_cwd set_fs];
  rewrite <- ?app_assoc; cbn [app];
  repeat first [ rewrite at_new
               | rewrite at_other by path_ne ne ne_nil
               | rewrite lookup_insert_ne by path_ne ne ne_nil ];
  try reflexivity; try assumption.

(** ** The implicit dialect on the example of the specification *)

Lemma demo_world_root_empty c (p : path) :
  fs demo_world !! (["tmp"; "t"] ++ c :: p)%list = None.
Proof.
  cbn [fs demo_world app]. rewrite !lookup_insert_ne by discriminate.
  now rewrite lookup_singleton_ne by discriminate.
Qed.



(** ** The explicit dialect: the discriminator *)

(** C7: a mapping with neither [file] nor [directory] makes the explicit
    dialect raise [UnknownType], before anything is done for the node:
    at the node itself, as an element of a sequence, and as the whole
    description once the root has been entered. *)
Theorem explicit_needs_discriminator (St : Type) (self : backend_explicit St)
    (dct : list (pyval * pyval)) (s : St) :
  dict_has "directory" dct = false ->
  dict_has "file" dct = false ->
  FilemakerExplicit.make_dict_item self dct s
    = Raise (UnknownType DontKnowStructure) s
  /\ FilemakerExplicit._make_item self (VDict dct) s
    = Raise (UnknownType DontKnowStructure) s
  /\ (forall rest,
        FilemakerExplicit._make_item self (VList (VDict dct :: rest)) s
          = Raise (UnknownType DontKnowStructure) s)
  /\ (forall root s0,
        pushd (base self) root s0 = Ok tt s ->
        FilemakerExplicit.__init__ self root (VDict dct) s0
          = Raise (UnknownType DontKnowStructure) s).
Proof.
  intros Hd Hf.
  pose proof (explicit_no_discriminator self dct s Hd Hf) as Hraise.
  split; [exact Hraise|]. split; [exact Hraise|]. split.
  - intros rest. cbn [FilemakerExplicit._make_item].
    unfold FilemakerBase.make_list_item_. cbn [for_].
    apply bind_raise. exact Hraise.
  - intros root s0 Hpush. unfold FilemakerExplicit.__init__.
    rewrite (bind_step _ _ _ _ _ Hpush). exact Hraise.
Qed.

Lemma explicit_needs_discriminator_witness :
  FilemakerExplicit.new (VStr "/tmp/t")
    (VDict [(VStr "name", VStr "f"); (VStr "content", VStr "x")]) demo_world
  = Raise (UnknownType DontKnowStructure)
      (Self (set_cwd ["tmp"; "t"] demo_world) [["home"]]).
Proof.
  refine (proj2 (proj2 (proj2
    (explicit_needs_discriminator filemaker FilemakerExplicit.methods
       [(VStr "name", VStr "f"); (VStr "content", VStr "x")]
       (Self (set_cwd ["tmp"; "t"] demo_world) [["home"]])
       eq_refl eq_refl))) (VStr "/tmp/t") demo_self _).
  vm_compute. reflexivity.
Defined.

(** ** The explicit dialect: [directory] and [file] together *)

Lemma dict_get_without name names dct :
  existsb (String.eqb name) names = false ->
  dict_get name (without names dct) = dict_get name dct.
Proof.
  intros Hname. induction dct as [|[k v] dct IH]; [reflexivity|].
  cbn [without List.filter dict_get]. fold (without names dct).
  destruct (existsb (fun n => is_key n k) names) eqn:Hk; cbn [negb dict_get].
  - destruct (is_key name k) eqn:Hnk; [|exact IH].
    destruct k; try discriminate. cbn in Hnk. apply String.eqb_eq in Hnk.
    subst s. change (existsb (String.eqb name) names = true) in Hk.
    congruence.
  - now rewrite IH.
Qed.

Lemma dict_get_without_gone name names dct :
  existsb (String.eqb name) names = true ->
  dict_get name (without names dct) = None.
Proof.
  intros Hname. induction dct as [|[k v] dct IH]; [reflexivity|].
  cbn [without List.filter]. fold (without names dct).
  destruct (existsb (fun n => is_key n k) names) eqn:Hk; cbn [negb];
    [exact IH|].
  cbn [dict_get]. destruct (is_key name k) eqn:Hnk; [|exact IH].
  destruct k; try discriminate. cbn in Hnk. apply String.eqb_eq in Hnk.
  subst s. change (existsb (String.eqb name) names = false) in Hk.
  congruence.
Qed.

(** The loop over the entries skips those under [file] and [content]. *)
Lemma explicit_loop_without {St} (self : backend_explicit St)
    (body : pyval * pyval -> M St unit) dct s :
  (forall k v s, existsb (fun n => is_key n k) ["file"; "content"] = true ->
                 body (k, v) s = Ok tt s) ->
  for_ body (without ["file"; "content"] dct) s = for_ body dct s.
Proof.
  intros Hskip. revert s. induction dct as [|[k v] dct IH]; intros s;
    [reflexivity|].
  cbn [without List.filter for_]. fold (without ["file"; "content"] dct).
  destruct (existsb (fun n => is_key n k) ["file"; "content"]) eqn:Hk;
    cbn [negb for_].
  - rewrite (bind_step _ _ _ _ _ (Hskip k v s Hk)). apply IH.
  - unfold bind. destruct (body (k, v) s); [apply IH|reflexivity].
Qed.

(** C10: a node with both [directory] and [file] is handled as the node
    without its [file] and [content] entries, which is a [directory] node:
    no exception comes from having both. *)
Theorem explicit_directory_over_file (St : Type) (self : backend_explicit St)
    (dct : list (pyval * pyval)) (dirname : pyval) (s : St) :
  dict_get "directory" dct = Some dirname ->
  dict_has "file" dct = true ->
  let node := without ["file"; "content"] dct in
  FilemakerExplicit.make_dict_item self dct s
    = FilemakerExplicit.make_dict_item self node s
  /\ dict_get "directory" node = Some dirname
  /\ dict_has "file" node = false
  /\ dict_has "content" node = false
  /\ dict_get "children" node = dict_get "children" dct.
Proof.
  intros Hdir Hfile node.
  assert (Hnode : dict_get "directory" node = Some dirname).
  { unfold node. now rewrite dict_get_without. }
  assert (Heq : FilemakerExplicit.make_dict_item self dct s
                = FilemakerExplicit.make_dict_item self node s).
  { unfold FilemakerExplicit.make_dict_item,
      FilemakerExplicit.make_dict_item_, dict_has.
    rewrite Hnode, Hdir. cbn [orb]. rewrite !bind_assoc.
    apply bind_ext. intros [] s1. rewrite !bind_ret_l.
    symmetry. apply (explicit_loop_without self).
    intros k v s' Hk. destruct k; try discriminate. cbn in Hk.
    unfold FilemakerExplicit.for_key_, FilemakerExplicit.keywords. cbn.
    destruct (String.eqb s0 "file") eqn:H1.
    - apply String.eqb_eq in H1 as ->. reflexivity.
    - destruct (String.eqb s0 "content") eqn:H2; [|discriminate].
      apply String.eqb_eq in H2 as ->. reflexivity. }
  split; [exact Heq|]. split; [exact Hnode|].
  unfold dict_has, node.
  rewrite !dict_get_without_gone by reflexivity.
  rewrite dict_get_without by reflexivity.
  repeat split.
Qed.


Lemma explicit_directory_over_file_witness :
  let dct := [(VStr "directory", VStr "d"); (VStr "file", VStr "f");
              (VStr "content", VStr "x");
              (VStr "children",
               VList [VDict [(VStr "file", VStr "g");
                             (VStr "content", VStr "y")]])] in
  let s := Self (set_cwd ["tmp"; "t"] demo_world) [["home"]] in
  FilemakerExplicit.make_dict_item FilemakerExplicit.methods dct s
    = FilemakerExplicit.make_dict_item FilemakerExplicit.methods
        [(VStr "directory", VStr "d");
         (VStr "children",
          VList [VDict [(VStr "file", VStr "g");
                        (VStr "content", VStr "y")]])] s
  /\ FilemakerExplicit.make_dict_item FilemakerExplicit.methods dct s
    = Ok tt (Self (set_cwd ["tmp"; "t"]
               (set_fs (<[["tmp"; "t"; "d"; "g"] := new_file "y"]>
                       (<[["tmp"; "t"; "d"] := new_dir]> (fs demo_world)))
                  demo_world)) [["home"]]).
Proof.
  intros dct s. split.
  - exact (proj1 (explicit_directory_over_file filemaker
                    FilemakerExplicit.methods dct (VStr "d") s
                    eq_refl eq_refl)).
  - vm_compute. reflexivity.
Defined.

(** ** The explicit dialect: [children] under a [file] node *)

Lemma namei_fold f (p : path) comps q :
  namei f p comps = inr q -> q = fold_left step comps p.
Proof.
  revert p. induction comps as [|c comps IH]; intros p; cbn.
  - now intros [= <-].
  - destruct (f !! p) as [[[] ? ? ?]|]; try discriminate. apply IH.
Qed.

(** A name the kernel resolves is resolved to what [abspath] gives. *)
Lemma resolve_abspath w name p :
  resolve w name = inr p -> abspath w name = p.
Proof.
  unfold resolve, abspath. destruct (has_nul name); [discriminate|].
  destruct (String.eqb name ""); [discriminate|].
  intros H. now apply namei_fold in H.
Qed.

(** [make_file] returns: the names are text, and the file is there. *)
Lemma make_file_Ok_file filename content self self' :
  Filemaker.make_file filename content self = Ok tt self' ->
  exists name text,
    filename = VStr name /\ content = VStr text
    /\ kind_at (world self') (abspath (world self) name) = Some (File text)
    /\ cwd (world self') = cwd (world self)
    /\ _curdir self' = _curdir self.
Proof.
  unfold Filemaker.make_file. intros H. inv_bind H as s1 Hopen.
  apply sys_Ok in Hopen as (w1 & Hopen & ->).
  apply sys_Ok in H as (w2 & H & ->). cbn [world _curdir] in *.
  apply fp_write_Ok in H as (text & n1 & n2 & -> & Hl & Hn2 & ->).
  destruct filename; try discriminate.
  - cbn in Hopen. destruct (z <? 0); discriminate.
  - exists s, text. cbn in Hopen.
    destruct (resolve (world self) s) as [e|p] eqn:Hres; [discriminate|].
    apply resolve_abspath in Hres. subst p.
    assert (a = abspath (world self) s /\ cwd w1 = cwd (world self))
      as [-> Hcwd].
    { destruct (fs (world self) !! abspath (world self) s)
        as [[[] ? ? ?]|]; try discriminate;
        destruct (trailing_slash s); try discriminate.
      - injection Hopen as <- <-. auto.
      - destruct (fs (world self) !! parent (abspath (world self) s))
          as [[[] ? ? ?]|]; try discriminate.
        injection Hopen as <- <-. auto. }
    repeat split; auto. unfold kind_at. cbn. rewrite lookup_insert_eq.
    cbn. now rewrite Hn2.
Qed.

(** Entering what is a file. *)
Lemma pushd_file name text self :
  kind_at (world self) (abspath (world self) name) = Some (File text) ->
  Filemaker.pushd (VStr name) self
    = Raise NotADirectoryError
        (Self (world self) (_curdir self ++ [cwd (world self)])%list).
Proof.
  intros Hk. unfold Filemaker.pushd, bind, sys, _curdir_append,
    os_path_abspath, os_getcwd, os_chdir. cbn [world _curdir].
  unfold kind_at in Hk.
  destruct (fs (world self) !! abspath (world self) name)
    as [[[] ? ? ?]|]; try discriminate. reflexivity.
Qed.

Lemma for_app {St A} (body : A -> M St unit) l1 l2 s :
  for_ body (l1 ++ l2) s = bind (for_ body l1) (fun _ => for_ body l2) s.
Proof.
  revert s. induction l1 as [|x l1 IH]; intros s; cbn [for_ app].
  - reflexivity.
  - rewrite bind_assoc. apply bind_ext. intros _ s1. apply IH.
Qed.

Lemma dict_has_cons name k v dct :
  dict_has name ((k, v) :: dct) = is_key name k || dict_has name dct.
Proof. unfold dict_has. cbn. now destruct (is_key name k). Qed.

(** Without [children] among the entries the loop only runs handlers. *)
Lemma explicit_loop_no_children {St} (self : backend_explicit St)
    (rec : pyval -> M St unit) current dct s :
  dict_has "children" dct = false ->
  for_ (FilemakerExplicit.for_key_ self rec current) dct s
  = for_ (apply_keyword self current) dct s.
Proof.
  revert s. induction dct as [|[k v] dct IH]; intros s Hno; [reflexivity|].
  rewrite dict_has_cons in Hno. apply orb_false_iff in Hno as [Hk Hno].
  cbn [for_]. unfold FilemakerExplicit.for_key_ at 1. rewrite Hk.
  apply bind_ext. intros _ s1. now apply IH.
Qed.

Lemma frame_self_trans self r :
  frame_self self r ->
  forall r', frame_self (state_of r) r' -> frame_self self r'.
Proof.
  intros (H1 & H2 & H3) r' (H4 & H5 & H6). repeat split; congruence.
Qed.

Lemma keywords_loop_frame current dct self :
  frame_self self
    (for_ (apply_keyword FilemakerExplicit.methods current) dct self).
Proof.
  revert self. induction dct as [|[k v] dct IH]; intros self.
  - repeat split.
  - cbn [for_]. unfold bind.
    assert (Hone : frame_self self
              (apply_keyword FilemakerExplicit.methods current (k, v) self)).
    { unfold apply_keyword. cbn [fst snd].
      destruct (FilemakerExplicit.keywords FilemakerExplicit.methods k)
        eqn:Hk; [eapply keywords_frame; exact Hk | repeat split]. }
    destruct (apply_keyword FilemakerExplicit.methods current (k, v) self)
      as [[] s1|e s1]; [|exact Hone].
    eapply frame_self_trans; [exact Hone|]. apply IH.
Qed.

(** C8, as the code has it: a [children] key on a node of the [file]
    branch is not passed over.  When the name of the file is text, the
    process is in a directory that exists and the file has been written
    with its content, the loop handles the entries before [children] and
    then enters the name of the node, which is the file just written:
    [NotADirectoryError] is raised, the value under [children] is never
    looked at, and the call never returns; without a [children] key only
    the handlers of [mode], [user] and [group] run after the file is
    written.  When the name is no instance of [basestring] (a number
    stands for a file descriptor, which [open] may accept), the step of
    the loop at [children] raises [TypeError] from [os.path.abspath] and
    leaves the state as it is, so that the call does not return
    either. *)
Theorem explicit_file_children (dct : list (pyval * pyval))
    (filename content : pyval) (self s1 : filemaker) :
  dict_has "directory" dct = false ->
  dict_get "file" dct = Some filename ->
  content = match dict_get "content" dct with Some c => c | None => VStr "" end ->
  (forall name,
      filename = VStr name ->
      is_dir (fs (world self)) (cwd (world self)) = true ->
      FilemakerExplicit.make_file filename content self = Ok tt s1 ->
      exists text,
        content = VStr text
        /\ kind_at (world s1) (abspath (world self) name) = Some (File text)
        /\ (dict_has "children" dct = false ->
            FilemakerExplicit.make_dict_item FilemakerExplicit.methods dct self
              = for_ (apply_keyword FilemakerExplicit.methods filename) dct s1)
        /\ (forall pre key v post,
              dct = (pre ++ (key, v) :: post)%list ->
              is_key "children" key = true ->
              dict_has "children" pre = false ->
              let r := for_ (apply_keyword FilemakerExplicit.methods filename)
                            pre s1 in
              kind_at (world (state_of r)) (abspath (world self) name)
                = Some (File text)
              /\ FilemakerExplicit.make_dict_item FilemakerExplicit.methods
                   dct self
                 = match r with
                   | Ok _ s2 =>
                       Raise NotADirectoryError
                         (Self (world s2)
                            (_curdir s2 ++ [cwd (world s2)])%list)
                   | Raise e s2 => Raise e s2
                   end
              /\ forall s', FilemakerExplicit.make_dict_item
                              FilemakerExplicit.methods dct self <> Ok tt s'))
  /\ (isinstance filename Cbasestring = false ->
      forall pre key v post,
        dct = (pre ++ (key, v) :: post)%list ->
        is_key "children" key = true ->
        (forall s2,
            FilemakerExplicit.for_key FilemakerExplicit.methods filename
              (key, v) s2 = Raise TypeError s2)
        /\ forall s', FilemakerExplicit.make_dict_item
                        FilemakerExplicit.methods dct self <> Ok tt s').
Proof.
  intros Hdir Hfile Hcontent.
  assert (Hhead : forall s,
    FilemakerExplicit.make_dict_item FilemakerExplicit.methods dct s
    = bind (FilemakerExplicit.make_file filename content)
        (fun _ => for_ (FilemakerExplicit.for_key FilemakerExplicit.methods
                          filename) dct) s).
  { intros s. unfold FilemakerExplicit.make_dict_item,
      FilemakerExplicit.make_dict_item_.
    unfold dict_has in Hdir |- *.
    destruct (dict_get "directory" dct); [discriminate|].
    rewrite Hfile. cbn [orb]. rewrite <- Hcontent.
    rewrite bind_assoc. apply bind_ext. intros [] s'. now rewrite bind_ret_l. }
  split.
  - intros name0 -> _ Hmk.
    destruct (make_file_Ok_file _ _ _ _ Hmk)
      as (name & text & [= <-] & Htext & Hkind & Hcwd & Hst).
    exists text. split; [exact Htext|]. split; [exact Hkind|]. split.
    + intros Hno. rewrite Hhead, (bind_step _ _ _ _ _ Hmk).
      unfold FilemakerExplicit.for_key. now apply explicit_loop_no_children.
    + intros pre key v post -> Hkey Hpre r.
      pose proof (keywords_loop_frame (VStr name0) pre s1) as (Hc & Hs & Hk).
      fold r in Hc, Hs, Hk.
      assert (Hres :
        FilemakerExplicit.make_dict_item FilemakerExplicit.methods
          (pre ++ (key, v) :: post) self
        = match r with
          | Ok _ s2 =>
              Raise NotADirectoryError
                (Self (world s2) (_curdir s2 ++ [cwd (world s2)])%list)
          | Raise e s2 => Raise e s2
          end).
      { rewrite Hhead, (bind_step _ _ _ _ _ Hmk), for_app.
        unfold bind at 1. unfold FilemakerExplicit.for_key at 1.
        rewrite (explicit_loop_no_children _ _ _ pre) by exact Hpre.
        fold r. destruct r as [[] s2|e s2]; [|reflexivity].
        cbn [for_]. unfold FilemakerExplicit.for_key at 1,
          FilemakerExplicit.for_key_ at 1. rewrite Hkey. rewrite !bind_assoc.
        apply bind_raise. cbn [pushd base FilemakerExplicit.methods].
        apply (pushd_file name0 text s2). cbn [state_of] in *.
        unfold abspath in *. rewrite Hc, Hcwd, Hk. exact Hkind. }
      split; [|split; [exact Hres|]].
      * rewrite Hk. exact Hkind.
      * intros s'. rewrite Hres. destruct r; discriminate.
  - intros Hno pre key v post Hdct Hkey.
    assert (Hstep : forall s2,
      FilemakerExplicit.for_key FilemakerExplicit.methods filename
        (key, v) s2 = Raise TypeError s2).
    { intros [w st]. unfold FilemakerExplicit.for_key,
        FilemakerExplicit.for_key_. rewrite Hkey. apply bind_raise.
      cbn [pushd base FilemakerExplicit.methods].
      destruct filename; try reflexivity. discriminate. }
    split; [exact Hstep|]. intros s'. rewrite Hhead. unfold bind at 1.
    destruct (FilemakerExplicit.make_file filename content self)
      as [[] s2|e s2]; [|discriminate].
    rewrite Hdct, for_app. unfold bind at 1.
    destruct (for_ _ pre s2) as [[] s3|e s3]; [|discriminate].
    cbn [for_]. unfold bind at 1. rewrite Hstep. discriminate.
Qed.

Lemma explicit_file_children_witness :
  let dct := [(VStr "file", VStr "f"); (VStr "content", VStr "x");
              (VStr "mode", VInt 420); (VStr "children", VList [])] in
  let s := Self (set_cwd ["tmp"; "t"] demo_world) [["home"]] in
  FilemakerExplicit.make_dict_item FilemakerExplicit.methods dct s
  = Raise NotADirectoryError
      (Self (OS ["tmp"; "t"]
                (<[["tmp"; "t"; "f"] := new_file "x"]> (fs demo_world))
                [Unable "mode" (VInt 420) (VStr "f")]
                (passwd demo_world) (groups demo_world) (allowed demo_world))
            [["home"]; ["tmp"; "t"]]).
Proof.
  intros dct s.
  destruct (FilemakerExplicit.make_file (VStr "f") (VStr "x") s)
    as [[] s1|e s1] eqn:Hmk; [|vm_compute in Hmk; discriminate].
  destruct (proj1 (explicit_file_children dct (VStr "f") (VStr "x") s s1
                     eq_refl eq_refl eq_refl) "f" eq_refl eq_refl Hmk)
    as (text & _ & _ & _ & Hchildren).
  destruct (Hchildren [(VStr "file", VStr "f"); (VStr "content", VStr "x");
                       (VStr "mode", VInt 420)]
              (VStr "children") (VList []) [] eq_refl eq_refl eq_refl)
    as (_ & Hres & _).
  rewrite Hres. vm_compute in Hmk. injection Hmk as <-.
  vm_compute. reflexivity.
Defined.

(** C8 as stated fails: with a [children] key on a [file] node an
    exception is raised, after the file has been written. *)
Lemma explicit_file_children_raises :
  let dct := [(VStr "file", VStr "f"); (VStr "content", VStr "x");
              (VStr "children", VList [])] in
  let s := Self (set_cwd ["tmp"; "t"] demo_world) [["home"]] in
  FilemakerExplicit.make_dict_item FilemakerExplicit.methods dct s
  = Raise NotADirectoryError
      (Self (set_cwd ["tmp"; "t"]
               (set_fs (<[["tmp"; "t"; "f"] := new_file "x"]> (fs demo_world))
                  demo_world))
            [["home"]; ["tmp"; "t"]])
  /\ (forall s', FilemakerExplicit.make_dict_item FilemakerExplicit.methods
                   dct s <> Ok tt s')
  /\ FilemakerExplicit.new (VStr "/tmp/t") (VDict dct) demo_world
     = Raise NotADirectoryError
         (Self (set_cwd ["tmp"; "t"]
                  (set_fs (<[["tmp"; "t"; "f"] := new_file "x"]>
                             (fs demo_world)) demo_world))
               [["home"]; ["tmp"; "t"]]).
Proof.
  intros dct s.
  assert (H : FilemakerExplicit.make_dict_item FilemakerExplicit.methods dct s
              = Raise NotADirectoryError
                  (Self (set_cwd ["tmp"; "t"]
                     (set_fs (<[["tmp"; "t"; "f"] := new_file "x"]>
                                (fs demo_world)) demo_world))
                     [["home"]; ["tmp"; "t"]]))
    by (vm_compute; reflexivity).
  split; [exact H|]. split.
  - intros s'. rewrite H. discriminate.
  - vm_compute. reflexivity.
Qed.

(** ** The explicit dialect: modes and owners without the privilege *)

(** A call about modes or owners that raises has changed nothing. *)
Lemma change_attr_Raise filename c w e w' :
  change_attr filename c w = Raise e w' -> w' = w.
Proof.
  unfold change_attr.
  destruct (path_arg filename w) as [e0|p]; [now intros [= _ <-]|].
  destruct (allowed w p c); [discriminate|now intros [= _ <-]].
Qed.

Lemma os_chown_Raise filename id mk w e w' :
  os_chown filename id mk w = Raise e w' -> w' = w.
Proof.
  unfold os_chown. destruct (path_arg_typed filename); [|now intros [= _ <-]].
  destruct (as_int id) as [i|]; [|now intros [= _ <-]].
  destruct ((i <? -1) || (2 ^ 32 <=? i)); [now intros [= _ <-]|].
  destruct (i =? -1); [|apply change_attr_Raise].
  destruct (path_arg filename w); [now intros [= _ <-]|discriminate].
Qed.

Lemma os_chmod_Raise filename mode w e w' :
  os_chmod filename mode w = Raise e w' -> w' = w.
Proof.
  unfold os_chmod. destruct (path_arg_typed filename); [|now intros [= _ <-]].
  destruct (as_int mode) as [m|]; [|now intros [= _ <-]].
  destruct ((m <? - 2 ^ 31) || (2 ^ 31 <=? m)); [now intros [= _ <-]|].
  apply change_attr_Raise.
Qed.

Lemma shutil_chown_user_Raise filename user w e w' :
  shutil_chown_user filename user w = Raise e w' -> w' = w.
Proof.
  destruct user; cbn; try apply os_chown_Raise; try now intros [= _ <-].
  destruct (passwd w s); [apply os_chown_Raise|now intros [= _ <-]].
Qed.

Lemma shutil_chown_group_Raise filename group w e w' :
  shutil_chown_group filename group w = Raise e w' -> w' = w.
Proof.
  destruct group; cbn; try apply os_chown_Raise; try now intros [= _ <-].
  destruct (groups w s); [apply os_chown_Raise|now intros [= _ <-]].
Qed.

Section handlers.
Context (m : M os_state unit) (what : string) (v filename : pyval).
Hypothesis m_Raise : forall w e w', m w = Raise e w' -> w' = w.

Let handler : M filemaker unit :=
  try_except_PermissionError (sys m) (sys (print (Unable what v filename))).

Lemma handler_refused self w' :
  m (world self) = Raise PermissionError w' ->
  w' = world self /\ handler self = Ok tt (warned what v filename self).
Proof using m_Raise.
  intros H. pose proof (m_Raise _ _ _ H) as ->. split; [reflexivity|].
  unfold handler, try_except_PermissionError, sys. rewrite H.
  reflexivity.
Qed.

Lemma handler_never_PermissionError self s' :
  handler self <> Raise PermissionError s'.
Proof.
  unfold handler, try_except_PermissionError, sys.
  destruct (m (world self)) as [[] w1|e w1]; [discriminate|].
  destruct e; cbn; discriminate.
Qed.
End handlers.

(** C9: when the system refuses a change of mode, user or group with
    [PermissionError], the handler prints its warning and returns; the loop
    over the entries of the node goes on with the next entry; the file
    system, the working directory and the stack are as they were, so the
    entry made before is still there with its content; and no handler ever
    lets a [PermissionError] out. *)
Theorem explicit_refused_is_warning (filename v : pyval) (self : filemaker) :
  let methods := FilemakerExplicit.methods in
  (forall w',
      os_chmod filename v (world self) = Raise PermissionError w' ->
      FilemakerExplicit.make_item_mode filename v self
        = Ok tt (warned "mode" v filename self)
      /\ forall rest,
           for_ (FilemakerExplicit.for_key methods filename)
                ((VStr "mode", v) :: rest) self
           = for_ (FilemakerExplicit.for_key methods filename) rest
                  (warned "mode" v filename self))
  /\ (forall w',
        shutil_chown_user filename v (world self) = Raise PermissionError w' ->
        FilemakerExplicit.make_item_user filename v self
          = Ok tt (warned "user" v filename self)
        /\ forall rest,
             for_ (FilemakerExplicit.for_key methods filename)
                  ((VStr "user", v) :: rest) self
             = for_ (FilemakerExplicit.for_key methods filename) rest
                    (warned "user" v filename self))
  /\ (forall w',
        shutil_chown_group filename v (world self) = Raise PermissionError w' ->
        FilemakerExplicit.make_item_group filename v self
          = Ok tt (warned "group" v filename self)
        /\ forall rest,
             for_ (FilemakerExplicit.for_key methods filename)
                  ((VStr "group", v) :: rest) self
             = for_ (FilemakerExplicit.for_key methods filename) rest
                    (warned "group" v filename self))
  /\ (forall what,
        fs (world (warned what v filename self)) = fs (world self)
        /\ cwd (world (warned what v filename self)) = cwd (world self)
        /\ _curdir (warned what v filename self) = _curdir self
        /\ stdout (world (warned what v filename self))
           = (stdout (world self) ++ [Unable what v filename])%list)
  /\ (forall s',
        FilemakerExplicit.make_item_mode filename v self
          <> Raise PermissionError s'
        /\ FilemakerExplicit.make_item_user filename v self
          <> Raise PermissionError s'
        /\ FilemakerExplicit.make_item_group filename v self
          <> Raise PermissionError s').
Proof.
  intros methods. repeat apply conj.
  - intros w' H.
    destruct (handler_refused _ "mode" v filename
                (os_chmod_Raise filename v) self w' H) as (_ & Hh).
    split; [exact Hh|]. intros rest. cbn [for_].
    exact (bind_step
             (FilemakerExplicit.for_key methods filename (VStr "mode", v))
             (fun _ => for_ (FilemakerExplicit.for_key methods filename) rest)
             self tt _ Hh).
  - intros w' H.
    destruct (handler_refused _ "user" v filename
                (shutil_chown_user_Raise filename v) self w' H) as (_ & Hh).
    split; [exact Hh|]. intros rest. cbn [for_].
    exact (bind_step
             (FilemakerExplicit.for_key methods filename (VStr "user", v))
             (fun _ => for_ (FilemakerExplicit.for_key methods filename) rest)
             self tt _ Hh).
  - intros w' H.
    destruct (handler_refused _ "group" v filename
                (shutil_chown_group_Raise filename v) self w' H) as (_ & Hh).
    split; [exact Hh|]. intros rest. cbn [for_].
    exact (bind_step
             (FilemakerExplicit.for_key methods filename (VStr "group", v))
             (fun _ => for_ (FilemakerExplicit.for_key methods filename) rest)
             self tt _ Hh).
  - intros what. repeat split.
  - intros s'. repeat split; apply handler_never_PermissionError.
Qed.

Lemma explicit_refused_is_warning_witness :
  let self :=
    Self (set_fs (<[["home"; "f"] := new_file "x"]> (fs demo_world))
            demo_world) [] in
  FilemakerExplicit.make_item_mode (VStr "f") (VInt 420) self
  = Ok tt (Self (OS ["home"]
                    (<[["home"; "f"] := new_file "x"]> (fs demo_world))
                    [Unable "mode" (VInt 420) (VStr "f")]
                    (passwd demo_world) (groups demo_world)
                    (allowed demo_world)) []).
Proof.
  intros self.
  assert (H : os_chmod (VStr "f") (VInt 420) (world self)
              = Raise PermissionError (world self))
    by (vm_compute; reflexivity).
  exact (proj1 (proj1 (explicit_refused_is_warning (VStr "f") (VInt 420) self)
                  (world self) H)).
Defined.

(** The example of the specification, run by a process that may not change
    modes: the directory and the file are made, the warning is printed. *)
Example explicit_example_unprivileged :
  FilemakerExplicit.new (VStr "/tmp/t")
    (VDict [(VStr "directory", VStr "d");
            (VStr "children",
             VList [VDict [(VStr "file", VStr "f");
                           (VStr "content", VStr "x");
                           (VStr "mode", VInt 420)]])])
    demo_world
  = Ok tt (Self (OS ["tmp"; "t"]
                    (<[["tmp"; "t"; "d"; "f"] := new_file "x"]>
                     (<[["tmp"; "t"; "d"] := new_dir]> (fs demo_world)))
                    [Unable "mode" (VInt 420) (VStr "f")]
                    (passwd demo_world) (groups demo_world)
                    (allowed demo_world)) [["home"]]).
Proof. vm_compute. reflexivity. Qed.

(** ** The scoped temporary directory *)

Section preserving.
Context {St : Type} (P : St -> Prop).

Lemma preserves_ret {A} (a : A) : preserves P (ret a).
Proof. intros s Hs. exact Hs. Qed.

Lemma preserves_bind {A B} (m : M St A) (k : A -> M St B) :
  preserves P m -> (forall a, preserves P (k a)) -> preserves P (bind m k).
Proof.
  intros Hm Hk s Hs. unfold bind. specialize (Hm s Hs).
  destruct (m s) as [a s1|e s1]; [apply Hk|]; exact Hm.
Qed.

Lemma preserves_value2str val : preserves P (value2str val).
Proof. intros s Hs. now rewrite value2str_pure. Qed.

Lemma preserves_for {A} (body : A -> M St unit) l :
  Forall (fun x => preserves P (body x)) l -> preserves P (for_ body l).
Proof.
  induction 1 as [|x l Hx _ IH]; cbn [for_].
  - apply preserves_ret.
  - apply preserves_bind; auto.
Qed.

(** The walk keeps what the four methods keep, also when it raises. *)
Lemma preserves_base_walk (self : backend St) :
  (forall d, preserves P (mkdir self d)) ->
  (forall d, preserves P (pushd self d)) ->
  preserves P (popd self) ->
  (forall f c, preserves P (make_file self f c)) ->
  forall item, preserves P (FilemakerBase._make_item self item).
Proof.
  intros Hmkdir Hpushd Hpopd Hfile item.
  induction item as [| | | | | | |lst IH|dct IH] using pyval_ind;
    try (cbn [FilemakerBase._make_item]; apply preserves_bind;
         [apply preserves_value2str | intros; apply Hfile]).
  - cbn [FilemakerBase._make_item]. now apply preserves_for.
  - cbn [FilemakerBase._make_item]. apply preserves_for.
    eapply Forall_impl; [exact IH|]. intros [k v] IHv. cbn in IHv.
    apply preserves_bind; [apply preserves_value2str|]. intros name.
    destruct (is_list_dict_None v).
    + repeat (apply preserves_bind; [|intros ?]); auto.
      destruct v; auto using preserves_ret.
    + apply preserves_bind; [apply preserves_value2str|]. auto.
Qed.
End preserving.

Lemma preserves_sys {A} (P : os_state -> Prop) (m : M os_state A) :
  preserves P m -> preserves (fun self => P (world self)) (sys m).
Proof.
  intros Hm self Hs. unfold sys. specialize (Hm _ Hs).
  now destruct (m (world self)).
Qed.

(** Properties of the file table alone, which calls that leave the table
    alone keep. *)
Section directories_stay.
Context (q : path).
Let P (w : os_state) : Prop := is_dir (fs w) q = true.
Let P' (self : filemaker) : Prop := P (world self).

Lemma os_chdir_keeps_fs p w : fs (state_of (os_chdir p w)) = fs w.
Proof.
  unfold os_chdir. destruct (fs w !! p) as [[[] ? ? ?]|]; try reflexivity.
  now destruct (existsb has_nul p).
Qed.

Lemma os_chdir_dir p : preserves P (os_chdir p).
Proof. intros w Hw. unfold P. now rewrite os_chdir_keeps_fs. Qed.

Lemma os_mkdir_dir d : preserves P (os_mkdir d).
Proof.
  intros w Hw. destruct d; try exact Hw. cbn.
  destruct (resolve w s) as [e|p]; [exact Hw|].
  destruct (fs w !! p) eqn:Hp; [exact Hw|].
  destruct (fs w !! parent p) as [[[] ? ? ?]|]; try exact Hw.
  cbn. apply is_dir_insert; auto.
Qed.

Lemma tempfile_mkdtemp_dir fresh : preserves P (tempfile_mkdtemp fresh).
Proof.
  intros w Hw. unfold tempfile_mkdtemp.
  destruct (fs w !! fresh) eqn:Hp; [exact Hw|].
  destruct (fs w !! parent fresh) as [[[] ? ? ?]|]; try exact Hw.
  cbn. apply is_dir_insert; auto.
Qed.

Lemma make_file_dir f c : preserves P' (Filemaker.make_file f c).
Proof.
  intros self Hs. unfold Filemaker.make_file, bind, sys.
  destruct (open_w f (world self)) as [p w1|e w1] eqn:Hopen.
  - apply open_w_Ok in Hopen as (Hnd & n & Hn & ->).
    assert (H1 : is_dir (<[p := n]> (fs (world self))) q = true).
    { apply is_dir_insert; auto. }
    cbn [world]. unfold fp_write.
    destruct c; try exact H1. cbn [fs set_fs].
    rewrite lookup_insert_eq. destruct n as [k m u g]. cbn.
    unfold P', P. cbn. apply is_dir_insert; [|exact H1].
    left. unfold is_dir. rewrite lookup_insert_eq.
    cbn in Hn. now subst k.
  - cbn. unfold P', P.
    destruct f; cbn in Hopen; try (injection Hopen as _ <-; exact Hs).
    + destruct (z <? 0); injection Hopen as _ <-; exact Hs.
    + destruct (resolve (world self) s) as [e0|p];
        [injection Hopen as _ <-; exact Hs|].
      destruct (fs (world self) !! p) as [[[] ? ? ?]|];
        try (injection Hopen as _ <-; exact Hs);
        destruct (trailing_slash s);
        try (injection Hopen as _ <-; exact Hs); try discriminate.
      destruct (fs (world self) !! parent p) as [[[] ? ? ?]|];
        try (injection Hopen as _ <-; exact Hs); discriminate.
Qed.

Lemma mkdir_dir d : preserves P' (Filemaker.mkdir d).
Proof. apply (preserves_sys P), os_mkdir_dir. Qed.

Lemma pushd_dir d : preserves P' (Filemaker.pushd d).
Proof.
  unfold Filemaker.pushd. apply preserves_bind.
  - apply (preserves_sys P). intros w Hw. now destruct d.
  - intros p. apply preserves_bind; [now apply (preserves_sys P)|].
    intros here. apply preserves_bind; [now intros s Hs|].
    intros _. apply (preserves_sys P), os_chdir_dir.
Qed.

Lemma popd_dir : preserves P' Filemaker.popd.
Proof.
  unfold Filemaker.popd. apply preserves_bind.
  - intros s Hs. unfold _curdir_pop. now destruct (last (_curdir s)).
  - intros p. apply (preserves_sys P), os_chdir_dir.
Qed.

(** Making the tree removes no directory, also when it raises. *)
Lemma materialize_dir tmpdir filedef : preserves P (materialize tmpdir filedef).
Proof.
  intros w Hw. unfold materialize, Filemaker.new, Filemaker.__init__,
    FilemakerBase.__init__.
  assert (H : preserves P'
                (pushd Filemaker.methods (VStr (path_str tmpdir)) ;;
                 FilemakerBase._make_item Filemaker.methods filedef)).
  { apply preserves_bind; [apply pushd_dir|]. intros _.
    apply preserves_base_walk; cbn;
      auto using mkdir_dir, pushd_dir, popd_dir, make_file_dir. }
  specialize (H (Self w []) Hw).
  now destruct ((pushd Filemaker.methods (VStr (path_str tmpdir)) ;;
                 FilemakerBase._make_item Filemaker.methods filedef)
                  (Self w [])).
Qed.
End directories_stay.

Lemma try_finally_state {St A} (m : M St A) (f : M St unit) s :
  state_of (try_finally m f s) = state_of (f (state_of (m s))).
Proof.
  unfold try_finally. destruct (m s) as [a s1|e s1]; cbn;
    now destruct (f s1).
Qed.

Lemma bind_state_Ok {St A B} (m : M St A) (k : A -> M St B) s a s1 :
  m s = Ok a s1 -> state_of (bind m k s) = state_of (k a s1).
Proof. intros H. now rewrite (bind_step _ _ _ _ _ H). Qed.

(** The state in which the body of [create_files] is left, once the
    temporary directory is there: after the tree is made, the directory
    entered and the body run, or where one of these raised. *)
Lemma create_files_state fresh filedef cleanup body w w1 :
  tempfile_mkdtemp fresh w = Ok fresh w1 ->
  state_of (create_files fresh filedef cleanup body w)
  = state_of ((os_chdir (cwd w) ;;
               if cleanup then shutil_rmtree fresh else ret tt)
              (state_of ((materialize fresh filedef ;;
                          os_chdir fresh ;;
                          body fresh) w1))).
Proof.
  intros Hmk. unfold create_files.
  rewrite (bind_state_Ok _ _ _ _ _ (eq_refl : os_getcwd w = Ok (cwd w) w)).
  rewrite (bind_state_Ok _ _ _ _ _ Hmk). unfold os_path_realpath.
  apply try_finally_state.
Qed.

Lemma tempfile_mkdtemp_cases fresh w :
  (exists e, tempfile_mkdtemp fresh w = Raise e w)
  \/ (fs w !! fresh = None
      /\ tempfile_mkdtemp fresh w
         = Ok fresh (set_fs (<[fresh := new_dir]> (fs w)) w)).
Proof.
  unfold tempfile_mkdtemp. destruct (fs w !! fresh); [eauto|].
  destruct (fs w !! parent fresh) as [[[] ? ? ?]|]; eauto.
Qed.




Lemma below_refl (p : path) : below p p.
Proof. unfold below. reflexivity. Qed.

Lemma shutil_rmtree_gone root w p :
  is_dir (fs w) root = true -> below root p ->
  fs (state_of (shutil_rmtree root w)) !! p = None.
Proof.
  intros Hd Hp. unfold shutil_rmtree. rewrite Hd. cbn.
  apply map_lookup_filter_None. right. intros n _ Hn. now apply Hn.
Qed.




(** * Further properties *)

(** ** The dry run *)

Lemma coercible_value2str {St} val (s : St) :
  if coercible val
  then exists name, value2str val s = Ok name s
  else value2str val s = Raise (UnknownType (DontKnowValue val (type val))) s.
Proof. rewrite value2str_cases. destruct val; cbn; eauto. Qed.


Lemma dry_for_outcome {A} (body : A -> M (list call) unit) (ok : A -> bool) l :
  Forall (fun x => forall out, dry_outcome (ok x) (body x out)) l ->
  forall out, dry_outcome (forallb ok l) (for_ body l out).
Proof.
  induction 1 as [|x l Hx _ IH]; intros out; cbn [for_ forallb].
  - eexists. reflexivity.
  - specialize (Hx out). unfold bind. destruct (ok x); cbn [andb].
    + destruct Hx as (out1 & ->). apply IH.
    + destruct Hx as (msg & out1 & ->). now exists msg, out1.
Qed.

Lemma dry_leaf_outcome val out :
  dry_outcome (coercible val)
    ((let* name := value2str val in
      make_file DryRun.methods (VStr name) (VStr "")) out).
Proof.
  unfold bind. pose proof (coercible_value2str val out) as H.
  destruct (coercible val).
  - destruct H as (name & ->). eexists. reflexivity.
  - rewrite H. eexists _, _. reflexivity.
Qed.

Lemma dry_walk_outcome item :
  forall out,
    dry_outcome (all_coercible item)
      (FilemakerBase._make_item DryRun.methods item out).
Proof.
  induction item as [| | | | | | |lst IH|dct IH] using pyval_ind;
    try (intros out; apply (dry_leaf_outcome _ out)).
  - cbn [FilemakerBase._make_item all_coercible].
    now apply dry_for_outcome.
  - cbn [FilemakerBase._make_item all_coercible].
    apply dry_for_outcome.
    eapply Forall_impl; [exact IH|]. intros [k v] IHv out. cbn in IHv.
    unfold bind at 1. pose proof (coercible_value2str k out) as Hk.
    destruct (coercible k); cbn [andb];
      [destruct Hk as (name & ->) | rewrite Hk; eexists _, _; reflexivity].
    destruct v; cbn [is_list_dict_None isinstance issubclass type pytype_eqb orb];
      try (unfold bind;
           match goal with
           | |- context [value2str ?v out] =>
               pose proof (coercible_value2str v out) as Hv;
               destruct (coercible v);
               [destruct Hv as (c & ->); eexists; reflexivity
               | rewrite Hv; eexists _, _; reflexivity]
           end).
    + eexists. reflexivity.
    + unfold bind. cbn [mkdir pushd popd DryRun.methods DryRun.mkdir
        DryRun.pushd DryRun.popd].
      specialize (IHv (out ++ [Call_mkdir (VStr name)]
                          ++ [Call_pushd (VStr name)])%list).
      rewrite app_assoc in IHv.
      destruct (all_coercible (VList lst)).
      * destruct IHv as (out1 & ->). eexists. reflexivity.
      * destruct IHv as (msg & out1 & ->). eexists _, _. reflexivity.
    + unfold bind. cbn [mkdir pushd popd DryRun.methods DryRun.mkdir
        DryRun.pushd DryRun.popd].
      specialize (IHv (out ++ [Call_mkdir (VStr name)]
                          ++ [Call_pushd (VStr name)])%list).
      rewrite app_assoc in IHv.
      destruct (all_coercible (VDict dct0)).
      * destruct IHv as (out1 & ->). eexists. reflexivity.
      * destruct IHv as (msg & out1 & ->). eexists _, _. reflexivity.
Qed.

(** X1: the dry run checks a description.  When it returns, the root was
    given as text and every key of a mapping, every leaf of a sequence and
    every content of a file in the tree is coercible: an instance of
    [basestring] or of [numbers.Number], or a value of type [date] itself.
    When it raises [UnknownType], some key, leaf or content is not. *)
Theorem dry_run_checks_coercible (root fdef : pyval) (out : list call) :
  (DryRun.new root fdef = Ok tt out ->
   (exists name, root = VStr name) /\ all_coercible fdef = true)
  /\ (forall msg,
        DryRun.new root fdef = Raise (UnknownType msg) out ->
        all_coercible fdef = false).
Proof.
  unfold DryRun.new, FilemakerBase.__init__, bind.
  cbn [pushd DryRun.methods DryRun.pushd].
  destruct root as [| | | |name| | | |];
    try (split; [discriminate|intros msg; discriminate]).
  cbn [DryRun.pushd].
  pose proof (dry_walk_outcome fdef ([] ++ [Call_pushd (VStr name)])%list)
    as H.
  destruct (all_coercible fdef).
  - destruct H as (out' & ->). split; [eauto|]. intros msg. discriminate.
  - destruct H as (msg' & out' & ->). split; [discriminate|reflexivity].
Qed.

Lemma dry_run_checks_coercible_witness :
  (exists name, VStr "/tmp/t" = VStr name)
  /\ all_coercible example_tree = true.
Proof.
  apply (proj1 (dry_run_checks_coercible (VStr "/tmp/t") example_tree
                  [Call_pushd (VStr "/tmp/t");
                   Call_mkdir (VStr "a"); Call_pushd (VStr "a");
                   Call_make_file (VStr "b") (VStr "hello");
                   Call_mkdir (VStr "c"); Call_pushd (VStr "c");
                   Call_make_file (VStr "1") (VStr "");
                   Call_make_file (VStr "2") (VStr "");
                   Call_popd; Call_popd])).
  vm_compute. reflexivity.
Defined.

Section foretelling.
Context {St : Type}.

Lemma foretold_ret {A} (a : A) : foretold (@ret (St * list call) A a) (ret a).
Proof.
  intros s log out. exists [], []. rewrite !app_nil_r.
  split; [reflexivity|]. split; [reflexivity|]. split; [reflexivity|].
  intros a' st' [= <- <-]. auto.
Qed.

Lemma foretold_value2str val :
  foretold (@value2str (St * list call) val) (value2str val).
Proof.
  intros s log out. exists [], []. rewrite !value2str_pure, !app_nil_r.
  split; [reflexivity|]. split; [reflexivity|]. split; [reflexivity|].
  intros a st' H. split; [reflexivity|].
  rewrite value2str_cases in H. rewrite value2str_cases.
  destruct val; try discriminate; now injection H as <- <-.
Qed.

Lemma foretold_bind {A B} mt md (kt : A -> M (St * list call) B) kd :
  foretold mt md -> (forall a, foretold (kt a) (kd a)) ->
  foretold (bind mt kt) (bind md kd).
Proof.
  intros Hm Hk s log out.
  destruct (Hm s log out) as (made1 & printed1 & Hlog & Hout & Hpre & Hok).
  unfold bind. destruct (mt (s, log)) as [a [s1 log1]|e [s1 log1]].
  - destruct (Hok a _ eq_refl) as (<- & Hd). rewrite Hd. cbn in Hlog.
    subst log1.
    destruct (Hk a s1 (log ++ made1)%list (out ++ made1)%list)
      as (made2 & printed2 & Hlog2 & Hout2 & Hpre2 & Hok2).
    exists (made1 ++ made2)%list, (made1 ++ printed2)%list.
    rewrite !app_assoc. repeat split; auto.
    + now apply prefix_app.
    + destruct (Hok2 _ _ H) as [-> _]. reflexivity.
    + destruct (Hok2 _ _ H) as [_ ->]. reflexivity.
  - cbn in Hlog. subst log1. cbn [state_of snd].
    destruct (md out) as [a' out1|e' out1] eqn:Hd; cbn in Hout; subst out1.
    + destruct (Hk a' s1 log (out ++ printed1)%list)
        as (_ & printed2 & _ & Hout2 & _ & _).
      exists made1, (printed1 ++ printed2)%list.
      rewrite app_assoc. repeat split; auto; try discriminate.
      now apply prefix_app_r.
    + exists made1, printed1. repeat split; auto; discriminate.
Qed.

Lemma foretold_for {A} bt (bd : A -> M (list call) unit) l :
  Forall (fun x => foretold (bt x) (bd x)) l ->
  foretold (@for_ (St * list call) A bt l) (for_ bd l).
Proof.
  induction 1 as [|x l Hx _ IH]; cbn [for_].
  - apply foretold_ret.
  - apply foretold_bind; auto.
Qed.

Lemma foretold_call (c : call) (m : M St unit) :
  foretold (noting c m) (fun out => Ok tt (out ++ [c])%list).
Proof.
  intros s log out. exists [c], [c]. cbn.
  destruct (m s) as [[] s1|e s1]; cbn;
    (split; [reflexivity|]; split; [reflexivity|]; split; [reflexivity|]).
  - intros [] st' _. auto.
  - discriminate.
Qed.

Lemma foretold_walk (self : backend St) item :
  foretold (FilemakerBase._make_item (traced self) item)
           (FilemakerBase._make_item DryRun.methods item).
Proof.
  assert (Hleaf : forall val,
    foretold
      (let* name := value2str val in
       make_file (traced self) (VStr name) (VStr ""))
      (let* name := value2str val in
       make_file DryRun.methods (VStr name) (VStr ""))).
  { intros val. apply foretold_bind; [apply foretold_value2str|].
    intros name. apply foretold_call. }
  induction item as [| | | | | | |lst IH|dct IH] using pyval_ind;
    try apply Hleaf.
  - cbn [FilemakerBase._make_item]. now apply foretold_for.
  - cbn [FilemakerBase._make_item]. apply foretold_for.
    eapply Forall_impl; [exact IH|]. intros [k v] IHv. cbn in IHv.
    apply foretold_bind; [apply foretold_value2str|]. intros name.
    destruct (is_list_dict_None v).
    + apply foretold_bind; [apply foretold_call|]. intros _.
      apply foretold_bind; [apply foretold_call|]. intros _.
      apply foretold_bind; [|intros _; apply foretold_call].
      destruct v; first [exact IHv | apply foretold_ret].
    + apply foretold_bind; [apply foretold_value2str|]. intros content.
      apply foretold_call.
Qed.
End foretelling.

(** X2: a dry run that returns tells what a run does.  When the dry run
    of a root and a tree returns, then for any back end the calls a
    construction with the same root and tree makes before it ends, with
    their arguments, are a beginning of the lines the dry run printed, and
    when the construction returns they are all of them, in the same
    order. *)
Theorem dry_run_foretells (St : Type) (self : backend St) (root fdef : pyval)
    (s : St) (out : list call) :
  DryRun.new root fdef = Ok tt out ->
  let r := FilemakerBase.__init__ (traced self) root fdef (s, []) in
  (state_of r).2 `prefix_of` out
  /\ (raised r = None -> (state_of r).2 = out).
Proof.
  intros Hdry r.
  assert (Hroot : exists name, root = VStr name).
  { unfold DryRun.new, FilemakerBase.__init__, bind in Hdry.
    cbn [pushd DryRun.methods DryRun.pushd] in Hdry.
    destruct root; try discriminate. eauto. }
  destruct Hroot as [name ->].
  assert (H : foretold (FilemakerBase.__init__ (traced self) (VStr name) fdef)
                       (FilemakerBase.__init__ DryRun.methods (VStr name) fdef)).
  { unfold FilemakerBase.__init__. apply foretold_bind.
    - apply (foretold_call (Call_pushd (VStr name))).
    - intros _. apply foretold_walk. }
  destruct (H s [] []) as (made & printed & Hlog & Hout & Hpre & Hok).
  fold r in Hlog, Hok. cbn [app] in Hlog, Hout.
  unfold DryRun.new in Hdry. rewrite Hdry in Hout. cbn [state_of] in Hout.
  subst out. rewrite Hlog. split; [exact Hpre|].
  intros Hr. destruct r as [[] st|e st] eqn:Er; [|discriminate].
  now destruct (Hok tt st eq_refl) as (-> & _).
Qed.

Lemma dry_run_foretells_witness :
  (state_of (FilemakerBase.__init__ (traced Filemaker.methods)
               (VStr "/tmp/t") example_tree (demo_self, []))).2
  = [Call_pushd (VStr "/tmp/t");
     Call_mkdir (VStr "a"); Call_pushd (VStr "a");
     Call_make_file (VStr "b") (VStr "hello");
     Call_mkdir (VStr "c"); Call_pushd (VStr "c");
     Call_make_file (VStr "1") (VStr "");
     Call_make_file (VStr "2") (VStr "");
     Call_popd; Call_popd].
Proof.
  apply (dry_run_foretells filemaker Filemaker.methods (VStr "/tmp/t")
           example_tree demo_self).
  - vm_compute. reflexivity.
  - vm_compute. reflexivity.
Defined.

(** ** What the implicit dialect hands to its methods *)

Lemma basestring_call_snoc out c :
  Forall basestring_call out -> basestring_call c -> Forall basestring_call (out ++ [c])%list.
Proof. intros H Hc. apply Forall_app. split; [exact H|]. now constructor. Qed.

Lemma dry_walk_basestring item :
  preserves (Forall basestring_call) (FilemakerBase._make_item DryRun.methods item).
Proof.
  assert (Hleaf : forall val,
    preserves (Forall basestring_call)
      (let* name := value2str val in
       make_file DryRun.methods (VStr name) (VStr ""))).
  { intros val. apply preserves_bind; [apply preserves_value2str|].
    intros name out H. now apply basestring_call_snoc. }
  induction item as [| | | | | | |lst IH|dct IH] using pyval_ind;
    try apply Hleaf.
  - cbn [FilemakerBase._make_item]. now apply preserves_for.
  - cbn [FilemakerBase._make_item]. apply preserves_for.
    eapply Forall_impl; [exact IH|]. intros [k v] IHv. cbn in IHv.
    apply preserves_bind; [apply preserves_value2str|]. intros name.
    destruct (is_list_dict_None v).
    + apply preserves_bind; [intros out H; now apply basestring_call_snoc|].
      intros _.
      apply preserves_bind; [intros out H; now apply basestring_call_snoc|].
      intros _.
      apply preserves_bind;
        [|intros _ out H; now apply basestring_call_snoc].
      destruct v; first [exact IHv | apply preserves_ret].
    + apply preserves_bind; [apply preserves_value2str|]. intros content.
      intros out H. now apply basestring_call_snoc.
Qed.

(** X3: whatever the back end and the tree, and however the walk ends,
    every argument the implicit dialect passes to [mkdir], [pushd] and
    [make_file] is an instance of [basestring]: the names and the contents
    have been through [value2str], which returns such a value as it is and
    makes text of the others, so no method of the back end is ever given a
    number, a date, [None], a sequence or a mapping. *)
Theorem implicit_calls_carry_basestring (St : Type) (self : backend St)
    (item : pyval) (s : St) :
  Forall basestring_call
    (state_of (FilemakerBase._make_item (traced self) item (s, []))).2.
Proof.
  destruct (foretold_walk self item s [] [])
    as (made & printed & Hlog & Hout & [rest ->] & _).
  rewrite Hlog. cbn [app] in *.
  pose proof (dry_walk_basestring item [] (Forall_nil_2 _)) as H.
  rewrite Hout in H. now apply Forall_app in H as [H _].
Qed.

(** ** Entering and leaving a directory *)

Lemma set_cwd_same w : set_cwd (cwd w) w = w.
Proof. now destruct w. Qed.



(** X5: [pushd] notes the working directory before it changes it.  In a
    working directory that exists, [pushd] to a name that is text but
    designates no directory raises, from [os.chdir]; the process stays
    where it is, nothing else changes, and the stack has grown by one
    entry all the same.  A name that is no instance of [basestring] (a
    number, a date, [None], a sequence, a mapping) raises [TypeError] from
    [os.path.abspath] with the object as it was.  [popd] on an empty stack
    raises [IndexError] and changes nothing. *)
Theorem pushd_failure_grows_stack (self : filemaker) :
  is_dir (fs (world self)) (cwd (world self)) = true ->
  (forall name,
      is_dir (fs (world self)) (abspath (world self) name) = false ->
      exists e,
        Filemaker.pushd (VStr name) self
          = Raise e (Self (world self)
                       (_curdir self ++ [cwd (world self)])%list))
  /\ (forall dirname,
        isinstance dirname Cbasestring = false ->
        Filemaker.pushd dirname self = Raise TypeError self)
  /\ (_curdir self = [] -> Filemaker.popd self = Raise IndexError self).
Proof.
  intros _. split; [|split].
  - intros name Hd.
    unfold Filemaker.pushd, bind, sys, _curdir_append, os_path_abspath,
      os_getcwd, os_chdir. cbn [world _curdir]. unfold is_dir in Hd.
    destruct (fs (world self) !! abspath (world self) name)
      as [[[] ? ? ?]|]; try discriminate; eauto.
    destruct (existsb has_nul (abspath (world self) name)); eauto.
  - intros dirname Hd. destruct self as [w st].
    destruct dirname; try reflexivity. discriminate.
  - intros Hst. unfold Filemaker.popd, bind, _curdir_pop. now rewrite Hst.
Qed.

Lemma pushd_failure_grows_stack_witness :
  Filemaker.pushd (VStr "missing") demo_self
    = Raise FileNotFoundError (Self demo_world [["home"]])
  /\ Filemaker.popd demo_self = Raise IndexError demo_self.
Proof.
  destruct (pushd_failure_grows_stack demo_self eq_refl)
    as (Hfail & _ & Hpop).
  split.
  - destruct (Hfail "missing" eq_refl) as (e & He).
    pose proof He as H2. vm_compute in H2. injection H2 as <-. exact He.
  - apply Hpop. reflexivity.
Defined.

(** ** Where a construction leaves the process *)

Lemma settled_refl a : settled a a.
Proof. repeat split. now intros p. Qed.

Lemma settled_trans a b c : settled a b -> settled b c -> settled a c.
Proof.
  intros (H1 & H2 & H3) (H4 & H5 & H6). repeat split; try congruence.
  intros p Hp. auto.
Qed.

Lemma mkdir_settled d a b : Filemaker.mkdir d a = Ok tt b -> settled a b.
Proof. intros H. apply mkdir_Ok in H as (? & ? & ?). now repeat split. Qed.

Lemma make_file_settled f c a b :
  Filemaker.make_file f c a = Ok tt b -> settled a b.
Proof. intros H. apply make_file_Ok in H as (? & ? & ?). now repeat split. Qed.

Lemma enter_leave_settled d a a1 a2 a3 :
  Filemaker.pushd d a = Ok tt a1 -> settled a1 a2 ->
  Filemaker.popd a2 = Ok tt a3 -> settled a a3.
Proof.
  intros Hpush (Hcwd & Hst & Hdirs) Hpop.
  destruct (pushd_popd _ _ _ _ _ Hpush Hst Hpop) as (? & ?).
  apply pushd_Ok in Hpush as (_ & Hfs1 & _).
  apply popd_Ok in Hpop as (_ & _ & Hfs3).
  repeat split; auto. intros p Hp. rewrite Hfs3. apply Hdirs.
  now rewrite Hfs1.
Qed.

Lemma keyword_settled key handler current v a b :
  FilemakerExplicit.keywords FilemakerExplicit.methods key = Some handler ->
  handler current v a = Ok tt b -> settled a b.
Proof.
  intros Hk H. pose proof (keywords_frame key handler current v a Hk)
    as (Hcwd & Hst & Hkind).
  rewrite H in *. cbn [state_of] in *. repeat split; auto.
  intros p Hp. specialize (Hkind p). unfold kind_at, is_dir in *.
  destruct (fs (world a) !! p) as [[[] ? ? ?]|]; try discriminate.
  destruct (fs (world b) !! p) as [[[] ? ? ?]|]; try discriminate.
  reflexivity.
Qed.

Lemma pushd_Ok_name d self self' :
  Filemaker.pushd d self = Ok tt self' ->
  exists name, d = VStr name
               /\ cwd (world self') = abspath (world self) name.
Proof.
  unfold Filemaker.pushd. intros H. inv_bind H as s1 Habs.
  inv_bind H as s2 Hcwd. inv_bind H as s3 Happ.
  apply sys_Ok in Habs as (w1 & Habs & ->).
  apply sys_Ok in Hcwd as (w2 & Hcwd & ->).
  apply sys_Ok in H as (w3 & H & ->).
  destruct d; try discriminate. injection Habs as <- <-.
  injection Hcwd as <- <-. injection Happ as <-. cbn in *.
  apply os_chdir_Ok in H as (_ & ->). eauto.
Qed.

(** X6: a construction under a root given as text that returns leaves
    the process in the root, in either dialect: the working directory is
    what [os.path.abspath] made of the root when the construction began,
    and that is a directory. *)
Theorem construct_ends_in_root (d : dialect) (root : string) (fdef : pyval)
    (w : os_state) (self' : filemaker) :
  construct d (VStr root) fdef w = Ok tt self' ->
  cwd (world self') = abspath w root
  /\ is_dir (fs (world self')) (abspath w root) = true.
Proof.
  intros Hrun.
  assert (H : exists s1, Filemaker.pushd (VStr root) (Self w []) = Ok tt s1
                         /\ settled s1 self').
  { destruct d; cbn [construct] in Hrun.
    - unfold Filemaker.new, Filemaker.__init__, FilemakerBase.__init__
        in Hrun. inv_bind Hrun as s1 Hpush. exists s1. split; [exact Hpush|].
      revert Hrun. apply base_walk_Ok;
        eauto using settled_refl, settled_trans.
      + apply mkdir_settled.
      + apply make_file_settled.
      + apply enter_leave_settled.
    - unfold FilemakerExplicit.new, FilemakerExplicit.__init__ in Hrun.
      inv_bind Hrun as s1 Hpush. exists s1. split; [exact Hpush|].
      revert Hrun. apply explicit_walk_Ok;
        eauto using settled_refl, settled_trans, keyword_settled.
      + apply mkdir_settled.
      + apply make_file_settled.
      + apply enter_leave_settled. }
  destruct H as (s1 & Hpush & Hcwd & _ & Hdirs).
  destruct (pushd_Ok_name _ _ _ Hpush) as (name & [= <-] & Hname).
  apply pushd_Ok in Hpush as (_ & Hfs & Hd). cbn [world] in *.
  split; [congruence|].
  apply Hdirs. rewrite Hfs, <- Hname. exact Hd.
Qed.

Lemma construct_ends_in_root_witness :
  exists self',
    construct Explicit (VStr "/tmp/t")
      (VDict [(VStr "directory", VStr "d"); (VStr "mode", VInt 448)])
      demo_world = Ok tt self'
    /\ cwd (world self') = ["tmp"; "t"].
Proof.
  destruct (construct Explicit (VStr "/tmp/t")
              (VDict [(VStr "directory", VStr "d"); (VStr "mode", VInt 448)])
              demo_world) as [[] self'|e self'] eqn:Hrun;
    [|vm_compute in Hrun; discriminate].
  exists self'. split; [reflexivity|].
  exact (proj1 (construct_ends_in_root _ _ _ _ _ Hrun)).
Defined.

(** ** Empty descriptions *)

(** X7: what an empty description gives, once the root is entered.  An
    empty document ([None]) has no rule and raises [UnknownType] in both
    dialects; an empty sequence does nothing in both; an empty mapping does
    nothing in the implicit dialect and raises [UnknownType] in the
    explicit one, where it has no discriminator. *)
Theorem construct_empty (root : pyval) (w : os_state) (s1 : filemaker) :
  Filemaker.pushd root (Self w []) = Ok tt s1 ->
  (forall d, construct d root VNone w
             = Raise (UnknownType (DontKnowValue VNone TNoneType)) s1)
  /\ (forall d, construct d root (VList []) w = Ok tt s1)
  /\ construct Implicit root (VDict []) w = Ok tt s1
  /\ construct Explicit root (VDict []) w
     = Raise (UnknownType DontKnowStructure) s1.
Proof.
  intros Hpush. repeat apply conj.
  - intros []; cbn [construct];
      unfold Filemaker.new, Filemaker.__init__, FilemakerBase.__init__,
        FilemakerExplicit.new, FilemakerExplicit.__init__;
      cbn [pushd Filemaker.methods FilemakerExplicit.methods base];
      exact (bind_step _ _ _ _ _ Hpush).
  - intros []; cbn [construct];
      unfold Filemaker.new, Filemaker.__init__, FilemakerBase.__init__,
        FilemakerExplicit.new, FilemakerExplicit.__init__;
      cbn [pushd Filemaker.methods FilemakerExplicit.methods base];
      exact (bind_step _ _ _ _ _ Hpush).
  - cbn [construct].
    unfold Filemaker.new, Filemaker.__init__, FilemakerBase.__init__.
    cbn [pushd Filemaker.methods]. exact (bind_step _ _ _ _ _ Hpush).
  - cbn [construct].
    unfold FilemakerExplicit.new, FilemakerExplicit.__init__.
    cbn [pushd FilemakerExplicit.methods base].
    exact (bind_step _ _ _ _ _ Hpush).
Qed.

Lemma construct_empty_witness :
  construct Implicit (VStr "/tmp/t") VNone demo_world
  = Raise (UnknownType (DontKnowValue VNone TNoneType))
      (Self (set_cwd ["tmp"; "t"] demo_world) [["home"]])
  /\ construct Explicit (VStr "/tmp/t") (VDict []) demo_world
     = Raise (UnknownType DontKnowStructure)
         (Self (set_cwd ["tmp"; "t"] demo_world) [["home"]]).
Proof.
  assert (Hpush : Filemaker.pushd (VStr "/tmp/t") (Self demo_world [])
                  = Ok tt (Self (set_cwd ["tmp"; "t"] demo_world) [["home"]]))
    by (vm_compute; reflexivity).
  destruct (construct_empty _ _ _ Hpush) as (H1 & _ & _ & H4).
  split; [apply H1 | exact H4].
Defined.

(** ** Sequences and mappings as lists of steps *)

Lemma bind_ret_r {St A} (m : M St A) s : bind m (fun a => ret a) s = m s.
Proof. unfold bind. now destruct (m s). Qed.

Lemma bind_ret_tt {St} (m : M St unit) s : bind m (fun _ => ret tt) s = m s.
Proof. unfold bind. now destruct (m s) as [[] ?|? ?]. Qed.

(** X8: the elements of a sequence are siblings, so nesting or cutting
    sequences changes nothing: a sequence inside a sequence is walked as
    its elements in place, in both dialects; and in the implicit dialect a
    mapping is walked as the sequence of its entries, each a mapping of its
    own. *)
Theorem sequences_flatten (St : Type) (self : backend St)
    (ex : backend_explicit St) (s : St) :
  (forall l1 l2,
      FilemakerBase._make_item self (VList (VList l1 :: l2)) s
      = FilemakerBase._make_item self (VList (l1 ++ l2)) s)
  /\ (forall l1 l2,
        FilemakerExplicit._make_item ex (VList (VList l1 :: l2)) s
        = FilemakerExplicit._make_item ex (VList (l1 ++ l2)) s)
  /\ (forall dct,
        FilemakerBase._make_item self (VDict dct) s
        = FilemakerBase._make_item self
            (VList (map (fun entry => VDict [entry]) dct)) s).
Proof.
  repeat apply conj.
  - intros l1 l2. cbn [FilemakerBase._make_item].
    unfold FilemakerBase.make_list_item_. cbn [for_].
    rewrite for_app. reflexivity.
  - intros l1 l2. cbn [FilemakerExplicit._make_item].
    unfold FilemakerBase.make_list_item_. cbn [for_].
    rewrite for_app. reflexivity.
  - intros dct. cbn [FilemakerBase._make_item].
    unfold FilemakerBase.make_list_item_, FilemakerBase.make_dict_item_.
    revert s. induction dct as [|entry dct IH]; intros s; [reflexivity|].
    cbn [for_ map]. cbn [FilemakerBase._make_item].
    unfold FilemakerBase.make_dict_item_. cbn [for_].
    rewrite bind_assoc. apply bind_ext. intros [] s1.
    rewrite bind_ret_l. apply IH.
Qed.

(** ** An empty directory, in five spellings *)

Lemma pushd_popd_back d self s1 s2 :
  Filemaker.pushd d self = Ok tt s1 ->
  Filemaker.popd s1 = Ok tt s2 ->
  s2 = self.
Proof.
  intros Hpush Hpop. unfold Filemaker.pushd in Hpush.
  inv_bind Hpush as t1 Habs. inv_bind Hpush as t2 Hget.
  inv_bind Hpush as t3 Happ.
  apply sys_Ok in Habs as (w2 & Habs & ->).
  apply sys_Ok in Hget as (w3 & Hget & ->).
  apply sys_Ok in Hpush as (w4 & Hch & ->).
  destruct d; try discriminate. injection Habs as <- <-.
  injection Hget as <- <-. injection Happ as <-. cbn [world _curdir] in *.
  apply os_chdir_Ok in Hch as (_ & ->).
  unfold Filemaker.popd, bind, _curdir_pop, sys in Hpop.
  cbn [world _curdir] in Hpop.
  rewrite last_snoc, removelast_last in Hpop. cbn [world _curdir] in Hpop.
  match type of Hpop with
  | context [os_chdir ?p ?w] =>
      destruct (os_chdir p w) as [[] w5|e w5] eqn:Hback; [|discriminate]
  end.
  apply os_chdir_Ok in Hback as (_ & ->). injection Hpop as <-.
  destruct self as [[cw f o pw gr al] st]. reflexivity.
Qed.

(** X9: an empty directory has five spellings.  For any back end, a key
    with an empty sequence or an empty mapping under it is handled by the
    implicit dialect exactly as the key with [None] under it, and a
    [directory] node with [children: []] is handled by the explicit
    dialect exactly as the implicit dialect handles its name with [None]
    under it: [mkdir], [pushd], [popd], with the same outcome and state
    also when one of them raises.  A [directory] node without [children]
    is only made, not entered: with [Filemaker], whenever the implicit
    spelling returns, the explicit node without [children] returns in the
    same state, in which the stack and the working directory are as
    before and the file system has one entry more, a directory. *)
Theorem empty_directory_spellings (St : Type) (ex : backend_explicit St)
    (c : string) :
  (forall k s,
      FilemakerBase.make_dict_item (base ex) [(k, VList [])] s
        = FilemakerBase.make_dict_item (base ex) [(k, VNone)] s
      /\ FilemakerBase.make_dict_item (base ex) [(k, VDict [])] s
         = FilemakerBase.make_dict_item (base ex) [(k, VNone)] s)
  /\ (forall s,
        FilemakerExplicit.make_dict_item ex
          [(VStr "directory", VStr c); (VStr "children", VList [])] s
        = FilemakerBase.make_dict_item (base ex) [(VStr c, VNone)] s)
  /\ (forall self s',
        FilemakerBase.make_dict_item Filemaker.methods [(VStr c, VNone)] self
          = Ok tt s' ->
        FilemakerExplicit.make_dict_item FilemakerExplicit.methods
          [(VStr "directory", VStr c)] self = Ok tt s'
        /\ _curdir s' = _curdir self
        /\ cwd (world s') = cwd (world self)
        /\ exists p, fs (world self) !! p = None
                     /\ fs (world s') = <[p := new_dir]> (fs (world self))).
Proof.
  split; [|split].
  - intros k s. split; reflexivity.
  - intros s.
    unfold FilemakerExplicit.make_dict_item,
      FilemakerExplicit.make_dict_item_, FilemakerBase.make_dict_item,
      FilemakerBase.make_dict_item_.
    cbn -[mkdir pushd popd]. rewrite !bind_assoc.
    change (value2str (VStr c)) with (@ret St string c).
    rewrite !bind_ret_l.
    change (is_list_dict_None VNone) with true. cbv iota.
    rewrite !bind_assoc. apply bind_ext. intros [] s1.
    rewrite !bind_ret_l. reflexivity.
  - intros self s' H.
    unfold FilemakerBase.make_dict_item, FilemakerBase.make_dict_item_ in H.
    cbn [for_] in H. rewrite bind_ret_tt in H.
    change (value2str (VStr c)) with (@ret filemaker string c) in H.
    rewrite bind_ret_l in H.
    change (is_list_dict_None VNone) with true in H. cbv iota in H.
    cbn [mkdir pushd popd Filemaker.methods] in H.
    inv_bind H as s1 Hmk. inv_bind H as s2 Hpush. rewrite bind_ret_l in H.
    pose proof (pushd_popd_back _ _ _ _ Hpush H) as ->.
    split.
    + unfold FilemakerExplicit.make_dict_item,
        FilemakerExplicit.make_dict_item_. cbn [dict_has dict_get is_key].
      cbn. rewrite bind_assoc.
      rewrite (bind_step _ _ _ _ _ (Hmk : FilemakerExplicit.mkdir _ _ = _)).
      reflexivity.
    + unfold Filemaker.mkdir in Hmk. apply sys_Ok in Hmk as (w' & Hmk & ->).
      apply os_mkdir_Ok in Hmk as (p & Hp & ->). cbn. eauto.
Qed.

Lemma empty_directory_spellings_witness :
  FilemakerExplicit.make_dict_item FilemakerExplicit.methods
    [(VStr "directory", VStr "d")] demo_self
  = Ok tt (Self (set_fs (<[["home"; "d"] := new_dir]> (fs demo_world))
                   demo_world) []).
Proof.
  apply (proj2 (proj2 (empty_directory_spellings filemaker
                         FilemakerExplicit.methods "d")) demo_self).
  vm_compute. reflexivity.
Defined.

(** ** Running a description twice *)

Lemma namei_insert_file f (p q r : path) comps n :
  is_dir f p = false ->
  namei f q comps = inr r -> namei (<[p := n]> f) q comps = inr r.
Proof.
  intros Hp. revert q. induction comps as [|c comps IH]; intros q;
    cbn [namei]; [auto|].
  destruct (f !! q) as [[[] m u g]|] eqn:Hq; try discriminate.
  assert (p <> q) as Hne.
  { intros ->. unfold is_dir in Hp. now rewrite Hq in Hp. }
  rewrite lookup_insert_ne by exact Hne. rewrite Hq. apply IH.
Qed.

Lemma set_fs_set_fs f g w : set_fs f (set_fs g w) = set_fs f w.
Proof. reflexivity. Qed.

(** [make_file] returns: where the file is, and the world after. *)
Lemma make_file_Ok_world filename content self self' :
  Filemaker.make_file filename content self = Ok tt self' ->
  exists name text p m u g,
    filename = VStr name /\ content = VStr text
    /\ resolve (world self) name = inr p
    /\ trailing_slash name = false
    /\ is_dir (fs (world self)) p = false
    /\ self' = Self (set_fs (<[p := Node (File text) m u g]>
                               (fs (world self))) (world self))
                    (_curdir self).
Proof.
  unfold Filemaker.make_file. intros H. inv_bind H as s1 Hopen.
  apply sys_Ok in Hopen as (w1 & Hopen & ->).
  apply sys_Ok in H as (w2 & H & ->). cbn [world _curdir] in *.
  destruct filename; try discriminate; cbn in Hopen.
  { destruct (z <? 0); discriminate. }
  destruct (resolve (world self) s) as [e|p] eqn:Hres; [discriminate|].
  destruct content; try discriminate. cbn in H.
  destruct (fs (world self) !! p) as [[[] m u g]|] eqn:Hp;
    try discriminate; destruct (trailing_slash s) eqn:Hts;
    try discriminate.
  - injection Hopen as <- <-. cbn in H. rewrite lookup_insert_eq in H.
    injection H as <-. exists s, s0, p, m, u, g.
    repeat split; auto; [unfold is_dir; now rewrite Hp|].
    rewrite insert_insert_eq. reflexivity.
  - destruct (fs (world self) !! parent p) as [[[] ? ? ?]|];
      try discriminate.
    injection Hopen as <- <-. cbn in H. rewrite lookup_insert_eq in H.
    injection H as <-. exists s, s0, p, None, None, None.
    repeat split; auto; [unfold is_dir; now rewrite Hp|].
    unfold new_file. rewrite insert_insert_eq. reflexivity.
Qed.

Lemma mkdir_Ok_plain c self self' :
  plain_name c = true ->
  Filemaker.mkdir (VStr c) self = Ok tt self' ->
  is_dir (fs (world self)) (cwd (world self)) = true
  /\ is_dir (fs (world self')) (cwd (world self) ++ [c])%list = true.
Proof.
  intros Hc H. unfold Filemaker.mkdir in H.
  apply sys_Ok in H as (w' & H & ->). cbn [world].
  destruct (plain_name_facts c Hc) as (Hnul & Hne & Habs & Hcomp & _ & Hstep).
  unfold os_mkdir, resolve in H. rewrite Hnul, Hne, Habs, Hcomp in H.
  cbn [namei] in H. unfold is_dir.
  destruct (fs (world self) !! cwd (world self)) as [[[] ? ? ?]|];
    try discriminate.
  split; [reflexivity|]. rewrite Hstep in H.
  destruct (fs (world self) !! (cwd (world self) ++ [c])%list);
    [discriminate|].
  destruct (fs (world self) !! parent (cwd (world self) ++ [c])%list)
    as [[[] ? ? ?]|]; try discriminate.
  injection H as <-. cbn. now rewrite lookup_insert_eq.
Qed.

(** X10: a description can be run again only as far as it makes files.
    [make_file] with the same name and content a second time returns and
    changes nothing, the file is written over with what it holds.  A
    mapping whose first entry is a directory, run again where it has been
    run, raises [FileExistsError] at once and changes nothing. *)
Theorem second_run (self s' : filemaker) :
  (forall filename content,
      Filemaker.make_file filename content self = Ok tt s' ->
      Filemaker.make_file filename content s' = Ok tt s')
  /\ (forall c v rest,
        plain_name c = true -> is_list_dict_None v = true ->
        FilemakerBase._make_item Filemaker.methods
          (VDict ((VStr c, v) :: rest)) self = Ok tt s' ->
        FilemakerBase._make_item Filemaker.methods
          (VDict ((VStr c, v) :: rest)) s' = Raise FileExistsError s').
Proof.
  split.
  - intros filename content H.
    destruct (make_file_Ok_world _ _ _ _ H)
      as (name & text & p & m & u & g & -> & -> & Hres & Hts & Hnd & ->).
    unfold Filemaker.make_file, bind, sys, open_w. cbn [world _curdir].
    assert (Hres' : resolve (set_fs (<[p := Node (File text) m u g]>
                                       (fs (world self))) (world self)) name
                    = inr p).
    { unfold resolve in *. cbn [fs cwd set_fs].
      destruct (has_nul name); [discriminate|].
      destruct (String.eqb name ""); [discriminate|].
      now apply namei_insert_file. }
    rewrite Hres'. cbn [fs set_fs]. rewrite lookup_insert_eq, Hts.
    cbn [fp_write fs set_fs world _curdir]. rewrite lookup_insert_eq.
    unfold set_fs. cbn [fs cwd stdout passwd groups allowed].
    now rewrite !insert_insert_eq.
  - intros c v rest Hc Hv Hrun.
    cbn [FilemakerBase._make_item] in Hrun |- *.
    unfold FilemakerBase.make_dict_item_ in Hrun |- *.
    cbn [for_] in Hrun |- *. inv_bind Hrun as s3 Hentry.
    assert (Hrest : settled s3 s').
    { revert Hrun. apply for_Ok; eauto using settled_refl, settled_trans.
      apply Forall_forall. intros [k v0] _ a b Hb.
      assert (Hone : FilemakerBase._make_item Filemaker.methods
                       (VDict [(k, v0)]) a = Ok tt b).
      { cbn [FilemakerBase._make_item]. unfold FilemakerBase.make_dict_item_.
        cbn [for_]. now rewrite bind_ret_tt. }
      revert Hone. apply base_walk_Ok;
        eauto using settled_refl, settled_trans.
      - apply mkdir_settled.
      - apply make_file_settled.
      - apply enter_leave_settled. }
    change (value2str (VStr c)) with (@ret filemaker string c) in Hentry.
    rewrite bind_ret_l, Hv in Hentry. cbn [mkdir pushd popd
      Filemaker.methods] in Hentry.
    inv_bind Hentry as s4 Hmk. inv_bind Hentry as s5 Hpush.
    inv_bind Hentry as s6 Hin.
    destruct (mkdir_Ok_plain _ _ _ Hc Hmk) as (Hcwd & Hnew).
    assert (H43 : settled s4 s3).
    { eapply enter_leave_settled; [exact Hpush| |exact Hentry].
      destruct v; try discriminate.
      - injection Hin as ->. apply settled_refl.
      - revert Hin. apply base_walk_Ok;
          eauto using settled_refl, settled_trans.
        + apply mkdir_settled. + apply make_file_settled.
        + apply enter_leave_settled.
      - revert Hin. apply base_walk_Ok;
          eauto using settled_refl, settled_trans.
        + apply mkdir_settled. + apply make_file_settled.
        + apply enter_leave_settled. }
    pose proof (settled_trans _ _ _ (mkdir_settled _ _ _ Hmk)
                  (settled_trans _ _ _ H43 Hrest)) as (Hc' & _ & Hd').
    pose proof (settled_trans _ _ _ H43 Hrest) as (_ & _ & Hd4).
    apply mkdir_Ok in Hmk as (_ & Hcwd4 & _).
    apply bind_raise.
    change (value2str (VStr c)) with (@ret filemaker string c).
    rewrite bind_ret_l, Hv. apply bind_raise.
    cbn [mkdir Filemaker.methods].
    unfold Filemaker.mkdir, sys, os_mkdir.
    rewrite (resolve_plain c Hc (world s')) by (rewrite Hc'; now apply Hd').
    rewrite Hc'.
    specialize (Hd4 _ Hnew). apply is_dir_Some in Hd4 as (m & u & g & ->).
    now destruct s'.
Qed.

Lemma second_run_witness :
  let tree := VDict [(VStr "d", VList [VStr "x"])] in
  exists s',
    FilemakerBase._make_item Filemaker.methods tree demo_self = Ok tt s'
    /\ FilemakerBase._make_item Filemaker.methods tree s'
       = Raise FileExistsError s'.
Proof.
  intros tree.
  destruct (FilemakerBase._make_item Filemaker.methods tree demo_self)
    as [[] s'|e s'] eqn:Hrun; [|vm_compute in Hrun; discriminate].
  exists s'. split; [reflexivity|].
  apply (proj2 (second_run demo_self s') "d" (VList [VStr "x"]) []
           eq_refl eq_refl Hrun).
Defined.

(** ** The explicit dialect: what is not coerced, not checked, not caught *)

(** X11: the explicit dialect does not coerce the content of a file.  A
    content that is no text (a number, a boolean, a date) makes the node
    raise [TypeError], after the file has been opened and so been made: it
    is left behind empty.  (The implicit dialect would have written the
    text of the number.) *)
Theorem explicit_content_not_coerced (dct : list (pyval * pyval))
    (name : string) (content : pyval) (self : filemaker) (p : path)
    (w1 : os_state) :
  dict_has "directory" dct = false ->
  dict_get "file" dct = Some (VStr name) ->
  dict_get "content" dct = Some content ->
  (forall text, content <> VStr text) ->
  open_w (VStr name) (world self) = Ok p w1 ->
  FilemakerExplicit.make_dict_item FilemakerExplicit.methods dct self
    = Raise TypeError (Self w1 (_curdir self))
  /\ kind_at w1 p = Some (File "").
Proof.
  intros Hdir Hfile Hcontent Htext Hopen. split.
  - unfold FilemakerExplicit.make_dict_item,
      FilemakerExplicit.make_dict_item_, dict_has in *.
    destruct (dict_get "directory" dct); [discriminate|].
    rewrite Hfile, Hcontent. cbn [orb]. do 2 apply bind_raise.
    cbn [make_file base FilemakerExplicit.methods].
    unfold FilemakerExplicit.make_file, bind, sys. rewrite Hopen.
    cbn [world _curdir].
    destruct content; try reflexivity. now destruct (Htext s).
  - apply open_w_Ok in Hopen as (_ & n & Hn & ->). unfold kind_at. cbn.
    rewrite lookup_insert_eq. cbn. now rewrite Hn.
Qed.

Lemma explicit_content_not_coerced_witness :
  FilemakerExplicit.make_dict_item FilemakerExplicit.methods
    [(VStr "file", VStr "f"); (VStr "content", VInt 5)] demo_self
  = Raise TypeError
      (Self (set_fs (<[["home"; "f"] := new_file ""]> (fs demo_world))
               demo_world) []).
Proof.
  refine (proj1 (explicit_content_not_coerced
                   [(VStr "file", VStr "f"); (VStr "content", VInt 5)]
                   "f" (VInt 5) demo_self ["home"; "f"] _
                   eq_refl eq_refl eq_refl _ _)).
  - intros text. discriminate.
  - vm_compute. reflexivity.
Defined.

Lemma for_filter_skip {St A} (body : A -> M St unit) (keep : A -> bool) l :
  (forall x s, keep x = false -> body x s = Ok tt s) ->
  forall s, for_ body (List.filter keep l) s = for_ body l s.
Proof.
  intros Hskip. induction l as [|x l IH]; intros s; [reflexivity|].
  cbn [List.filter for_]. destruct (keep x) eqn:Hx; cbn [for_].
  - apply bind_ext. intros _ s1. apply IH.
  - rewrite (bind_step _ _ _ _ _ (Hskip x s Hx)). apply IH.
Qed.

Lemma dict_get_filter name (keep : pyval * pyval -> bool) dct :
  (forall k v, is_key name k = true -> keep (k, v) = true) ->
  dict_get name (List.filter keep dct) = dict_get name dct.
Proof.
  intros Hkeep. induction dct as [|[k v] dct IH]; [reflexivity|].
  cbn [List.filter dict_get]. destruct (is_key name k) eqn:Hk.
  - rewrite (Hkeep k v Hk). cbn [dict_get]. now rewrite Hk.
  - destruct (keep (k, v)); [cbn [dict_get]; rewrite Hk|]; exact IH.
Qed.

(** X12: the explicit dialect looks at seven keys and at no other.  A
    node is handled exactly as the node without its entries under any other
    key, for any back end: a misspelt [mode], a key that is a number, a
    comment field, none is reported and none has an effect. *)
Theorem explicit_other_keys_ignored (St : Type) (self : backend_explicit St)
    (dct : list (pyval * pyval)) (s : St) :
  FilemakerExplicit.make_dict_item self dct s
  = FilemakerExplicit.make_dict_item self (recognized_only dct) s.
Proof.
  unfold FilemakerExplicit.make_dict_item,
    FilemakerExplicit.make_dict_item_, dict_has, recognized_only.
  rewrite !dict_get_filter;
    try (intros k v Hk; destruct k; try discriminate; cbn in Hk;
         apply String.eqb_eq in Hk as ->; reflexivity).
  destruct (match dict_get "directory" dct with Some _ => true | None => false end
            || match dict_get "file" dct with Some _ => true | None => false end);
    [|reflexivity].
  apply bind_ext. intros current s1. symmetry. apply for_filter_skip.
  intros [k v] s2 Hk. unfold recognized in Hk. cbn [existsb] in Hk.
  repeat (apply orb_false_iff in Hk as [? Hk]).
  unfold FilemakerExplicit.for_key_, FilemakerExplicit.keywords.
  now repeat match goal with H : is_key _ k = false |- _ => rewrite H; clear H end.
Qed.

(** X13: only [PermissionError] is turned into a warning.  A user or a
    group the system does not know by name raises [LookupError], a mode
    given as text raises [TypeError]; the handler lets them through, and
    the loop over the entries of the node stops there. *)
Theorem explicit_other_errors_escape (filename : pyval) (self : filemaker) :
  let methods := FilemakerExplicit.methods in
  (forall name rest,
      passwd (world self) name = None ->
      FilemakerExplicit.make_item_user filename (VStr name) self
        = Raise LookupError self
      /\ for_ (FilemakerExplicit.for_key methods filename)
              ((VStr "user", VStr name) :: rest) self
         = Raise LookupError self)
  /\ (forall name rest,
        groups (world self) name = None ->
        FilemakerExplicit.make_item_group filename (VStr name) self
          = Raise LookupError self
        /\ for_ (FilemakerExplicit.for_key methods filename)
                ((VStr "group", VStr name) :: rest) self
           = Raise LookupError self)
  /\ (forall text rest,
        FilemakerExplicit.make_item_mode filename (VStr text) self
          = Raise TypeError self
        /\ for_ (FilemakerExplicit.for_key methods filename)
                ((VStr "mode", VStr text) :: rest) self
           = Raise TypeError self).
Proof.
  intros methods. destruct self as [w st]. cbn [world]. repeat apply conj.
  - intros name rest Hpw.
    assert (H : FilemakerExplicit.make_item_user filename (VStr name)
                  (Self w st) = Raise LookupError (Self w st)).
    { unfold FilemakerExplicit.make_item_user, try_except_PermissionError,
        sys, shutil_chown_user. cbn [world]. now rewrite Hpw. }
    split; [exact H|]. cbn [for_]. apply bind_raise. exact H.
  - intros name rest Hgr.
    assert (H : FilemakerExplicit.make_item_group filename (VStr name)
                  (Self w st) = Raise LookupError (Self w st)).
    { unfold FilemakerExplicit.make_item_group, try_except_PermissionError,
        sys, shutil_chown_group. cbn [world]. now rewrite Hgr. }
    split; [exact H|]. cbn [for_]. apply bind_raise. exact H.
  - intros text rest.
    assert (H : FilemakerExplicit.make_item_mode filename (VStr text)
                  (Self w st) = Raise TypeError (Self w st)).
    { unfold FilemakerExplicit.make_item_mode, try_except_PermissionError,
        sys, os_chmod. cbn [world as_int].
      now destruct (path_arg_typed filename). }
    split; [exact H|]. cbn [for_]. apply bind_raise. exact H.
Qed.

Lemma explicit_other_errors_escape_witness :
  FilemakerExplicit.make_item_user (VStr "f") (VStr "nobody") demo_self
  = Raise LookupError demo_self.
Proof.
  exact (proj1 (proj1 (explicit_other_errors_escape (VStr "f") demo_self)
                  "nobody" [] eq_refl)).
Defined.

(** ** create_files: what comes out of the scope *)

Lemma try_finally_raised {St A} (m : M St A) (f : M St unit) s s' :
  f (state_of (m s)) = Ok tt s' ->
  raised (try_finally m f s) = raised (m s).
Proof.
  unfold try_finally. destruct (m s) as [a s1|e s1]; cbn; now intros ->.
Qed.



(** ** Confinement *)

Lemma untouched_refl root a : untouched_outside root a a.
Proof. now intros p. Qed.

Lemma untouched_trans root a b c :
  untouched_outside root a b -> untouched_outside root b c ->
  untouched_outside root a c.
Proof. intros H1 H2 p Hp. now rewrite H2, H1. Qed.

Lemma untouched_deeper root root' a b :
  below root root' -> untouched_outside root' a b ->
  untouched_outside root a b.
Proof.
  intros Hr H p Hp. apply H. intros Hp'. apply Hp.
  unfold below in *. now transitivity root'.
Qed.

Lemma untouched_fs root a b : fs b = fs a -> untouched_outside root a b.
Proof. intros H p _. now rewrite H. Qed.

Lemma untouched_insert root p n w :
  below root p ->
  untouched_outside root w (set_fs (<[p := n]> (fs w)) w).
Proof.
  intros Hp q Hq. cbn. apply lookup_insert_ne. now intros ->.
Qed.

Lemma below_snoc (p : path) c : below p (p ++ [c])%list.
Proof. now exists [c]. Qed.

Lemma mkdir_untouched c self :
  plain_name c = true ->
  is_dir (fs (world self)) (cwd (world self)) = true ->
  untouched_outside (cwd (world self)) (world self)
    (world (state_of (Filemaker.mkdir (VStr c) self))).
Proof.
  intros Hc Hd. unfold Filemaker.mkdir, sys, os_mkdir.
  rewrite (resolve_plain c Hc _ Hd).
  destruct (fs (world self) !! _); [apply untouched_refl|].
  destruct (fs (world self) !! parent _) as [[[] ? ? ?]|];
    try apply untouched_refl.
  cbn [state_of world]. apply untouched_insert, below_snoc.
Qed.

Lemma make_file_untouched c content self :
  plain_name c = true ->
  is_dir (fs (world self)) (cwd (world self)) = true ->
  untouched_outside (cwd (world self)) (world self)
    (world (state_of (Filemaker.make_file (VStr c) content self))).
Proof.
  intros Hc Hd. unfold Filemaker.make_file, bind, sys, open_w.
  rewrite (resolve_plain c Hc _ Hd).
  set (p := (cwd (world self) ++ [c])%list).
  assert (Hw : forall n,
            untouched_outside (cwd (world self)) (world self)
              (world (state_of
                 (match fp_write p content
                          (set_fs (<[p := n]> (fs (world self))) (world self))
                  with
                  | Ok a w => Ok a (Self w (_curdir self))
                  | Raise e w => Raise e (Self w (_curdir self))
                  end)))).
  { intros n. unfold fp_write. destruct content;
      try (cbn; apply untouched_insert, below_snoc).
    cbn [fs set_fs]. rewrite lookup_insert_eq. destruct n as [k m u g].
    cbn [state_of world].
    eapply untouched_trans; [apply (untouched_insert _ p), below_snoc|].
    apply untouched_insert, below_snoc. }
  destruct (fs (world self) !! p) as [[[] m u g]|].
  - apply untouched_refl.
  - destruct (trailing_slash c); [apply untouched_refl|]. cbn [world].
    apply Hw.
  - destruct (trailing_slash c); [apply untouched_refl|].
    destruct (fs (world self) !! parent p) as [[[] ? ? ?]|];
      try apply untouched_refl.
    cbn [world]. apply Hw.
Qed.

Lemma pushd_fs d self :
  fs (world (state_of (Filemaker.pushd d self))) = fs (world self).
Proof.
  unfold Filemaker.pushd, bind, sys, os_path_abspath, os_getcwd,
    _curdir_append, os_chdir.
  destruct d; try reflexivity. cbn [world _curdir].
  destruct (fs (world self) !! _) as [[[] ? ? ?]|]; try reflexivity.
  now destruct (existsb has_nul _).
Qed.

Lemma popd_fs self :
  fs (world (state_of (Filemaker.popd self))) = fs (world self).
Proof.
  unfold Filemaker.popd, bind, _curdir_pop, sys, os_chdir.
  destruct (last (_curdir self)); [|reflexivity]. cbn [world _curdir].
  destruct (fs (world self) !! _) as [[[] ? ? ?]|]; try reflexivity.
  now destruct (existsb has_nul _).
Qed.

Lemma implicit_walk_settled item a b :
  FilemakerBase._make_item Filemaker.methods item a = Ok tt b -> settled a b.
Proof.
  apply base_walk_Ok; eauto using settled_refl, settled_trans.
  - apply mkdir_settled.
  - apply make_file_settled.
  - apply enter_leave_settled.
Qed.

Lemma value2str_plain {St} val (s s' : St) name :
  plain_value val = true ->
  value2str val s = Ok name s' -> s' = s /\ plain_name name = true.
Proof.
  unfold plain_value. rewrite !value2str_cases.
  destruct val; intros Hp [= <- <-]; auto.
Qed.

Lemma for_untouched {A} (body : A -> M filemaker unit) l :
  Forall (fun x =>
            (forall s, is_dir (fs (world s)) (cwd (world s)) = true ->
                       untouched_outside (cwd (world s)) (world s)
                         (world (state_of (body x s))))
            /\ (forall s s', body x s = Ok tt s' -> settled s s')) l ->
  forall s, is_dir (fs (world s)) (cwd (world s)) = true ->
            untouched_outside (cwd (world s)) (world s)
              (world (state_of (for_ body l s))).
Proof.
  induction 1 as [|x l [Hx Hset] _ IH]; intros s Hd; cbn [for_].
  - apply untouched_refl.
  - specialize (Hx s Hd). unfold bind.
    destruct (body x s) as [[] s1|e s1] eqn:Hb; [|exact Hx].
    destruct (Hset s s1 Hb) as (Hcwd & _ & Hdirs).
    cbn [state_of] in Hx. eapply untouched_trans; [exact Hx|].
    rewrite <- Hcwd. apply IH. rewrite Hcwd. now apply Hdirs.
Qed.

Lemma leaf_untouched item self :
  plain_value item = true ->
  is_dir (fs (world self)) (cwd (world self)) = true ->
  untouched_outside (cwd (world self)) (world self)
    (world (state_of ((let* name := value2str item in
                       Filemaker.make_file (VStr name) (VStr "")) self))).
Proof.
  intros Hp Hd. unfold bind at 1.
  destruct (value2str item self) as [name s1|e s1] eqn:Hv.
  - apply (value2str_plain _ _ _ _ Hp) in Hv as (-> & Hname).
    now apply make_file_untouched.
  - pose proof (value2str_pure item self) as Hs. rewrite Hv in Hs.
    cbn in Hs. subst s1. apply untouched_refl.
Qed.

Lemma entry_untouched k v self :
  plain_value k = true ->
  (is_list_dict_None v = true ->
   forall s, is_dir (fs (world s)) (cwd (world s)) = true ->
             untouched_outside (cwd (world s)) (world s)
               (world (state_of
                  (match v with
                   | VNone => ret tt
                   | _ => FilemakerBase._make_item Filemaker.methods v
                   end s)))) ->
  is_dir (fs (world self)) (cwd (world self)) = true ->
  untouched_outside (cwd (world self)) (world self)
    (world (state_of
       ((let* k := value2str k in
         if is_list_dict_None v then
           Filemaker.mkdir (VStr k) ;;
           Filemaker.pushd (VStr k) ;;
           match v with
           | VNone => ret tt
           | _ => FilemakerBase._make_item Filemaker.methods v
           end ;;
           Filemaker.popd
         else
           let* content := value2str v in
           Filemaker.make_file (VStr k) (VStr content)) self))).
Proof.
  intros Hk Hin Hd. unfold bind at 1.
  destruct (value2str k self) as [name s1|e s1] eqn:Hv.
  2:{ pose proof (value2str_pure k self) as Hs. rewrite Hv in Hs.
      cbn in Hs. subst s1. apply untouched_refl. }
  apply (value2str_plain _ _ _ _ Hk) in Hv as (-> & Hname).
  destruct (is_list_dict_None v) eqn:Hlv.
  - specialize (Hin eq_refl).
    pose proof (mkdir_untouched name self Hname Hd) as Hmk.
    unfold bind at 1.
    destruct (Filemaker.mkdir (VStr name) self) as [[] s1|e s1] eqn:Emk;
      [|exact Hmk].
    cbn [state_of] in Hmk. eapply untouched_trans; [exact Hmk|].
    apply mkdir_Ok in Emk as (_ & Hcwd1 & Hdirs1).
    assert (Hd1 : is_dir (fs (world s1)) (cwd (world s1)) = true).
    { rewrite Hcwd1. now apply Hdirs1. }
    pose proof (pushd_fs (VStr name) s1) as Hpfs.
    unfold bind at 1.
    destruct (Filemaker.pushd (VStr name) s1) as [[] s2|e s2] eqn:Epush;
      [|now apply untouched_fs].
    cbn [state_of] in Hpfs.
    apply (untouched_trans _ _ (world s2)); [now apply untouched_fs|].
    destruct (pushd_Ok_name _ _ _ Epush) as (name' & [= <-] & Hcwd2).
    rewrite (abspath_plain name Hname) in Hcwd2.
    apply pushd_Ok in Epush as (_ & _ & Hd2). rewrite <- Hpfs in Hd2.
    assert (Hdeep : below (cwd (world self)) (cwd (world s2))).
    { rewrite Hcwd2, Hcwd1. apply below_snoc. }
    specialize (Hin s2 Hd2). apply (untouched_deeper _ _ _ _ Hdeep) in Hin.
    unfold bind at 1.
    destruct (match v with
              | VNone => ret tt
              | _ => FilemakerBase._make_item Filemaker.methods v
              end s2) as [[] s3|e s3]; [|exact Hin].
    cbn [state_of] in Hin. eapply untouched_trans; [exact Hin|].
    apply untouched_fs, popd_fs.
  - unfold bind at 1.
    destruct (value2str v self) as [content s1|e s1] eqn:Hc.
    + pose proof (value2str_pure v self) as Hs. rewrite Hc in Hs.
      cbn in Hs. subst s1. now apply make_file_untouched.
    + pose proof (value2str_pure v self) as Hs. rewrite Hc in Hs.
      cbn in Hs. subst s1. apply untouched_refl.
Qed.

Lemma entry_settled k v s s' :
  (let* k := value2str k in
   if is_list_dict_None v then
     Filemaker.mkdir (VStr k) ;;
     Filemaker.pushd (VStr k) ;;
     match v with
     | VNone => ret tt
     | _ => FilemakerBase._make_item Filemaker.methods v
     end ;;
     Filemaker.popd
   else
     let* content := value2str v in
     Filemaker.make_file (VStr k) (VStr content)) s = Ok tt s' ->
  settled s s'.
Proof.
  intros H. apply (implicit_walk_settled (VDict [(k, v)])).
  cbn [FilemakerBase._make_item]. unfold FilemakerBase.make_dict_item_.
  cbn [for_ mkdir pushd popd make_file Filemaker.methods].
  now rewrite (bind_step _ _ _ _ _ H).
Qed.

Lemma walk_untouched item :
  all_plain item = true ->
  forall self,
    is_dir (fs (world self)) (cwd (world self)) = true ->
    untouched_outside (cwd (world self)) (world self)
      (world (state_of (FilemakerBase._make_item Filemaker.methods item self))).
Proof.
  induction item as [| | | | | | |lst IH|dct IH] using pyval_ind;
    try (intros Hp self Hd; now apply leaf_untouched).
  - intros Hp. cbn [all_plain] in Hp. cbn [FilemakerBase._make_item].
    unfold FilemakerBase.make_list_item_. apply for_untouched.
    rewrite forallb_forall in Hp. apply Forall_forall. intros x Hx.
    rewrite Forall_forall in IH. split.
    + apply IH; [exact Hx|]. apply Hp. now apply list_elem_of_In.
    + intros s s'. apply implicit_walk_settled.
  - intros Hp. cbn [all_plain] in Hp. cbn [FilemakerBase._make_item].
    unfold FilemakerBase.make_dict_item_. apply for_untouched.
    rewrite forallb_forall in Hp. apply Forall_forall. intros [k v] Hx.
    rewrite Forall_forall in IH. specialize (IH _ Hx). cbn in IH.
    apply list_elem_of_In in Hx. specialize (Hp _ Hx). cbn in Hp.
    apply andb_prop in Hp as [Hk Hv]. split.
    + intros s Hd. cbn [mkdir pushd popd make_file Filemaker.methods].
      apply entry_untouched; [exact Hk| |exact Hd].
      intros Hlv s0 Hd0. destruct v; try discriminate;
        [apply untouched_refl | now apply IH | now apply IH].
    + intros s s'. cbn [mkdir pushd popd make_file Filemaker.methods].
      apply entry_settled.
Qed.

(** X15: a tree of the implicit dialect in which every name is one plain
    component stays below the directory it is made in.  However the walk
    ends, returning or raising half way, no entry outside the working
    directory it started in has been made, changed or removed. *)
Theorem implicit_walk_confined (item : pyval) (self : filemaker) (p : path) :
  all_plain item = true ->
  is_dir (fs (world self)) (cwd (world self)) = true ->
  ~ below (cwd (world self)) p ->
  fs (world (state_of (FilemakerBase._make_item Filemaker.methods item self)))
    !! p
  = fs (world self) !! p.
Proof. intros Hp Hd. now apply walk_untouched. Qed.

Lemma implicit_walk_confined_witness :
  fs (world (state_of (FilemakerBase._make_item Filemaker.methods
                         example_tree demo_self))) !! ["tmp"; "t"]
  = Some new_dir.
Proof.
  apply (implicit_walk_confined example_tree demo_self ["tmp"; "t"]).
  - reflexivity.
  - reflexivity.
  - intros [k Hk]. discriminate.
Defined.

(** ** The text of a path and back *)

Lemma append_empty_r (s : string) : s +:+ "" = s.
Proof.
  induction s as [|a s IH]; [reflexivity|].
  change (String a (s +:+ "") = String a s). now rewrite IH.
Qed.

Lemma split_slash_cons (s : string) : exists w ws, split_slash s = w :: ws.
Proof.
  induction s as [|a s (w & ws & IH)]; cbn; [eauto|].
  destruct (Ascii.eqb a "/"); [eauto|]. rewrite IH. eauto.
Qed.

(** A text without a slash in front of another text. *)
Lemma split_slash_append (c x s w : string) ws :
  split_slash c = [x] -> split_slash s = w :: ws ->
  split_slash (c +:+ s) = (x +:+ w) :: ws.
Proof.
  revert x. induction c as [|a c IH]; intros x Hc Hs.
  - cbn in Hc. injection Hc as <-. exact Hs.
  - change (String a c +:+ s) with (String a (c +:+ s)).
    cbn [split_slash] in Hc |- *. destruct (Ascii.eqb a "/").
    + destruct (split_slash_cons c) as (w' & ws' & Hw).
      rewrite Hw in Hc. discriminate.
    + destruct (split_slash c) as [|w' [|? ?]] eqn:Hw; try discriminate.
      * destruct (split_slash_cons c) as (? & ? & Hw').
        rewrite Hw in Hw'. discriminate.
      * injection Hc as <-. now rewrite (IH w' eq_refl Hs).
Qed.

Lemma plain_name_split c : plain_name c = true -> split_slash c = [c].
Proof.
  unfold plain_name. intros H. apply andb_prop in H as [_ H].
  destruct (split_slash c) as [|c' [|? ?]]; try discriminate.
  now apply String.eqb_eq in H as ->.
Qed.

Lemma components_joined (p : path) :
  Forall (fun c => plain_name c = true) p ->
  let text := fold_right (fun c acc => "/" +:+ c +:+ acc) "" p in
  components text = p /\ (text = "" \/ exists r, text = String "/" r).
Proof.
  induction 1 as [|c p Hc _ [IH Hshape]]; cbn [fold_right].
  - split; [reflexivity|now left].
  - split; [|right; eexists; reflexivity].
    set (rest := fold_right _ _ p) in *.
    change (components (String "/" (c +:+ rest)) = c :: p).
    unfold components. cbn [split_slash Ascii.eqb Bool.eqb].
    change (filter (fun c0 => nonempty c0 = true)
              ("" :: split_slash (c +:+ rest)) = c :: p).
    rewrite filter_cons_False by (cbn; discriminate).
    pose proof (plain_name_split c Hc) as Hsplit.
    assert (Hne : nonempty c = true).
    { pose proof (plain_name_facts c Hc) as (_ & Hne & _).
      unfold nonempty. now rewrite Hne. }
    destruct Hshape as [Hrest|[r Hrest]].
    + rewrite Hrest in *.
      rewrite (split_slash_append c c "" "" [] Hsplit eq_refl).
      rewrite append_empty_r. rewrite filter_cons_True by exact Hne.
      f_equal. exact IH.
    + rewrite Hrest in *.
      rewrite (split_slash_append c c (String "/" r) "" (split_slash r)
                 Hsplit eq_refl).
      rewrite append_empty_r. rewrite filter_cons_True by exact Hne.
      f_equal. unfold components in IH. cbn [split_slash Ascii.eqb Bool.eqb] in IH.
      change (filter (fun c0 => nonempty c0 = true)
                ("" :: split_slash r) = p) in IH.
      rewrite filter_cons_False in IH by (cbn; discriminate).
      exact IH.
Qed.

Lemma fold_left_step_plain (p q : path) :
  Forall (fun c => plain_name c = true) p ->
  fold_left step p q = (q ++ p)%list.
Proof.
  intros H. revert q. induction H as [|c p Hc _ IH]; intros q; cbn.
  - now rewrite app_nil_r.
  - pose proof (plain_name_facts c Hc) as (_ & _ & _ & _ & _ & Hstep).
    rewrite Hstep, IH, <- app_assoc. reflexivity.
Qed.

(** [abspath] gives back a path made of plain components from its text. *)
Lemma abspath_path_str w (p : path) :
  Forall (fun c => plain_name c = true) p ->
  abspath w (path_str p) = p.
Proof.
  intros Hp. destruct p as [|c p]; [reflexivity|].
  destruct (components_joined (c :: p) Hp) as [Hcomp _].
  unfold abspath, path_str. cbn zeta in Hcomp. rewrite Hcomp.
  cbn [fold_right isabs String.append Ascii.eqb Bool.eqb].
  now rewrite fold_left_step_plain.
Qed.

(** ** create_files with clean-up leaves no trace *)

Lemma materialize_untouched fresh filedef w :
  Forall (fun c => plain_name c = true) fresh ->
  all_plain filedef = true ->
  untouched_outside fresh w (state_of (materialize fresh filedef w)).
Proof.
  intros Hfresh Hplain. unfold materialize, Filemaker.new,
    Filemaker.__init__, FilemakerBase.__init__.
  cbn [pushd Filemaker.methods]. unfold bind.
  pose proof (pushd_fs (VStr (path_str fresh)) (Self w [])) as Hfs.
  destruct (Filemaker.pushd (VStr (path_str fresh)) (Self w []))
    as [[] s1|e s1] eqn:Hpush; cbn [state_of world] in Hfs.
  - destruct (pushd_Ok_name _ _ _ Hpush) as (name & [= <-] & Hcwd).
    cbn [world] in Hcwd. rewrite (abspath_path_str _ _ Hfresh) in Hcwd.
    apply pushd_Ok in Hpush as (_ & _ & Hd). cbn [world] in Hd.
    rewrite <- Hfs in Hd.
    pose proof (walk_untouched filedef Hplain s1 Hd) as H.
    rewrite Hcwd in H.
    assert (H' : untouched_outside fresh w
              (world (state_of (FilemakerBase._make_item Filemaker.methods
                                  filedef s1)))).
    { eapply untouched_trans; [|exact H]. now apply untouched_fs. }
    now destruct (FilemakerBase._make_item Filemaker.methods filedef s1)
      as [[] s2|e s2].
  - now apply untouched_fs.
Qed.



(** ** Names that collide *)

Lemma value2str_any_state {St St'} val (s : St) (s' : St') name :
  value2str val s = Ok name s -> value2str val s' = Ok name s'.
Proof.
  rewrite !value2str_cases. destruct val; intros [= <-]; reflexivity.
Qed.

(** [make_file] with text for a name and a content, in one step. *)
Lemma make_file_text name text self :
  Filemaker.make_file (VStr name) (VStr text) self
  = match resolve (world self) name with
    | inl e => Raise e self
    | inr p =>
        match fs (world self) !! p with
        | Some (Node Dir _ _ _) => Raise IsADirectoryError self
        | Some (Node (File _) m u g) =>
            if trailing_slash name then Raise NotADirectoryError self
            else Ok tt (Self (set_fs (<[p := Node (File text) m u g]>
                                        (fs (world self))) (world self))
                             (_curdir self))
        | None =>
            if trailing_slash name then Raise IsADirectoryError self
            else
              match fs (world self) !! parent p with
              | Some (Node Dir _ _ _) =>
                  Ok tt (Self (set_fs (<[p := new_file text]>
                                         (fs (world self))) (world self))
                              (_curdir self))
              | Some _ => Raise NotADirectoryError self
              | None => Raise FileNotFoundError self
              end
        end
    end.
Proof.
  destruct self as [w st].
  unfold Filemaker.make_file, bind, sys, open_w. cbn [world _curdir].
  destruct (resolve w name) as [e|p]; [reflexivity|].
  destruct (fs w !! p) as [[[] m u g]|]; [reflexivity| |].
  - destruct (trailing_slash name); [reflexivity|].
    cbn [fp_write fs set_fs world _curdir]. rewrite lookup_insert_eq.
    now rewrite set_fs_set_fs, insert_insert_eq.
  - destruct (trailing_slash name); [reflexivity|].
    destruct (fs w !! parent p) as [[[] ? ? ?]|]; try reflexivity.
    cbn [fp_write fs set_fs world _curdir]. rewrite lookup_insert_eq.
    unfold new_file. now rewrite set_fs_set_fs, insert_insert_eq.
Qed.

Lemma make_file_again name c1 c2 self s1 :
  Filemaker.make_file (VStr name) (VStr c1) self = Ok tt s1 ->
  Filemaker.make_file (VStr name) (VStr c2) s1
  = Filemaker.make_file (VStr name) (VStr c2) self.
Proof.
  intros H. rewrite make_file_text in H. rewrite (make_file_text _ _ self).
  destruct (resolve (world self) name) as [e|p] eqn:Hres; [discriminate|].
  assert (Hin : forall n, is_dir (fs (world self)) p = false ->
            resolve (set_fs (<[p := n]> (fs (world self))) (world self)) name
            = inr p).
  { intros n Hnd. unfold resolve in *. cbn [fs cwd set_fs].
    destruct (has_nul name); [discriminate|].
    destruct (String.eqb name ""); [discriminate|].
    now apply namei_insert_file. }
  destruct (fs (world self) !! p) as [[[] m u g]|] eqn:Hp;
    try discriminate; destruct (trailing_slash name) eqn:Hts;
    try discriminate.
  - injection H as <-. rewrite make_file_text. cbn [world _curdir].
    rewrite Hin by (unfold is_dir; now rewrite Hp).
    cbn [fs set_fs]. rewrite lookup_insert_eq, Hts.
    now rewrite set_fs_set_fs, insert_insert_eq.
  - destruct (fs (world self) !! parent p) as [[[] ? ? ?]|] eqn:Hpar;
      try discriminate.
    injection H as <-. rewrite make_file_text. cbn [world _curdir].
    rewrite Hin by (unfold is_dir; now rewrite Hp).
    cbn [fs set_fs]. rewrite lookup_insert_eq, Hts. unfold new_file.
    now rewrite set_fs_set_fs, insert_insert_eq.
Qed.

(** X17: names are not checked against each other.  Two keys of a mapping
    that [value2str] turns into the same name (the number [1] and the text
    [1], say) and that both hold the content of a file are both written, to
    the same file: no error is raised, and the mapping is made as if the
    earlier of the two entries were not there. *)
Theorem colliding_names_last_wins (k1 k2 : pyval) (name c1 c2 : string)
    (self s1 : filemaker) :
  value2str k1 self = Ok name self ->
  value2str k2 self = Ok name self ->
  FilemakerBase._make_item Filemaker.methods (VDict [(k1, VStr c1)]) self
    = Ok tt s1 ->
  FilemakerBase._make_item Filemaker.methods
    (VDict [(k1, VStr c1); (k2, VStr c2)]) self
  = FilemakerBase._make_item Filemaker.methods (VDict [(k2, VStr c2)]) self.
Proof.
  intros Hk1 Hk2 Hrun. cbn [FilemakerBase._make_item] in *.
  unfold FilemakerBase.make_dict_item_ in *.
  cbn [for_ is_list_dict_None make_file Filemaker.methods] in *.
  change (is_list_dict_None (VStr c1)) with false in *.
  change (is_list_dict_None (VStr c2)) with false in *.
  change (value2str (VStr c1)) with (@ret filemaker string c1) in *.
  change (value2str (VStr c2)) with (@ret filemaker string c2) in *.
  cbv iota in *.
  rewrite bind_ret_tt, (bind_step _ _ _ _ _ Hk1), bind_ret_l in Hrun.
  rewrite bind_assoc, (bind_step _ _ _ _ _ Hk1), bind_assoc, bind_ret_l.
  rewrite (bind_step _ _ _ _ _ Hrun), !bind_ret_tt.
  rewrite (bind_step _ _ _ _ _ (value2str_any_state k2 self s1 name Hk2)).
  rewrite (bind_step _ _ _ _ _ Hk2), !bind_ret_l.
  exact (make_file_again name c1 c2 self s1 Hrun).
Qed.

Lemma colliding_names_last_wins_witness :
  FilemakerBase._make_item Filemaker.methods
    (VDict [(VInt 1, VStr "a"); (VStr "1", VStr "b")]) demo_self
  = Ok tt (Self (set_fs (<[["home"; "1"] := new_file "b"]> (fs demo_world))
                   demo_world) []).
Proof.
  rewrite (colliding_names_last_wins (VInt 1) (VStr "1") "1" "a" "b"
             demo_self
             (Self (set_fs (<[["home"; "1"] := new_file "a"]> (fs demo_world))
                      demo_world) [])).
  - vm_compute. reflexivity.
  - vm_compute. reflexivity.
  - reflexivity.
  - vm_compute. reflexivity.
Defined.

(** ** What the two dialects share *)

Lemma for_ext_Forall {St A} (f g : A -> M St unit) l :
  Forall (fun x => forall s, f x s = g x s) l ->
  forall s, for_ f l s = for_ g l s.
Proof.
  induction 1 as [|x l Hx _ IH]; intros s; cbn [for_]; [reflexivity|].
  unfold bind. rewrite Hx. destruct (g x s); auto.
Qed.

(** X18: [FilemakerExplicit] overrides the handling of mappings and
    nothing else.  A tree without a mapping, a name or sequences of names
    nested to any depth, is made by the explicit dialect exactly as by the
    implicit one over the same four methods: every name an empty file. *)
Theorem dialects_agree_without_mapping (St : Type)
    (self : backend_explicit St) (item : pyval) (s : St) :
  no_mapping item = true ->
  FilemakerExplicit._make_item self item s
  = FilemakerBase._make_item (base self) item s.
Proof.
  revert s.
  induction item as [| | | | | | |lst IH|dct IH] using pyval_ind;
    intros st Hno; try reflexivity; [|discriminate].
  cbn [FilemakerExplicit._make_item FilemakerBase._make_item].
  unfold FilemakerBase.make_list_item_. apply for_ext_Forall.
  cbn [no_mapping] in Hno. rewrite forallb_forall in Hno.
  apply Forall_forall. intros x Hx s0. rewrite Forall_forall in IH.
  apply IH; [exact Hx|]. apply Hno. now apply list_elem_of_In.
Qed.

Lemma dialects_agree_without_mapping_witness :
  FilemakerExplicit._make_item FilemakerExplicit.methods
    (VList [VStr "a"; VList [VInt 1; VStr "b"]]) demo_self
  = FilemakerBase._make_item Filemaker.methods
      (VList [VStr "a"; VList [VInt 1; VStr "b"]]) demo_self.
Proof.
  exact (dialects_agree_without_mapping filemaker FilemakerExplicit.methods
           (VList [VStr "a"; VList [VInt 1; VStr "b"]]) demo_self eq_refl).
Defined.
